(** * datapipe: image I/O ([datapipe/io/images.py]) and the null denoiser
      ([datapipe/denoising/null.py])

    A shallow embedding of the Python sources and the properties proved
    about them.

    Modelling conventions.
    - Python [str] values are [string] (sequences of 8-bit characters);
      [str.lower] is modelled on the ASCII letters.
    - Python [int] is [Z]; NumPy [float64] is the kernel's binary64
      [float], so [np.isnan] is [PrimFloat.is_nan] and [+] is IEEE addition.
    - A NumPy array is its shape together with its row-major buffer.
    - Functions that raise are functions into [result]; functions that also
      touch the file system, the open handles or standard output run in the
      state-and-exception monad [M] over [world].  An exception leaves the
      world as it was when it was raised, so that what was opened and not
      closed remains visible.
    - A generator is modelled by the finite list of the values it yields
      together with the exception, if any, that ends it.
    - astropy, ctapipe, pyhessio and matplotlib are outside the repository:
      a FITS file is the list of its HDUs (image flag, header cards written by
      the program, data).  What astropy refuses to put in a header and the
      form in which it writes a card are taken as given ([refused],
      [refused_comment], [stored]); the structural keywords astropy maintains
      are not modelled.
    - A file system maps the paths the program uses to regular files and
      directories; the current directory and the root are always there and
      are not listed. *)

From Stdlib Require Import ZArith Bool List String Ascii Lia Floats.
From Stdlib Require Import DecimalString.
From stdpp Require Import base tactics option list gmap strings.

Local Open Scope Z_scope.
Local Open Scope string_scope.

(* ===================================================================== *)
(** * Part I.  The embedding                                              *)
(* ===================================================================== *)

(** ** Python strings and exceptions *)

Module Py.

Definition lower_char (c : ascii) : ascii :=
  let n := nat_of_ascii c in
  if ((65 <=? n)%nat && (n <=? 90)%nat)%bool then ascii_of_nat (n + 32) else c.

(** [str.lower()]. *)
Fixpoint lower (s : string) : string :=
  match s with
  | EmptyString => EmptyString
  | String c r => String (lower_char c) (lower r)
  end.

Definition upper_char (c : ascii) : ascii :=
  let n := nat_of_ascii c in
  if ((97 <=? n)%nat && (n <=? 122)%nat)%bool then ascii_of_nat (n - 32) else c.

(** [str.upper()]. *)
Fixpoint upper (s : string) : string :=
  match s with
  | EmptyString => EmptyString
  | String c r => String (upper_char c) (upper r)
  end.

(** [s.startswith(p)]. *)
Definition startswith (s p : string) : bool := String.prefix p s.

(** [s.endswith(suffix)] for one suffix. *)
Definition endswith (s suffix : string) : bool :=
  let n := String.length s in
  let k := String.length suffix in
  ((k <=? n)%nat && String.eqb (substring (n - k) k s) suffix)%bool.

(** [s.endswith(tuple)]: any of the suffixes. *)
Definition endswith_any (s : string) (suffixes : list string) : bool :=
  existsb (endswith s) suffixes.

(** [x in tuple] for strings. *)
Definition str_in (x : string) (l : list string) : bool :=
  existsb (String.eqb x) l.

(** The exceptions the modelled code raises or meets.  The first five are the
    classes of [images.py]; [EmptyReferenceImageError] and
    [EmptyOutputImageError] are those of [datapipe.benchmark.assess]. *)
Inductive exn : Type :=
| WrongHDUError (file_path : string) (hdu_index : Z)
| NotAnImageError (file_path : string) (hdu_index : Z)
| WrongDimensionError
| WrongFitsFileStructure (file_path : string)
| PyException (args : list string)
| KeyError (key : string)
| IndexError
| ValueError (msg : string)
| TypeError
| AttributeError (module_name attr : string)
| OSError (path : string)
| NotImplementedError (msg : string)
| EmptyReferenceImageError
| EmptyOutputImageError.

Inductive result (A : Type) : Type :=
| Ok (a : A)
| Raise (e : exn).
Arguments Ok {A} a.
Arguments Raise {A} e.

Definition rbind {A B} (r : result A) (k : A -> result B) : result B :=
  match r with
  | Ok a => k a
  | Raise e => Raise e
  end.

(** What running a generator to its end produces. *)
Record gen_run (A : Type) : Type := GenRun {
  yielded : list A;
  raised : option exn
}.
Arguments GenRun {A} yielded raised.
Arguments yielded {A} g.
Arguments raised {A} g.

End Py.
Import Py.

Declare Scope result_scope.
Delimit Scope result_scope with result.
Notation "'let*' x ':=' r 'in' k" := (rbind r (fun x => k))
  (at level 10, x pattern, r at level 100, k at level 200) : result_scope.

(** ** The file system seen through [os] and [os.path] *)

Module OS.

(** [posixpath.join(a, b)]. *)
Definition path_join (a b : string) : string :=
  if startswith b "/" then b
  else if (String.eqb a "" || endswith a "/")%bool then a ++ b
  else a ++ "/" ++ b.

(** [(p[:i], p[i:])] for [i = p.rfind('/') + 1], when [p] has a slash. *)
Fixpoint rsplit (p : string) : option (string * string) :=
  match p with
  | EmptyString => None
  | String c p' =>
      match rsplit p' with
      | Some (head, tail) => Some (String c head, tail)
      | None => if Ascii.eqb c "/" then Some ("/", p') else None
      end
  end.

(** [s.rstrip('/')]. *)
Fixpoint rstrip_slashes (s : string) : string :=
  match s with
  | EmptyString => EmptyString
  | String c s' =>
      match rstrip_slashes s' with
      | EmptyString => if Ascii.eqb c "/" then EmptyString else String c ""
      | r => String c r
      end
  end.

(** [posixpath.basename(p)]. *)
Definition basename (p : string) : string :=
  match rsplit p with
  | Some (_, tail) => tail
  | None => p
  end.

(** [posixpath.dirname(p)]: the head without its trailing slashes, unless it
    is made of slashes only. *)
Definition dirname (p : string) : string :=
  match rsplit p with
  | Some (head, _) =>
      match rstrip_slashes head with
      | EmptyString => head
      | stripped => stripped
      end
  | None => ""
  end.

End OS.

(** ** NumPy arrays *)

Module Np.

(** An [ndarray]: its shape and its row-major buffer. *)
Record ndarray (A : Type) : Type := NdArray {
  shape : list nat;
  data : list A
}.
Arguments NdArray {A} shape data.
Arguments shape {A} _.
Arguments data {A} _.

(** [a.ndim]. *)
Definition ndim {A} (a : ndarray A) : Z := Z.of_nat (length (shape a)).

(** What [fill_nan_pixels] needs of an element type: [np.isnan] on it and
    the element a Python [0] is stored as. *)
Class Dtype (A : Type) : Type := {
  isnan : A -> bool;
  zero : A;
  isnan_zero : isnan zero = false
}.

#[export] Instance float64 : Dtype float := {|
  isnan := PrimFloat.is_nan;
  zero := 0%float;
  isnan_zero := eq_refl
|}.

#[export] Instance int64 : Dtype Z := {|
  isnan := fun _ => false;
  zero := 0;
  isnan_zero := eq_refl
|}.

(** [np.count_nonzero] of a boolean buffer. *)
Definition count_nonzero (mask : list bool) : nat :=
  length (filter (fun b => b = true) mask).

(** [image[mask] = 0]: the entries under a true mask bit become [zero]. *)
Definition assign_masked_scalar {A} (mask : list bool) (v : A) (buf : list A)
  : list A :=
  zip_with (fun (m : bool) (x : A) => if m then v else x) mask buf.

(** [image[mask] = values]: the entries under a true mask bit take the
    values in order; [None] when there are too few values. *)
Fixpoint assign_masked_values {A} (mask : list bool) (values buf : list A)
  : option (list A) :=
  match mask, buf with
  | m :: mask', x :: buf' =>
      if m then
        match values with
        | v :: values' => cons v <$> assign_masked_values mask' values' buf'
        | [] => None
        end
      else cons x <$> assign_masked_values mask' values buf'
  | _, _ => Some []
  end.

End Np.
Import Np.

(** ** FITS files as astropy presents them *)

Module Fits.

(** A header value. *)
Inductive scalar : Type :=
| SInt (z : Z)
| SFloat (f : float)
| SStr (s : string)
| SBool (b : bool).

(** One header card: its value and its comment. *)
Record card : Type := Card {
  value : scalar;
  comment : string
}.

(** A header maps a keyword to its card.  astropy compares keywords without
    regard to case, so cards are stored under the upper-cased keyword. *)
Abbreviation header := (gmap string card).

(** [header[key]]. *)
Definition header_get (h : header) (key : string) : result scalar :=
  match h !! upper key with
  | Some c => Ok (value c)
  | None => Raise (KeyError key)
  end.

(** [header.comments[key]]. *)
Definition comments_get (h : header) (key : string) : result string :=
  match h !! upper key with
  | Some c => Ok (comment c)
  | None => Raise (KeyError key)
  end.

(** The header once the card of [key] holds [v]: a new card has an empty
    comment, an existing card keeps its comment. *)
Definition header_set (h : header) (key : string) (v : scalar) : header :=
  match h !! upper key with
  | Some c => <[upper key := Card v (comment c)]> h
  | None => <[upper key := Card v ""]> h
  end.

(** A header data unit.  [hdu.data] is the array of the unit, or [None] when
    the unit holds none: an image-typed unit without data (the primary unit
    of a file of tables, for one) has [is_image] true and [data] [None].
    The data of a unit that is not image-typed are not followed. *)
Record hdu : Type := Hdu {
  is_image : bool;
  hdr : header;
  hdu_data : option (ndarray float)
}.

(** [fits.PrimaryHDU(img)] and [fits.ImageHDU(img)]: image-typed units with
    no card set by the program yet. *)
Definition PrimaryHDU (img : ndarray float) : hdu := Hdu true ∅ (Some img).
Definition ImageHDU (img : ndarray float) : hdu := Hdu true ∅ (Some img).

Definition with_header (u : hdu) (h : header) : hdu :=
  Hdu (is_image u) h (hdu_data u).

Section Cards.

(** What astropy does with the values it is given.  [header[key] = v] and
    [header.comments[key] = text] raise [ValueError] for some of them
    ([refused key v] and [refused_comment key text] are then the message):
    a NaN or an infinite float, text that is not printable ASCII.  A card is
    written to a file in the fixed format of FITS, a float in at most 20
    characters, text without its trailing blanks: [stored key c] is the card
    that is read back from the file. *)
Variable refused : string -> scalar -> option string.
Variable refused_comment : string -> string -> option string.
Variable stored : string -> card -> card.

(** [header[key] = v]. *)
Definition setitem (h : header) (key : string) (v : scalar) : result header :=
  match refused key v with
  | Some msg => Raise (ValueError msg)
  | None => Ok (header_set h key v)
  end.

(** [header.comments[key] = text]. *)
Definition comments_set (h : header) (key : string) (text : string)
  : result header :=
  match h !! upper key with
  | Some c =>
      match refused_comment key text with
      | Some msg => Raise (ValueError msg)
      | None => Ok (<[upper key := Card (value c) text]> h)
      end
  | None => Raise (KeyError key)
  end.

(** A unit as a file holds it. *)
Definition on_disk (u : hdu) : hdu :=
  Hdu (is_image u) (map_imap (fun key c => Some (stored key c)) (hdr u))
      (hdu_data u).

End Cards.

End Fits.
Import Fits.

(** ** The world: files, open FITS handles, standard output *)

Module World.

Inductive file_content : Type :=
| FitsFile (hdus : list hdu)
| TextFile (text : string)
| OtherFile.

Inductive node : Type :=
| RegularFile (content : file_content)
| Directory (entries : list string).

Record world : Type := MkWorld {
  fs : gmap string node;
  (** the FITS files opened and not yet closed, most recent first *)
  open_fits : list string;
  (** the lines printed so far, oldest first *)
  stdout : list string
}.

(** State and exceptions. *)
Definition M (A : Type) : Type := world -> result A * world.

Definition ret {A} (a : A) : M A := fun w => (Ok a, w).
Definition raise {A} (e : exn) : M A := fun w => (Raise e, w).
Definition bind {A B} (m : M A) (k : A -> M B) : M B :=
  fun w => match m w with
           | (Ok a, w') => k a w'
           | (Raise e, w') => (Raise e, w')
           end.
Definition lift {A} (r : result A) : M A := fun w => (r, w).

(** [os.path.isfile], [os.path.isdir], [os.listdir] on a file system. *)
Definition isfile (t : gmap string node) (path : string) : bool :=
  match t !! path with
  | Some (RegularFile _) => true
  | _ => false
  end.

Definition isdir (t : gmap string node) (path : string) : bool :=
  match t !! path with
  | Some (Directory _) => true
  | _ => false
  end.

Definition listdir (t : gmap string node) (path : string)
  : result (list string) :=
  match t !! path with
  | Some (Directory entries) => Ok entries
  | _ => Raise (OSError path)
  end.

(** [print(line)]. *)
Definition print (line : string) : M unit :=
  fun w => (Ok tt, MkWorld (fs w) (open_fits w) (stdout w ++ [line])).

(** A file can be created at [path] when the path names a file and the
    directory it is in exists; a path without directory part is in the
    current directory. *)
Definition parent_exists (t : gmap string node) (path : string) : bool :=
  match OS.rstrip_slashes (OS.dirname path) with
  | EmptyString => true
  | _ => isdir t (OS.dirname path)
  end.

Definition creatable (t : gmap string node) (path : string) : bool :=
  (negb (String.eqb (OS.basename path) "") && parent_exists t path)%bool.

(** The listing of the directory of [path] gains, or loses, the name of
    the file. *)
Definition enter (t : gmap string node) (path : string) : gmap string node :=
  match t !! OS.dirname path with
  | Some (Directory entries) =>
      if str_in (OS.basename path) entries then t
      else <[OS.dirname path := Directory (entries ++ [OS.basename path])]> t
  | _ => t
  end.

Definition leave (t : gmap string node) (path : string) : gmap string node :=
  match t !! OS.dirname path with
  | Some (Directory entries) =>
      <[OS.dirname path :=
          Directory (filter (fun name => name <> OS.basename path) entries)]> t
  | _ => t
  end.

(** What opening [path] for writing leaves: a regular file is replaced, a
    new file is created in its directory; [OSError] ([IsADirectoryError],
    [FileNotFoundError]) for a directory and for a path in a directory that
    does not exist. *)
Definition write_file (path : string) (content : file_content) : M unit :=
  fun w =>
    match fs w !! path with
    | Some (Directory _) => (Raise (OSError path), w)
    | Some (RegularFile _) =>
        (Ok tt, MkWorld (<[path := RegularFile content]> (fs w))
                        (open_fits w) (stdout w))
    | None =>
        if creatable (fs w) path then
          (Ok tt, MkWorld (<[path := RegularFile content]> (enter (fs w) path))
                          (open_fits w) (stdout w))
        else (Raise (OSError path), w)
    end.

(** [os.remove(path)]. *)
Definition os_remove (path : string) : M unit :=
  fun w => if isfile (fs w) path
           then (Ok tt, MkWorld (delete path (leave (fs w) path))
                                (open_fits w) (stdout w))
           else (Raise (OSError path), w).

(** [fits.open(path)]: the HDU list of the file; the handle stays open
    until [close]. *)
Definition fits_open (path : string) : M (list hdu) :=
  fun w => match fs w !! path with
           | Some (RegularFile (FitsFile hdus)) =>
               (Ok hdus, MkWorld (fs w) (path :: open_fits w) (stdout w))
           | _ => (Raise (OSError path), w)
           end.

Fixpoint remove_first (path : string) (l : list string) : list string :=
  match l with
  | [] => []
  | p :: l' => if String.eqb p path then l' else p :: remove_first path l'
  end.

(** [with open(path, "w") as fd: fd.write(text)]. *)
Definition write_text (path text : string) : M unit :=
  write_file path (TextFile text).

(** [try: body except <classes handled by handler>: ...]. *)
Definition try_except {A} (body : M A) (handler : exn -> option (M A)) : M A :=
  fun w => match body w with
           | (Ok a, w') => (Ok a, w')
           | (Raise e, w') =>
               match handler e with
               | Some h => h w'
               | None => (Raise e, w')
               end
           end.

(** [hdu_list.close()] for the list opened from [path]. *)
Definition fits_close (path : string) : M unit :=
  fun w => (Ok tt, MkWorld (fs w) (remove_first path (open_fits w)) (stdout w)).

Section Writing.

(** The card astropy writes for a card of a header (see [Fits.on_disk]). *)
Variable stored : string -> card -> card.

(** [hdu_list.writeto(path)] (no overwrite): refuses an existing path. *)
Definition fits_writeto (hdus : list hdu) (path : string) : M unit :=
  fun w => match fs w !! path with
           | Some _ => (Raise (OSError path), w)
           | None => write_file path (FitsFile (on_disk stored <$> hdus)) w
           end.


End Writing.

End World.
Import World.

Declare Scope M_scope.
Delimit Scope M_scope with M.
Notation "'let*' x ':=' m 'in' k" := (bind m (fun x => k))
  (at level 10, x pattern, m at level 100, k at level 200) : M_scope.
Notation "m ';;' k" := (bind m (fun _ => k))
  (at level 100, k at level 200, right associativity) : M_scope.

(** ** [datapipe/io/images.py] *)

Module Images.

(** *** [fill_nan_pixels] *)

(** The arrays a caller holds, by reference: [fill_nan_pixels] writes into
    the array it is given. *)
Abbreviation heap A := (gmap nat (ndarray A)).

(** [fill_nan_pixels(image, noise_distribution)]: the returned mask and the
    heap afterwards.  [noise_distribution.rvs(size=n)] is the sampler given,
    returning a one-dimensional array; NumPy broadcasts an array of one
    value to every position under the mask, and otherwise wants as many
    values as positions.  [DEBUG] is [False].  Every reference a caller
    holds designates an array: the first case is not reachable from
    Python. *)
Definition fill_nan_pixels {A} `{Dtype A} (image : nat)
    (noise_distribution : option (nat -> list A)) (h : heap A)
  : result (ndarray bool) * heap A :=
  match h !! image with
  | None => (Raise TypeError, h)
  | Some a =>
      let nan_mask := NdArray (shape a) (map isnan (data a)) in
      match noise_distribution with
      | Some rvs =>
          let nan_noise_size := count_nonzero (data nan_mask) in
          let noise := rvs nan_noise_size in
          match noise with
          | [v] =>
              (Ok nan_mask,
               <[image := NdArray (shape a)
                            (assign_masked_scalar (data nan_mask) v (data a))]> h)
          | _ =>
              if (length noise =? nan_noise_size)%nat then
                match assign_masked_values (data nan_mask) noise (data a) with
                | Some buf => (Ok nan_mask, <[image := NdArray (shape a) buf]> h)
                | None => (Raise (ValueError "cannot assign input values"), h)
                end
              else (Raise (ValueError "cannot assign input values"), h)
          end
      | None =>
          (Ok nan_mask,
           <[image := NdArray (shape a)
                        (assign_masked_scalar (data nan_mask) zero (data a))]> h)
      end
  end.

(** *** Directory parser *)

Definition FILE_EXT : list string := [".simtel"; ".simtel.gz"; ".fits"; ".fit"].

(** [(max_num_files is not None) and (files_counter > max_num_files)]. *)
Definition over_limit (max_num_files : option Z) (files_counter : Z) : bool :=
  match max_num_files with
  | Some m => (files_counter >? m)%Z
  | None => false
  end.

Section Discovery.

(** [os.path.expanduser] depends on the environment and the password
    database; it is taken as given. *)
Variable expanduser : string -> string.
Variable t : gmap string node.

(** The [for file_name in os.listdir(directory_path)] loop of
    [image_files_in_dir]: the paths it yields. *)
Fixpoint image_files_in_dir_loop (directory_path : string)
    (max_num_files : option Z) (names : list string) (files_counter : Z)
  : list string :=
  match names with
  | [] => []
  | file_name :: names' =>
      let file_path := OS.path_join directory_path file_name in
      if (isfile t file_path && endswith_any (lower file_name) FILE_EXT)%bool
      then
        let files_counter := files_counter + 1 in
        if over_limit max_num_files files_counter then []
        else file_path ::
             image_files_in_dir_loop directory_path max_num_files names'
               files_counter
      else
        image_files_in_dir_loop directory_path max_num_files names'
          files_counter
  end.

Definition image_files_in_dir (directory_path : string)
    (max_num_files : option Z) : gen_run string :=
  let directory_path := expanduser directory_path in
  match listdir t directory_path with
  | Ok names =>
      GenRun (image_files_in_dir_loop directory_path max_num_files names 0) None
  | Raise e => GenRun [] (Some e)
  end.

(** The inner [for file_path in image_files_in_dir(path)] loop of
    [image_files_in_paths]: what it yields, the counter after it, and
    whether it left through [break]. *)
Fixpoint paths_dir_loop (max_num_files : option Z) (items : list string)
    (files_counter : Z) : list string * Z * bool :=
  match items with
  | [] => ([], files_counter, false)
  | file_path :: items' =>
      let files_counter := files_counter + 1 in
      if over_limit max_num_files files_counter then ([], files_counter, true)
      else
        let '(ys, c, broke) := paths_dir_loop max_num_files items' files_counter in
        (file_path :: ys, c, broke)
  end.

(** The outer [for path in path_list] loop.  The [break] of the inner loop
    leaves the inner loop only; the [break] of the regular-file branch leaves
    this one. *)
Fixpoint image_files_in_paths_loop (max_num_files : option Z)
    (path_list : list string) (files_counter : Z) : gen_run string :=
  match path_list with
  | [] => GenRun [] None
  | path :: path_list' =>
      let path := expanduser path in
      if isdir t path then
        let g := image_files_in_dir path None in
        let '(ys, files_counter, broke) :=
          paths_dir_loop max_num_files (yielded g) files_counter in
        match (if broke then None else raised g) with
        | Some e => GenRun ys (Some e)
        | None =>
            let r := image_files_in_paths_loop max_num_files path_list'
                       files_counter in
            GenRun (ys ++ yielded r) (raised r)
        end
      else if isfile t path then
        let files_counter := files_counter + 1 in
        if over_limit max_num_files files_counter then GenRun [] None
        else
          let r := image_files_in_paths_loop max_num_files path_list'
                     files_counter in
          GenRun (path :: yielded r) (raised r)
      else GenRun [] (Some (PyException ["Wrong item:"; path]))
  end.

Definition image_files_in_paths (path_list : list string)
    (max_num_files : option Z) : gen_run string :=
  image_files_in_paths_loop max_num_files path_list 0.

End Discovery.

(** *** Channel mixing in [simtel_event_to_images] *)

Definition SINGLE_CHANNEL_CAMERAS : list string := ["CHEC"; "DigiCam"; "FlashCam"].
Definition TWO_CHANNELS_CAMERAS : list string := ["ASTRICam"; "NectarCam"; "LSTCam"].

Definition ASTRI_CAM_CHANNEL_THRESHOLD : Z := 2 ^ 12 - 1.
Definition NECTAR_CAM_CHANNEL_THRESHOLD : Z := 2 ^ 12 - 1.
Definition LST_CAM_CHANNEL_THRESHOLD : Z := 2 ^ 12 - 1.

(** [a.max(axis=1)] of a two-dimensional integer array given by its rows: a
    row without samples has no maximum. *)
Fixpoint max_axis1 (a : list (list Z)) : result (list Z) :=
  match a with
  | [] => Ok []
  | [] :: _ => Raise (ValueError "zero-size array to reduction operation maximum")
  | (x :: row) :: a' =>
      (let* peaks := max_axis1 a' in Ok (fold_left Z.max row x :: peaks))%result
  end.

(** [r0_adc_samples[0].max(axis=1)]: the peak sample of each pixel in the
    first (high-gain) channel. *)
Definition high_gain_peak (r0_adc_samples : list (list (list Z)))
  : result (list Z) :=
  match r0_adc_samples !! 0%nat with
  | Some samples => max_axis1 samples
  | None => Raise IndexError
  end.

(** [calibrated_image[ch, mask] = 0] on an image given by its channels. *)
Definition zero_channel_where (calibrated_image : list (list float))
    (ch : nat) (mask : list bool) : result (list (list float)) :=
  match calibrated_image !! ch with
  | None => Raise IndexError
  | Some row =>
      if (length mask =? length row)%nat
      then Ok (<[ch := assign_masked_scalar mask 0%float row]> calibrated_image)
      else Raise IndexError
  end.

(** [calibrated_image.sum(axis=0)]: the channels added pixel by pixel, from
    the first channel on.  (An image without channels does not reach this
    point: indexing its channel 1 has raised before.) *)
Definition sum_axis0 (calibrated_image : list (list float)) : list float :=
  match calibrated_image with
  | [] => []
  | row :: rows => fold_left (zip_with PrimFloat.add) rows row
  end.

(** The three statements shared by the ASTRICam, NectarCam and LSTCam
    branches. *)
Definition merge_channels (threshold : Z)
    (calibrated_image : list (list float))
    (r0_adc_samples : list (list (list Z))) : result (list float) :=
  (let* peak := high_gain_peak r0_adc_samples in
   let* calibrated_image :=
     zero_channel_where calibrated_image 1
       (map (fun p : Z => (p <? threshold)%Z) peak) in
   let* peak := high_gain_peak r0_adc_samples in
   let* calibrated_image :=
     zero_channel_where calibrated_image 0
       (map (fun p : Z => (p >=? threshold)%Z) peak) in
   Ok (sum_axis0 calibrated_image))%result.

(** The calibrated image after the mixing block: still per channel, or one
    value per pixel. *)
Inductive calibrated : Type :=
| PerChannel (img : list (list float))
| Mixed (img : list float).

(** The block [if mix_channels: ...] of [simtel_event_to_images]. *)
Definition mix_channels_block (mix_channels : bool) (cam_id : string)
    (calibrated_image : list (list float))
    (r0_adc_samples : list (list (list Z))) : result calibrated :=
  if mix_channels then
    if String.eqb cam_id "ASTRICam" then
      (let* img := merge_channels ASTRI_CAM_CHANNEL_THRESHOLD
                     calibrated_image r0_adc_samples in Ok (Mixed img))%result
    else if String.eqb cam_id "NectarCam" then
      (let* img := merge_channels NECTAR_CAM_CHANNEL_THRESHOLD
                     calibrated_image r0_adc_samples in Ok (Mixed img))%result
    else if String.eqb cam_id "LSTCam" then
      (let* img := merge_channels LST_CAM_CHANNEL_THRESHOLD
                     calibrated_image r0_adc_samples in Ok (Mixed img))%result
    else if str_in cam_id SINGLE_CHANNEL_CAMERAS then
      match calibrated_image !! 0%nat with
      | Some row => Ok (Mixed row)
      | None => Raise IndexError
      end
    else Raise (NotImplementedError ("Unknown camera: " ++ cam_id))
  else Ok (PerChannel calibrated_image).

(** *** Benchmark images: [load_benchmark_images], [save_benchmark_images] *)

(** The dictionary of images [load_benchmark_images] returns: each entry
    is the [data] of a unit, an array or [None]. *)
Record images_dict : Type := ImagesDict {
  input_image : option (ndarray float);
  reference_image : option (ndarray float);
  adc_sum_image : option (ndarray float);
  pedestal_image : option (ndarray float);
  gains_image : option (ndarray float);
  pixels_position : option (ndarray float);
  pixels_mask : option (ndarray float);
  input_samples : option (ndarray float);
  adc_samples : option (ndarray float);
  extracted_samples : option (ndarray float);
  peakpos : option (ndarray float)
}.

(** A value of the metadata mapping given to [save_benchmark_images]: a
    plain value, or a (value, unit) tuple as [quantity_to_tuple] builds. *)
Inductive meta_value : Type :=
| Plain (v : scalar)
| WithUnit (v : scalar) (unit_str : string).

(** [hdu_list[i]]. *)
Definition hdu_list_get (hdu_list : list hdu) (i : nat) : result hdu :=
  match hdu_list !! i with
  | Some u => Ok u
  | None => Raise IndexError
  end.

(** [metadata_dict[name] = hdu0.header[key]]. *)
Definition read_value (h : header) (metadata_dict : gmap string scalar)
    (name key : string) : M (gmap string scalar) :=
  (let* v := lift (header_get h key) in ret (<[name := v]> metadata_dict))%M.

(** [metadata_dict[name] = hdu0.header.comments[key]]. *)
Definition read_comment (h : header) (metadata_dict : gmap string scalar)
    (name key : string) : M (gmap string scalar) :=
  (let* c := lift (comments_get h key) in
   ret (<[name := SStr c]> metadata_dict))%M.

(** Python's [x == 1] on a header value. *)
Definition equals_one (x : scalar) : bool :=
  match x with
  | SInt z => (z =? 1)%Z
  | SFloat f => PrimFloat.eqb f 1%float
  | SBool b => b
  | SStr _ => false
  end.

(** [not hdu_list[i].is_image], evaluated only once the list is known to
    have seven units. *)
Definition not_image_at (hdu_list : list hdu) (i : nat) : bool :=
  match hdu_list !! i with
  | Some u => negb (is_image u)
  | None => false
  end.

Section Benchmark.

(** [np.nansum], [np.nanmin], [np.nanmax] on a non-empty buffer, followed by
    [float(...)]; NumPy's summation order is its own. *)
Variables np_nansum np_nanmin np_nanmax : list float -> float.

(** [float(np.nansum(a))]: NumPy gives [None] back for [None], which
    [float] refuses. *)
Definition nan_sum (a : option (ndarray float)) : result scalar :=
  match a with
  | Some a => Ok (SFloat (np_nansum (data a)))
  | None => Raise TypeError
  end.

(** [float(np.nanmin(a))] and [float(np.nanmax(a))]: no minimum of an array
    without elements. *)
Definition nan_reduce (f : list float -> float) (a : option (ndarray float))
  : result scalar :=
  match a with
  | Some a =>
      match data a with
      | [] => Raise (ValueError "zero-size array to reduction operation")
      | _ => Ok (SFloat (f (data a)))
      end
  | None => Raise TypeError
  end.

Definition load_benchmark_images (input_file_path : string)
  : M (images_dict * gmap string scalar) :=
  (let* hdu_list := fits_open input_file_path in
   let* hdu0 := lift (hdu_list_get hdu_list 0) in
   let h := hdr hdu0 in
   let md : gmap string scalar := ∅ in
   let* md := read_value h md "version" "version" in
   let* md := read_value h md "cam_id" "cam_id" in
   let* md := read_value h md "tel_id" "tel_id" in
   let* md := read_value h md "event_id" "event_id" in
   let md := <["file_path" := SStr input_file_path]> md in
   let* md := read_value h md "simtel_path" "simtel" in
   let* md := read_value h md "num_tel_with_trigger" "tel_trig" in
   let* md := read_value h md "mc_energy" "energy" in
   let* md := read_comment h md "mc_energy_unit" "energy" in
   let* md := read_value h md "mc_azimuth" "mc_az" in
   let* md := read_comment h md "mc_azimuth_unit" "mc_az" in
   let* md := read_value h md "mc_altitude" "mc_alt" in
   let* md := read_comment h md "mc_altitude_unit" "mc_alt" in
   let* md := read_value h md "mc_core_x" "mc_corex" in
   let* md := read_comment h md "mc_core_x_unit" "mc_corex" in
   let* md := read_value h md "mc_core_y" "mc_corey" in
   let* md := read_comment h md "mc_core_y_unit" "mc_corey" in
   let* md := read_value h md "mc_height_first_interaction" "mc_hfi" in
   let* md := read_comment h md "mc_height_first_interaction_unit" "mc_hfi" in
   let* md := read_value h md "ev_count" "count" in
   let* md := read_value h md "run_id" "run_id" in
   let* md := read_value h md "num_tel_with_data" "tel_data" in
   let* md := read_value h md "optical_foclen" "foclen" in
   let* md := read_comment h md "optical_foclen_unit" "foclen" in
   let* md := read_value h md "tel_pos_x" "tel_posx" in
   let* md := read_comment h md "tel_pos_x_unit" "tel_posx" in
   let* md := read_value h md "tel_pos_y" "tel_posy" in
   let* md := read_comment h md "tel_pos_y_unit" "tel_posy" in
   let* md := read_value h md "tel_pos_z" "tel_posz" in
   let* md := read_comment h md "tel_pos_z_unit" "tel_posz" in
   let* version := lift (match md !! "version" with
                         | Some v => Ok v
                         | None => Raise (KeyError "version")
                         end) in
   let* images :=
     (if equals_one version then
        if (negb (length hdu_list =? 7)%nat
            || not_image_at hdu_list 0 || not_image_at hdu_list 1
            || not_image_at hdu_list 2 || not_image_at hdu_list 3
            || not_image_at hdu_list 4 || not_image_at hdu_list 5
            || not_image_at hdu_list 6)%bool
        then
          fits_close input_file_path ;;
          raise (WrongFitsFileStructure input_file_path)
        else
          match hdu_list with
          | [hdu0; hdu1; hdu2; hdu3; hdu4; hdu6; hdu7] =>
              ret (ImagesDict (hdu_data hdu0) (hdu_data hdu1) (hdu_data hdu2)
                     (hdu_data hdu3) (hdu_data hdu4) (hdu_data hdu6)
                     (hdu_data hdu7) None None None None)
          | _ => raise (ValueError "not enough values to unpack")
          end
      else raise (PyException ["Unknown version number"])) in
   let* npe := lift (nan_sum (reference_image images)) in
   let md := <["npe" := npe]> md in
   let* min_npe := lift (nan_reduce np_nanmin (reference_image images)) in
   let md := <["min_npe" := min_npe]> md in
   let* max_npe := lift (nan_reduce np_nanmax (reference_image images)) in
   let md := <["max_npe" := max_npe]> md in
   fits_close input_file_path ;;
   ret (images, md))%M.

End Benchmark.

Section Saving.

(** astropy's treatment of header values (see [Fits.setitem],
    [Fits.comments_set] and [Fits.on_disk]). *)
Variable refused : string -> scalar -> option string.
Variable refused_comment : string -> string -> option string.
Variable stored : string -> card -> card.

(** [hdu.header["desc"] = text]. *)
Definition with_desc (u : hdu) (text : string) : result hdu :=
  (let* h := setitem refused (hdr u) "desc" (SStr text) in
   Ok (with_header u h))%result.

(** The loop [for key, val in metadata.items()] on the primary header. *)
Fixpoint write_metadata (h : header) (metadata : list (string * meta_value))
  : result header :=
  match metadata with
  | [] => Ok h
  | (key, val) :: metadata' =>
      match val with
      | WithUnit v unit_str =>
          (let* h := setitem refused h key v in
           let* h := comments_set refused_comment h key unit_str in
           write_metadata h metadata')%result
      | Plain v =>
          (let* h := setitem refused h key v in
           write_metadata h metadata')%result
      end
  end.

Definition save_benchmark_images
    (img pe_img adc_sums_img pedestal_img gains_img pixel_pos pixel_mask
       : ndarray float)
    (metadata : list (string * meta_value)) (output_file_path : string)
  : M unit :=
  if negb (ndim img =? 2)%Z then
    raise (PyException ["The input image should be a 2D numpy array."])
  else if negb (ndim pe_img =? 2)%Z then
    raise (PyException ["The input image should be a 2D numpy array."])
  else if negb (ndim adc_sums_img =? 3)%Z then
    raise (PyException ["The input image should be a 3D numpy array."])
  else if negb (ndim pedestal_img =? 3)%Z then
    raise (PyException ["The input image should be a 3D numpy array."])
  else if negb (ndim gains_img =? 3)%Z then
    raise (PyException ["The input image should be a 3D numpy array."])
  else if negb (ndim pixel_pos =? 3)%Z then
    raise (PyException ["The input image should be a 3D numpy array."])
  else if negb (ndim pixel_mask =? 2)%Z then
    raise (PyException ["The input image should be a 2D numpy array."])
  else
    (let hdu0 := PrimaryHDU img in
     let hdu1 := ImageHDU pe_img in
     let hdu2 := ImageHDU adc_sums_img in
     let hdu3 := ImageHDU pedestal_img in
     let hdu4 := ImageHDU gains_img in
     let hdu6 := ImageHDU pixel_pos in
     let hdu7 := ImageHDU pixel_mask in
     let* hdu0 := lift (with_desc hdu0 "calibrated image") in
     let* hdu1 := lift (with_desc hdu1 "pe image") in
     let* hdu2 := lift (with_desc hdu2 "adc sum images") in
     let* hdu3 := lift (with_desc hdu3 "pedestal images") in
     let* hdu4 := lift (with_desc hdu4 "gains images") in
     let* hdu6 := lift (with_desc hdu6 "pixels position") in
     let* hdu7 := lift (with_desc hdu7 "pixels mask") in
     let* h0 := lift (write_metadata (hdr hdu0) metadata) in
     let hdu0 := with_header hdu0 h0 in
     let* w := (fun w => (Ok w, w)) in
     (if isfile (fs w) output_file_path then os_remove output_file_path
      else ret tt) ;;
     let hdu_list := [hdu0; hdu1; hdu2; hdu3; hdu4; hdu6; hdu7] in
     fits_writeto stored hdu_list output_file_path)%M.

(** *** [load_fits], [save_fits] *)

Definition load_fits (input_file_path : string) (hdu_index : Z)
  : M (option (ndarray float)) :=
  (let* hdu_list := fits_open input_file_path in
   if negb ((0 <=? hdu_index)%Z && (hdu_index <? Z.of_nat (length hdu_list))%Z)
   then
     fits_close input_file_path ;;
     raise (WrongHDUError input_file_path hdu_index)
   else
     let* u := lift (hdu_list_get hdu_list (Z.to_nat hdu_index)) in
     if negb (is_image u) then
       fits_close input_file_path ;;
       raise (NotAnImageError input_file_path hdu_index)
     else
       let image_array := hdu_data u in
       fits_close input_file_path ;;
       ret image_array)%M.


End Saving.

(** *** The names the module defines *)

(** Every name bound at the top level of [images.py] by [def], [class] or
    assignment, and the modules it imports under a name. *)
Definition module_names : list string :=
  [ "__all__"; "math"; "collections"; "np"; "plt"; "cm"; "Ellipse"; "os";
    "fits"; "u"; "pd"; "Config"; "ctapipe"; "pyhessio";
    "HillasParameterizationError"; "hessio_event_source"; "CameraGeometry";
    "CameraCalibrator"; "get_hillas_parameters"; "geometry_converter";
    "DEBUG";
    "FitsError"; "WrongHDUError"; "NotAnImageError"; "WrongDimensionError";
    "WrongFitsFileStructure";
    "fill_nan_pixels"; "image_files_in_dir"; "image_files_in_paths";
    "Image1D"; "Image2D"; "image_generator"; "quantity_to_tuple";
    "simtel_event_to_images"; "simtel_images_generator";
    "load_benchmark_images"; "save_benchmark_images"; "load_fits";
    "save_fits"; "plot_ctapipe_image"; "plot_hillas_parameters_on_axes";
    "print_hillas_parameters"; "hillas_parameters_to_df"; "COLOR_MAP";
    "mpl_save"; "plot"; "plot_hist"; "_plot_list"; "plot_list";
    "mpl_save_list"; "export_image_as_plain_text" ].

(** [images.<attr>]: the lookup of an attribute of the module. *)
Definition getattr (attr : string) : result unit :=
  if str_in attr module_names then Ok tt
  else Raise (AttributeError "datapipe.io.images" attr).

End Images.

(** ** [datapipe/denoising/null.py] *)

Module Null.

(** [null(img)]: returns the object it is given. *)
Definition null {A : Type} (img : A) : A := img.

(** The parsed command line. *)
Record arguments : Type := Arguments_ {
  benchmark : option string;
  hdu : Z;
  output : option string;
  fileargs : list string
}.

(** The JSON report, before [json.dump]. *)
Record report (score : Type) : Type := Report {
  algo : string;
  label : string;
  benchmark_method_name : string;
  date_time : string;
  hdu_index_used : Z;
  system : string;
  input_file_path_list_out : list string;
  score_list_out : list score;
  execution_time_list_out : list float
}.
Arguments Report {score}.

(** The three lists [main] accumulates in benchmark mode. *)
Record accumulators (score : Type) : Type := Acc {
  file_path_list : list string;
  score_list : list score;
  execution_time_list : list float
}.
Arguments Acc {score}.
Arguments file_path_list {score} _.
Arguments score_list {score} _.
Arguments execution_time_list {score} _.

Section Driver.

(** The score [assess.assess_image_cleaning] returns, and that function:
    [datapipe.benchmark.assess] is imported, not defined here. *)
Variable score : Type.
Variable assess_image_cleaning :
  ndarray float -> ndarray float -> ndarray float -> string -> result score.

(** What the call [images.load(path, index)] does once the attribute is
    found.  ([images.py] defines no such name: see [Images.getattr].) *)
Variable images_load : string -> Z -> M (ndarray float).

(** The matplotlib calls [images.plot_list(image_list, title_list)] and
    [images.mpl_save_list(image_list, output, title_list)]. *)
Variable plot_list_call : list (ndarray float) -> list string -> M unit.
Variable mpl_save_list_call :
  list (ndarray float) -> string -> list string -> M unit.

(** [time.perf_counter()], [os.path.basename], the root part of
    [os.path.splitext], [str(score_list)], [json.dump(..., sort_keys=True,
    indent=4)], [__file__], [str(datetime.datetime.now())] and
    [" ".join(os.uname())]. *)
Variable perf_counter : M float.
Variable basename : string -> string.
Variable splitext_root : string -> string.
Variable str_of_scores : list score -> string.
Variable json_dump : report score -> string.
Variable this_file : string.
Variable now : M string.
Variable uname : string.

(** The files one command-line argument stands for. *)
Definition input_files (input_file_or_dir_path : string) : M (list string) :=
  fun w =>
    if isdir (fs w) input_file_or_dir_path then
      match listdir (fs w) input_file_or_dir_path with
      | Ok items =>
          (Ok (filter
                 (fun dir_item_path =>
                    (endswith (lower dir_item_path) ".fits"
                     && isfile (fs w) dir_item_path)%bool = true)
                 (map (OS.path_join input_file_or_dir_path) items)), w)
      | Raise e => (Raise e, w)
      end
    else (Ok [input_file_or_dir_path], w).

(** The [try ... except] statement that ends the loop body. *)
Definition assess_or_plot (benchmark_method : option string)
    (input_file_path base_file_path : string)
    (input_img reference_img cleaned_img : ndarray float)
    (execution_time : float) (acc : accumulators score)
  : M (accumulators score) :=
  try_except
    (match benchmark_method with
     | None =>
         let image_list := [input_img; reference_img; cleaned_img] in
         let title_list := ["Input image"; "Reference image"; "Cleaned image"] in
         let output := base_file_path ++ "_null.pdf" in
         lift (Images.getattr "plot_list") ;;
         plot_list_call image_list title_list ;;
         lift (Images.getattr "mpl_save_list") ;;
         mpl_save_list_call image_list output title_list ;;
         ret acc
     | Some method =>
         let* score_tuple :=
           lift (assess_image_cleaning input_img cleaned_img reference_img
                   method) in
         ret (Acc (file_path_list acc ++ [input_file_path])
                  (score_list acc ++ [score_tuple])
                  (execution_time_list acc ++ [execution_time]))
     end)%M
    (fun e =>
       match e with
       | EmptyReferenceImageError =>
           Some (print "Empty reference image error" ;; ret acc)%M
       | EmptyOutputImageError =>
           Some (print "Empty output image error" ;; ret acc)%M
       | _ => None
       end).

(** The body of [for input_file_path in input_file_path_list]. *)
Definition process_file (benchmark_method : option string) (hdu_index : Z)
    (input_file_path : string) (acc : accumulators score)
  : M (accumulators score) :=
  (lift (Images.getattr "load") ;;
   let* input_img := images_load input_file_path hdu_index in
   if negb (ndim input_img =? 2)%Z then
     raise (PyException
              ["Unexpected error: the input FITS file should contain a 2D array."])
   else
     let base_file_path := basename input_file_path in
     let base_file_path := splitext_root base_file_path in
     let* initial_time := perf_counter in
     let cleaned_img := null input_img in
     let* final_time := perf_counter in
     let execution_time := PrimFloat.sub final_time initial_time in
     lift (Images.getattr "load") ;;
     let* reference_img := images_load input_file_path 1 in
     assess_or_plot benchmark_method input_file_path base_file_path
       input_img reference_img cleaned_img execution_time acc)%M.

Fixpoint process_files (benchmark_method : option string) (hdu_index : Z)
    (input_file_path_list : list string) (acc : accumulators score)
  : M (accumulators score) :=
  match input_file_path_list with
  | [] => ret acc
  | input_file_path :: rest =>
      (let* acc := process_file benchmark_method hdu_index input_file_path acc in
       process_files benchmark_method hdu_index rest acc)%M
  end.

(** [for input_file_or_dir_path in input_file_or_dir_path_list]. *)
Fixpoint main_loop (benchmark_method : option string) (hdu_index : Z)
    (input_file_or_dir_path_list : list string) (acc : accumulators score)
  : M (accumulators score) :=
  match input_file_or_dir_path_list with
  | [] => ret acc
  | input_file_or_dir_path :: rest =>
      (let* input_file_path_list := input_files input_file_or_dir_path in
       let* acc := process_files benchmark_method hdu_index
                     input_file_path_list acc in
       main_loop benchmark_method hdu_index rest acc)%M
  end.

Definition main (args : arguments) : M unit :=
  (let benchmark_method := benchmark args in
   let hdu_index := hdu args in
   let input_file_or_dir_path_list := fileargs args in
   let* acc := main_loop benchmark_method hdu_index
                 input_file_or_dir_path_list (Acc [] [] []) in
   match benchmark_method with
   | None => ret tt
   | Some method =>
       print (str_of_scores (score_list acc)) ;;
       let* date_time := now in
       let output_dict :=
         Report this_file "Null" method date_time hdu_index uname
           (file_path_list acc) (score_list acc) (execution_time_list acc) in
       let output_file_path :=
         match output args with
         | None => "score_null_benchmark_" ++ method ++ ".json"
         | Some path => path
         end in
       write_text output_file_path (json_dump output_dict)
   end)%M.

End Driver.

End Null.

#[local] Set Warnings "-inexact-float".

(** ** [utils/plot_score_histogram_by_decades_of_energy.py] *)

Module Histogram.

(** The parsed command line. *)
Record arguments : Type := Arguments_ {
  exclude_aborted : bool;
  aborted_only : bool;
  logx : bool;
  logy : bool;
  metric : string;
  output : option string;
  title : option string;
  telid : option Z;
  quiet : bool;
  fileargs : list string
}.

(** [str(n)] for a length. *)
Definition str_of_nat (n : nat) : string :=
  NilEmpty.string_of_uint (Nat.to_uint n).

Section Script.

(** A parsed score file and an array of scores: the functions of
    [common_functions] that make and use them are imported, not defined
    here. *)
Variable json : Type.
Variable score_array : Type.
Variable parse_json_file : string -> M json.
Variable image_filter_equals : json -> string -> Z -> result json.
Variable image_filter_range : json -> string -> float -> float -> result json.
Variable extract_score_array : json -> string -> result score_array.

(** [len(json_dict["io"])] and [json_dict["label"]]. *)
Variable io_length : json -> result nat.
Variable label_of : json -> result string.

(** [common.plot_hist1d] on one of the four axes (the other options are the
    constants of the script), and the matplotlib calls. *)
Variable plot_hist1d :
  nat -> list score_array -> list string -> bool -> bool -> M unit.
Variable subplots : M unit.
Variable set_title : nat -> string -> M unit.
Variable suptitle : string -> M unit.
Variable savefig : string -> M unit.
Variable show : M unit.

(** The five lists the loop over the score files fills. *)
Record fetched : Type := Fetched {
  data_list1 : list score_array;
  data_list2 : list score_array;
  data_list3 : list score_array;
  data_list4 : list score_array;
  label_list : list string
}.

(** The body of [for json_file_path in json_file_path_list]. *)
Definition fetch_file (tel_id : option Z) (metric : string)
    (json_file_path : string) (acc : fetched) : M fetched :=
  (print ("Parsing " ++ json_file_path ++ "...") ;;
   let* json_dict := parse_json_file json_file_path in
   let* json_dict :=
     match tel_id with
     | Some tel => lift (image_filter_equals json_dict "tel_id" tel)
     | None => ret json_dict
     end in
   let* json_dict1 :=
     lift (image_filter_range json_dict "mc_energy" 0.1%float 1%float) in
   let* json_dict2 :=
     lift (image_filter_range json_dict "mc_energy" 1%float 10%float) in
   let* json_dict3 :=
     lift (image_filter_range json_dict "mc_energy" 10%float 100%float) in
   let* json_dict4 :=
     lift (image_filter_range json_dict "mc_energy" 100%float 1000%float) in
   let* n := lift (io_length json_dict) in
   print (str_of_nat n ++ " images") ;;
   let* score_array1 := lift (extract_score_array json_dict1 metric) in
   let* score_array2 := lift (extract_score_array json_dict2 metric) in
   let* score_array3 := lift (extract_score_array json_dict3 metric) in
   let* score_array4 := lift (extract_score_array json_dict4 metric) in
   let* label := lift (label_of json_dict) in
   ret (Fetched (data_list1 acc ++ [score_array1])
                (data_list2 acc ++ [score_array2])
                (data_list3 acc ++ [score_array3])
                (data_list4 acc ++ [score_array4])
                (label_list acc ++ [label])))%M.

Fixpoint fetch_scores (tel_id : option Z) (metric : string)
    (json_file_path_list : list string) (acc : fetched) : M fetched :=
  match json_file_path_list with
  | [] => ret acc
  | json_file_path :: rest =>
      (let* acc := fetch_file tel_id metric json_file_path acc in
       fetch_scores tel_id metric rest acc)%M
  end.

(** The script. *)
Definition script (args : arguments) : M unit :=
  let output_file_path :=
    match output args with
    | None => "score_histogram_" ++ metric args ++ ".pdf"
    | Some path => path
    end in
  if (exclude_aborted args && aborted_only args)%bool then
    raise (PyException
             ["--exclude-aborted and --aborted-only are not compatible"])
  else
    (let* lists := fetch_scores (telid args) (metric args) (fileargs args)
                     (Fetched [] [] [] [] []) in
     print "Plotting..." ;;
     subplots ;;
     plot_hist1d 1 (data_list1 lists) (label_list lists) (logx args)
       (logy args) ;;
     plot_hist1d 2 (data_list2 lists) (label_list lists) (logx args)
       (logy args) ;;
     plot_hist1d 3 (data_list3 lists) (label_list lists) (logx args)
       (logy args) ;;
     plot_hist1d 4 (data_list4 lists) (label_list lists) (logx args)
       (logy args) ;;
     set_title 1 "100 GeV to 1 TeV" ;;
     set_title 2 "1 TeV to 10 TeV" ;;
     set_title 3 "10 TeV to 100 TeV" ;;
     set_title 4 "100 TeV to 1000 TeV" ;;
     match title args with
     | Some text => suptitle text
     | None => suptitle (metric args)
     end ;;
     savefig output_file_path ;;
     if negb (quiet args) then show else ret tt)%M.

End Script.

End Histogram.

(** ** Simtel events: [simtel_event_to_images], [simtel_images_generator] *)

Module Simtel.
Import Images.

(** What [simtel_event_to_images] and [simtel_images_generator] return and
    yield: the named tuples [Image1D] and [Image2D].  The four sample fields
    of an [Image2D] are always [None] and are left out; its other fields
    hold an array, or the [None] that [load_benchmark_images] can return. *)
Inductive image : Type :=
| Image1D
    (input_image : calibrated)
    (input_samples : list (list (list float)))
    (reference_image : list float)
    (adc_samples : list (list (list Z)))
    (extracted_samples : list (list (list float)))
    (peakpos : list (list float))
    (adc_sum_image pedestal_image gains_image : list (list float))
    (pixels_position : list float * list float)
    (meta : gmap string meta_value)
| Image2D
    (input_image reference_image adc_sum_image pedestal_image gains_image
       pixels_position pixels_mask : option (ndarray float))
    (meta : gmap string meta_value).

(** [image.meta]. *)
Definition meta_of (i : image) : gmap string meta_value :=
  match i with
  | Image1D _ _ _ _ _ _ _ _ _ _ meta => meta
  | Image2D _ _ _ _ _ _ _ meta => meta
  end.

(** [image.meta[key] = val]. *)
Definition set_meta (i : image) (key : string) (val : meta_value) : image :=
  match i with
  | Image1D a b c d e f g h k l meta =>
      Image1D a b c d e f g h k l (<[key := val]> meta)
  | Image2D a b c d e f g meta => Image2D a b c d e f g (<[key := val]> meta)
  end.

(** A calibrated image as the array it is. *)
Definition as_ndarray (c : calibrated) : ndarray float :=
  match c with
  | Mixed img => NdArray [length img] img
  | PerChannel img =>
      NdArray [length img; length (hd [] img)] (concat img)
  end.

(** [np.array([a, ...])] of arrays of one shape. *)
Definition stack (l : list (ndarray float)) : ndarray float :=
  NdArray (length l :: match l with a :: _ => shape a | [] => [] end)
          (concat (map data l)).

(** [a[i]] on an array given by its rows. *)
Definition row {A} (a : list (list A)) (i : nat) : result (list A) :=
  match a !! i with
  | Some r => Ok r
  | None => Raise IndexError
  end.

(** [x in l] for an optional filter list: [(l is None) or (x in l)]. *)
Definition passes {A} (eqb : A -> A -> bool) (x : A) (filter_list : option (list A))
  : bool :=
  match filter_list with
  | None => true
  | Some l => existsb (eqb x) l
  end.

(** The options of the charge extractor. *)
Record config : Type := Config {
  extractor : string;
  window_width : option Z;
  window_shift : option Z;
  t0 : option Z;
  sig_amp_cut_HG : option float;
  sig_amp_cut_LG : option float;
  lwt : option Z
}.

Definition INTEGRATORS : list string :=
  [ "FullIntegrator"; "SimpleIntegrator"; "GlobalPeakIntegrator";
    "LocalPeakIntegrator"; "NeighbourPeakIntegrator";
    "AverageWfPeakIntegrator" ].

(** The keyword arguments of [simtel_images_generator], with the defaults of
    its signature in [default_options]. *)
Record options : Type := Options {
  ctapipe_format : bool;
  integrator : option string;
  integrator_window_width : option Z;
  integrator_window_shift : option Z;
  integrator_t0 : option Z;
  integrator_sig_amp_cut_hg : option float;
  integrator_sig_amp_cut_lg : option float;
  integrator_lwt : option Z;
  integration_correction : bool;
  debug : bool;
  mix_channels : bool
}.

Definition default_options : options :=
  Options false (Some "LocalPeakIntegrator") (Some 5) (Some 2) None None None
    None false false true.

(** The block that builds [cfg]: [None] for the default integrator, the
    options that are not [None] for a known one, [ValueError] otherwise. *)
Definition make_config (o : options) : result (option config) :=
  match integrator o with
  | None => Ok None
  | Some name =>
      if str_in name INTEGRATORS then
        Ok (Some (Config name (integrator_window_width o)
                    (integrator_window_shift o) (integrator_t0 o)
                    (integrator_sig_amp_cut_hg o)
                    (integrator_sig_amp_cut_lg o) (integrator_lwt o)))
      else Raise (ValueError name)
  end.

(** What the process holds besides the world: the file pyhessio has open,
    and whether [ctapipe.calib.camera.dl1.integration_correction] has been
    replaced by the function that corrects nothing. *)
Record state : Type := State {
  world_of : world;
  hessio_file : option string;
  correction_off : bool
}.

(** [pyhessio.close_file()]. *)
Definition close_file (s : state) : state :=
  State (world_of s) None (correction_off s).

(** A run of [simtel_images_generator]: it raised before its first event, or
    it went into its loop in state [s], yielded [images] and then ended,
    normally or with an exception. *)
Inductive run : Type :=
| NotStarted (e : exn) (s : state)
| Started (s : state) (images : list image) (ending : option exn).

Section Extraction.

(** astropy quantities, and [quantity.to(unit_str).value] and
    [quantity.to(unit_str).unit.to_string(format='FITS')]. *)
Variable quantity : Type.
Variable to_value : quantity -> string -> float.
Variable to_fits_unit : quantity -> string -> string.

Definition quantity_to_tuple (q : quantity) (unit_str : string) : meta_value :=
  WithUnit (SFloat (to_value q unit_str)) (to_fits_unit q unit_str).

(** The data of one telescope in a ctapipe event, under the names the code
    reads them by.  Integer arrays that are only passed on are kept as
    arrays of numbers. *)
Record telescope : Type := Telescope {
  pixel_pos : list float * list float;
  optical_foclen : quantity;
  tel_pos : quantity * quantity * quantity;
  photo_electron_image : list float;
  pedestal : list (list float);
  dc_to_pe : list (list float);
  r0_adc_sums : list (list float);
  r0_adc_samples : list (list (list Z));
  dl0_pe_samples : list (list (list float));
  dl1_extracted_samples : list (list (list float));
  dl1_image : list (list float);
  dl1_peakpos : list (list float)
}.

Record event : Type := Event {
  count : Z;
  dl0_event_id : Z;
  dl0_run_id : Z;
  dl0_tels_with_data : list Z;
  trig_tels_with_trigger : list Z;
  mc_energy : quantity;
  mc_az : quantity;
  mc_alt : quantity;
  mc_core_x : quantity;
  mc_core_y : quantity;
  mc_h_first_int : quantity;
  tel : Z -> telescope
}.

(** [CameraGeometry.guess(x, y, foclen).cam_id], the conversion
    [geometry_converter.image_1d_to_2d], and the mock pixel positions
    [np.array(np.meshgrid(np.linspace(...), np.linspace(...)))] for a 2-D
    shape. *)
Variable guess_cam_id : list float * list float -> quantity -> string.
Variable image_1d_to_2d : ndarray float -> string -> result (ndarray float).
Variable mock_pixel_pos : list float * list float -> list nat -> ndarray float.

Definition flat (l : list float) : ndarray float := NdArray [length l] l.

(** [simtel_event_to_images(event, tel_id, ctapipe_format, mix_channels)]. *)
Definition simtel_event_to_images (ev : event) (tel_id : Z)
    (ctapipe_format mix_channels : bool) : result image :=
  (let t := tel ev tel_id in
   let cam_id := guess_cam_id (pixel_pos t) (optical_foclen t) in
   let pe_image := photo_electron_image t in
   let pedestal := pedestal t in
   let gain := dc_to_pe t in
   let uncalibrated_image := r0_adc_sums t in
   let uncalibrated_samples := r0_adc_samples t in
   let calibrated_samples := dl0_pe_samples t in
   let extracted_samples := dl1_extracted_samples t in
   let peakpos := dl1_peakpos t in
   let pixel_pos := pixel_pos t in
   let* calibrated_image :=
     mix_channels_block mix_channels cam_id (dl1_image t)
       (r0_adc_samples t) in
   let metadata : gmap string meta_value :=
     {[ "cam_id" := Plain (SStr cam_id) ]} in
   if ctapipe_format then
     Ok (Image1D calibrated_image calibrated_samples pe_image
           uncalibrated_samples extracted_samples peakpos uncalibrated_image
           pedestal gain pixel_pos metadata)
   else
     let* converted :=
       (if str_in cam_id SINGLE_CHANNEL_CAMERAS then
          let* pe_image_2d := image_1d_to_2d (flat pe_image) cam_id in
          let* calibrated_image_2d :=
            image_1d_to_2d (as_ndarray calibrated_image) cam_id in
          let* u0 := row uncalibrated_image 0 in
          let* uncalibrated_image_2d := image_1d_to_2d (flat u0) cam_id in
          let* p0 := row pedestal 0 in
          let* pedestal_2d := image_1d_to_2d (flat p0) cam_id in
          let* g0 := row gain 0 in
          let* gains_2d := image_1d_to_2d (flat g0) cam_id in
          Ok (pe_image_2d, calibrated_image_2d, [uncalibrated_image_2d],
              [pedestal_2d], [gains_2d])
        else if str_in cam_id TWO_CHANNELS_CAMERAS then
          let* pe_image_2d := image_1d_to_2d (flat pe_image) cam_id in
          let* calibrated_image_2d :=
            image_1d_to_2d (as_ndarray calibrated_image) cam_id in
          let* u0 := row uncalibrated_image 0 in
          let* uncalibrated_image_2d_ch0 := image_1d_to_2d (flat u0) cam_id in
          let* u1 := row uncalibrated_image 1 in
          let* uncalibrated_image_2d_ch1 := image_1d_to_2d (flat u1) cam_id in
          let* p0 := row pedestal 0 in
          let* pedestal_2d_ch0 := image_1d_to_2d (flat p0) cam_id in
          let* p1 := row pedestal 1 in
          let* pedestal_2d_ch1 := image_1d_to_2d (flat p1) cam_id in
          let* g0 := row gain 0 in
          let* gains_2d_ch0 := image_1d_to_2d (flat g0) cam_id in
          let* g1 := row gain 1 in
          let* gains_2d_ch1 := image_1d_to_2d (flat g1) cam_id in
          Ok (pe_image_2d, calibrated_image_2d,
              [uncalibrated_image_2d_ch0; uncalibrated_image_2d_ch1],
              [pedestal_2d_ch0; pedestal_2d_ch1],
              [gains_2d_ch0; gains_2d_ch1])
        else Raise (NotImplementedError ("Unknown camera: " ++ cam_id))) in
     let '(pe_image_2d, calibrated_image_2d, uncalibrated_channels,
           pedestal_channels, gains_channels) := converted in
     let pixel_pos_2d := mock_pixel_pos pixel_pos (shape pe_image_2d) in
     let uncalibrated_image_2d := stack uncalibrated_channels in
     let pedestal_2d := stack pedestal_channels in
     let gains_2d := stack gains_channels in
     let mask_1d := flat (repeat 1%float (length pe_image)) in
     let* mask_2d := image_1d_to_2d mask_1d cam_id in
     Ok (Image2D (Some calibrated_image_2d) (Some pe_image_2d)
           (Some uncalibrated_image_2d) (Some pedestal_2d) (Some gains_2d)
           (Some pixel_pos_2d) (Some mask_2d) metadata))%result.

(** [hessio_event_source(file_path, allowed_tels)], a generator: the events
    of the file, or the exception of its first step; and
    [calib.calibrate(event)] for a calibrator built from [cfg], which
    depends on whether the integration correction is switched off; and the
    lines the [debug] block prints. *)
Variable hessio_event_source :
  string -> option (list Z) -> result (list event).
Variable calibrate : option config -> bool -> event -> result event.
Variable debug_lines : option config -> list string.
Variable expanduser : string -> string.

(** [image.meta[...] = ...], in the order of the source. *)
Definition with_metadata (i : image) (ev : event) (tel_id event_id : Z)
    (file_path : string) : image :=
  let t := tel ev tel_id in
  let i := set_meta i "version" (Plain (SInt 1)) in
  let i := set_meta i "tel_id" (Plain (SInt tel_id)) in
  let i := set_meta i "event_id" (Plain (SInt event_id)) in
  let i := set_meta i "file_path" (Plain (SStr file_path)) in
  let i := set_meta i "simtel_path" (Plain (SStr file_path)) in
  let i := set_meta i "num_tel_with_trigger"
             (Plain (SInt (Z.of_nat (length (trig_tels_with_trigger ev))))) in
  let i := set_meta i "mc_energy" (quantity_to_tuple (mc_energy ev) "TeV") in
  let i := set_meta i "mc_azimuth" (quantity_to_tuple (mc_az ev) "rad") in
  let i := set_meta i "mc_altitude" (quantity_to_tuple (mc_alt ev) "rad") in
  let i := set_meta i "mc_core_x" (quantity_to_tuple (mc_core_x ev) "m") in
  let i := set_meta i "mc_core_y" (quantity_to_tuple (mc_core_y ev) "m") in
  let i := set_meta i "mc_height_first_interaction"
             (quantity_to_tuple (mc_h_first_int ev) "m") in
  let i := set_meta i "ev_count" (Plain (SInt (count ev))) in
  let i := set_meta i "run_id" (Plain (SInt (dl0_run_id ev))) in
  let i := set_meta i "num_tel_with_data"
             (Plain (SInt (Z.of_nat (length (dl0_tels_with_data ev))))) in
  let i := set_meta i "optical_foclen"
             (quantity_to_tuple (optical_foclen t) "m") in
  let i := set_meta i "tel_pos_x" (quantity_to_tuple (tel_pos t).1.1 "m") in
  let i := set_meta i "tel_pos_y" (quantity_to_tuple (tel_pos t).1.2 "m") in
  let i := set_meta i "tel_pos_z" (quantity_to_tuple (tel_pos t).2 "m") in
  i.

(** [image.meta['cam_id']]. *)
Definition cam_of (i : image) : result string :=
  match meta_of i !! "cam_id" with
  | Some (Plain (SStr cam_id)) => Ok cam_id
  | Some _ => Raise TypeError
  | None => Raise (KeyError "cam_id")
  end.

(** The loop [for tel_id in event.trig.tels_with_trigger]: the images it
    yields and the exception that ends it, if any. *)
Fixpoint telescopes_loop (o : options) (file_path : string)
    (tel_filter_list : option (list Z)) (cam_filter_list : option (list string))
    (ev : event) (event_id : Z) (tels : list Z) : list image * option exn :=
  match tels with
  | [] => ([], None)
  | tel_id :: tels' =>
      let continue :=
        telescopes_loop o file_path tel_filter_list cam_filter_list ev
          event_id tels' in
      if passes Z.eqb tel_id tel_filter_list then
        let attempt :=
          (let* image := simtel_event_to_images ev tel_id (ctapipe_format o)
                           (mix_channels o) in
           let* cam_id := cam_of image in
           Ok (image, cam_id))%result in
        match attempt with
        | Raise (NotImplementedError _) => continue
        | Raise e => ([], Some e)
        | Ok (image, cam_id) =>
            if passes String.eqb cam_id cam_filter_list then
              (with_metadata image ev tel_id event_id file_path :: continue.1,
               continue.2)
            else continue
        end
      else continue
  end.

(** The loop [for event in source]. *)
Fixpoint events_loop (o : options) (cfg : option config)
    (correction_is_off : bool) (file_path : string)
    (tel_filter_list ev_filter_list : option (list Z))
    (cam_filter_list : option (list string)) (events : list event)
  : list image * option exn :=
  match events with
  | [] => ([], None)
  | raw :: events' =>
      match calibrate cfg correction_is_off raw with
      | Raise e => ([], Some e)
      | Ok ev =>
          let event_id := dl0_event_id ev in
          let of_event :=
            if passes Z.eqb event_id ev_filter_list then
              telescopes_loop o file_path tel_filter_list cam_filter_list ev
                event_id (trig_tels_with_trigger ev)
            else ([], None) in
          match of_event.2 with
          | Some e => (of_event.1, Some e)
          | None =>
              let rest :=
                events_loop o cfg correction_is_off file_path tel_filter_list
                  ev_filter_list cam_filter_list events' in
              ((of_event.1 ++ rest.1)%list, rest.2)
          end
      end
  end.

(** [simtel_images_generator(file_path, tel_filter_list, ev_filter_list,
    cam_filter_list, **options)], run from state [s]. *)
Definition simtel_images_generator (file_path : string)
    (tel_filter_list ev_filter_list : option (list Z))
    (cam_filter_list : option (list string)) (o : options) (s : state) : run :=
  let file_path := expanduser file_path in
  match make_config o with
  | Raise e => NotStarted e s
  | Ok cfg =>
      let off := (correction_off s || negb (integration_correction o))%bool in
      let printed :=
        if debug o then debug_lines cfg else [] in
      let w := world_of s in
      let w := MkWorld (fs w) (open_fits w) (stdout w ++ printed) in
      match hessio_event_source file_path tel_filter_list with
      | Raise e => NotStarted e (State w (hessio_file s) off)
      | Ok events =>
          let s := State w (Some file_path) off in
          let r := events_loop o cfg off file_path tel_filter_list
                     ev_filter_list cam_filter_list events in
          Started s r.1 r.2
      end
  end.

(** The state once a run has been exhausted: the last statement closes the
    file when the loop ended normally. *)
Definition exhausted (r : run) : state :=
  match r with
  | NotStarted _ s => s
  | Started s _ None => close_file s
  | Started s _ (Some _) => s
  end.

End Extraction.

Arguments pixel_pos {quantity} _.
Arguments optical_foclen {quantity} _.
Arguments tel_pos {quantity} _.
Arguments photo_electron_image {quantity} _.
Arguments pedestal {quantity} _.
Arguments dc_to_pe {quantity} _.
Arguments r0_adc_sums {quantity} _.
Arguments r0_adc_samples {quantity} _.
Arguments dl0_pe_samples {quantity} _.
Arguments dl1_extracted_samples {quantity} _.
Arguments dl1_image {quantity} _.
Arguments dl1_peakpos {quantity} _.
Arguments count {quantity} _.
Arguments dl0_event_id {quantity} _.
Arguments dl0_run_id {quantity} _.
Arguments dl0_tels_with_data {quantity} _.
Arguments trig_tels_with_trigger {quantity} _.
Arguments mc_energy {quantity} _.
Arguments mc_az {quantity} _.
Arguments mc_alt {quantity} _.
Arguments mc_core_x {quantity} _.
Arguments mc_core_y {quantity} _.
Arguments mc_h_first_int {quantity} _.
Arguments tel {quantity} _ _.

End Simtel.

(** ** [image_generator] *)

Module ImageGenerator.
Import Images Simtel.

(** Python's [f == z] for a float and an integer: the comparison of the
    two numbers, without rounding the integer to a float. *)
Definition float_equals_int (f : float) (z : Z) : bool :=
  match Prim2SF f with
  | S754_zero _ => (z =? 0)%Z
  | S754_finite negative m e =>
      let n := if negative then Z.neg m else Z.pos m in
      if (0 <=? e)%Z then (n * 2 ^ e =? z)%Z else (n =? z * 2 ^ (- e))%Z
  | _ => false
  end.

(** Python's [v == z] for a header value and an integer. *)
Definition equals_int (v : scalar) (z : Z) : bool :=
  match v with
  | SInt a => (a =? z)%Z
  | SFloat f => float_equals_int f z
  | SBool b => ((if b then 1 else 0) =? z)%Z
  | SStr _ => false
  end.

(** Python's [v == s] for a header value and a string. *)
Definition equals_str (v : scalar) (s : string) : bool :=
  match v with
  | SStr a => String.eqb a s
  | _ => false
  end.

(** [(filter_list is None) or (metadata[key] in filter_list)]. *)
Definition field_passes {A} (eq : scalar -> A -> bool)
    (md : gmap string scalar) (key : string) (filter_list : option (list A))
  : result bool :=
  match filter_list with
  | None => Ok true
  | Some l =>
      match md !! key with
      | Some v => Ok (existsb (eq v) l)
      | None => Raise (KeyError key)
      end
  end.

(** [(max_num_images is not None) and (images_counter >= max_num_images)]. *)
Definition at_limit (max_num_images : option Z) (images_counter : Z) : bool :=
  match max_num_images with
  | Some m => (images_counter >=? m)%Z
  | None => false
  end.

(** The [Image2D] built from the loaded dictionary, with the loaded
    metadata as [meta]. *)
Definition of_benchmark (d : images_dict) (md : gmap string scalar) : image :=
  Image2D (Images.input_image d) (Images.reference_image d)
    (Images.adc_sum_image d) (Images.pedestal_image d) (Images.gains_image d)
    (Images.pixels_position d) (Images.pixels_mask d) (Plain <$> md).

(** The loop [for image in simtel_images_generator(...)]: what it yields,
    the counter after it, and whether it left through [break]. *)
Fixpoint simtel_loop (max_num_images : option Z) (images : list image)
    (images_counter : Z) : list image * Z * bool :=
  match images with
  | [] => ([], images_counter, false)
  | image :: images' =>
      if at_limit max_num_images images_counter
      then ([], images_counter, true)
      else
        let '(ys, c, broke) :=
          simtel_loop max_num_images images' (images_counter + 1) in
        (image :: ys, c, broke)
  end.

(** A run of [image_generator]: the images yielded, the exception that ended
    it, if any, and the state it leaves. *)
Record outcome : Type := Outcome {
  images : list image;
  failure : option exn;
  final : state
}.

Section Generator.

Variables np_nansum np_nanmin np_nanmax : list float -> float.
Variable quantity : Type.
Variable to_value : quantity -> string -> float.
Variable to_fits_unit : quantity -> string -> string.
Variable guess_cam_id : list float * list float -> quantity -> string.
Variable image_1d_to_2d : ndarray float -> string -> result (ndarray float).
Variable mock_pixel_pos : list float * list float -> list nat -> ndarray float.
Variable hessio_event_source :
  string -> option (list Z) -> result (list (event quantity)).
Variable calibrate :
  option config -> bool -> event quantity -> result (event quantity).
Variable debug_lines : option config -> list string.
Variable expanduser : string -> string.

(** The loop [for file_path in image_files_in_paths(path_list)], on the
    paths that generator yields and the exception that ends it. *)
Fixpoint files_loop (max_num_images : option Z)
    (tel_filter_list ev_filter_list : option (list Z))
    (cam_filter_list : option (list string)) (o : options)
    (files : list string) (ending : option exn) (images_counter : Z)
    (s : state) : outcome :=
  match files with
  | [] => Outcome [] ending s
  | file_path :: files' =>
      if at_limit max_num_images images_counter then Outcome [] None s
      else if endswith_any (lower file_path) [".simtel"; ".simtel.gz"] then
        match simtel_images_generator quantity to_value to_fits_unit
                guess_cam_id image_1d_to_2d mock_pixel_pos hessio_event_source
                calibrate debug_lines expanduser file_path tel_filter_list
                ev_filter_list cam_filter_list o s with
        | NotStarted e s' => Outcome [] (Some e) s'
        | Started s' simtel_images simtel_ending =>
            let '(ys, c, broke) :=
              simtel_loop max_num_images simtel_images images_counter in
            match (if broke then None else simtel_ending) with
            | Some e => Outcome ys (Some e) s'
            | None =>
                let r := files_loop max_num_images tel_filter_list
                           ev_filter_list cam_filter_list o files' ending c
                           (close_file s') in
                Outcome (ys ++ images r) (failure r) (final r)
            end
        end
      else if endswith_any (lower file_path) [".fits"; ".fit"] then
        match load_benchmark_images np_nansum np_nanmin np_nanmax file_path
                (world_of s) with
        | (Raise e, w) =>
            Outcome [] (Some e) (State w (hessio_file s) (correction_off s))
        | (Ok (image_dict, fits_metadata_dict), w) =>
            let s := State w (hessio_file s) (correction_off s) in
            let accepted :=
              (let* by_tel := field_passes equals_int fits_metadata_dict
                                "tel_id" tel_filter_list in
               if by_tel then
                 let* by_ev := field_passes equals_int fits_metadata_dict
                                 "event_id" ev_filter_list in
                 if by_ev then
                   field_passes equals_str fits_metadata_dict "cam_id"
                     cam_filter_list
                 else Ok false
               else Ok false)%result in
            match accepted with
            | Raise e => Outcome [] (Some e) s
            | Ok true =>
                let r := files_loop max_num_images tel_filter_list
                           ev_filter_list cam_filter_list o files' ending
                           (images_counter + 1) s in
                Outcome (of_benchmark image_dict fits_metadata_dict
                           :: images r) (failure r) (final r)
            | Ok false =>
                files_loop max_num_images tel_filter_list ev_filter_list
                  cam_filter_list o files' ending images_counter s
            end
        end
      else Outcome [] (Some (PyException ["Wrong item:"; file_path])) s
  end.

(** [image_generator(path_list, max_num_images, tel_filter_list,
    ev_filter_list, cam_filter_list)] with its keyword options, run from
    state [s]. *)
Definition image_generator (path_list : list string)
    (max_num_images : option Z)
    (tel_filter_list ev_filter_list : option (list Z))
    (cam_filter_list : option (list string)) (o : options) (s : state)
  : outcome :=
  let g := image_files_in_paths expanduser (fs (world_of s)) path_list None in
  files_loop max_num_images tel_filter_list ev_filter_list cam_filter_list o
    (yielded g) (raised g) 0 s.

End Generator.

End ImageGenerator.

(** ** Notions used to state the properties of file discovery *)

Module DiscoverySpec.
Import Images.

(** Whether a directory entry is a regular file with one of the extensions. *)
Definition matches (t : gmap string node) (directory_path file_name : string)
  : bool :=
  (isfile t (OS.path_join directory_path file_name)
   && endswith_any (lower file_name) FILE_EXT)%bool.

(** The paths of the matching entries of a directory, in listing order. *)
Definition matching_files (t : gmap string node) (directory_path : string)
    (names : list string) : list string :=
  map (OS.path_join directory_path)
      (filter (fun n => matches t directory_path n = true) names).

(** The entries of a directory ([[]] when it cannot be listed). *)
Definition entries (t : gmap string node) (directory_path : string)
  : list string :=
  match listdir t directory_path with
  | Ok names => names
  | Raise _ => []
  end.

Section Counting.
Variable expanduser : string -> string.
Variable t : gmap string node.

(** What a path list stands for in [image_files_in_paths]: the matching
    files of each directory, and each regular file as it is listed. *)
Fixpoint listed_files (path_list : list string) : list string :=
  match path_list with
  | [] => []
  | path :: rest =>
      let path := expanduser path in
      if isdir t path
      then matching_files t (expanduser path) (entries t (expanduser path))
           ++ listed_files rest
      else path :: listed_files rest
  end.

(** The files of a path list that have one of the extensions: the matching
    files of each directory, and the listed regular files whose lower-cased
    name ends with one. *)
Fixpoint files_with_extension (path_list : list string) : list string :=
  match path_list with
  | [] => []
  | path :: rest =>
      let path := expanduser path in
      if isdir t path
      then matching_files t (expanduser path) (entries t (expanduser path))
           ++ files_with_extension rest
      else if endswith_any (lower path) FILE_EXT
           then path :: files_with_extension rest
           else files_with_extension rest
  end.

(** A path [image_files_in_paths] accepts: a directory that can be listed
    or a regular file. *)
Definition accepted (path : string) : Prop :=
  let path := expanduser path in
  (isdir t path = true /\ isdir t (expanduser path) = true)
  \/ (isdir t path = false /\ isfile t path = true).

End Counting.

(** Concrete file systems.  [notes_only] holds one regular file whose name
    has none of the extensions; [sample_tree] holds a directory with three
    entries, two of them matching, and a regular file beside it. *)
Definition notes_only : gmap string node :=
  {[ "notes.txt" := RegularFile OtherFile ]}.

Definition sample_tree : gmap string node :=
  <[ "data" := Directory ["a.FITS"; "readme.md"; "b.simtel.gz"] ]>
  (<[ "data/a.FITS" := RegularFile OtherFile ]>
  (<[ "data/readme.md" := RegularFile OtherFile ]>
  (<[ "data/b.simtel.gz" := RegularFile OtherFile ]>
  (<[ "run.fit" := RegularFile OtherFile ]> ∅)))).

(** [expanduser] on paths that do not start with a tilde. *)
Definition no_tilde (path : string) : string := path.

End DiscoverySpec.

(** ** Concrete arrays *)

Module Samples.

(** The array of the docstring of [fill_nan_pixels]. *)
Definition docstring_image : ndarray float :=
  NdArray [3%nat; 3%nat]
    [1%float; 2%float; nan; 4%float; nan; 6%float; nan; 8%float; nan].

Definition docstring_mask : ndarray bool :=
  NdArray [3%nat; 3%nat]
    [false; false; true; false; true; false; true; false; true].

Definition docstring_filled : ndarray float :=
  NdArray [3%nat; 3%nat]
    [1%float; 2%float; 0%float; 4%float; 0%float; 6%float; 0%float; 8%float;
     0%float].

End Samples.

(** ** Notions used to state the properties of channel mixing *)

Module MixSpec.

(** The peak sample of a pixel: the largest of its samples. *)
Definition peak_of (row : list Z) : Z :=
  match row with
  | [] => 0
  | x :: r => fold_left Z.max r x
  end.

(** Two floats that are the same value: identical, or the zeros of the two
    signs ([0.0 + -0.0] is [0.0]). *)
Definition same_number (x y : float) : Prop :=
  x = y \/ (x = 0%float /\ y = neg_zero).

(** A synthetic two-channel image straddling the boundary: three pixels
    whose high-gain peaks are 4094, 4095 and 4096. *)
Definition straddle_hg : list float := [10.5%float; 20%float; 30%float].
Definition straddle_lg : list float := [1%float; 2%float; 3%float].
Definition straddle_samples : list (list Z) :=
  [[100; 4094; 12]; [4095; 7]; [3; 4096]].

End MixSpec.

(** ** Notions used to state the properties of the FITS loaders *)

Module FitsSpec.
Import Images.

(** The header keywords [load_benchmark_images] reads from the primary
    header, in the order it reads them. *)
Definition header_keywords : list string :=
  [ "version"; "cam_id"; "tel_id"; "event_id"; "simtel"; "tel_trig";
    "energy"; "mc_az"; "mc_alt"; "mc_corex"; "mc_corey"; "mc_hfi";
    "count"; "run_id"; "tel_data"; "foclen"; "tel_posx"; "tel_posy";
    "tel_posz" ].

(** The metadata names filled from a header value, with their keyword. *)
Definition value_fields : list (string * string) :=
  [ ("version", "version"); ("cam_id", "cam_id"); ("tel_id", "tel_id");
    ("event_id", "event_id"); ("simtel_path", "simtel");
    ("num_tel_with_trigger", "tel_trig"); ("mc_energy", "energy");
    ("mc_azimuth", "mc_az"); ("mc_altitude", "mc_alt");
    ("mc_core_x", "mc_corex"); ("mc_core_y", "mc_corey");
    ("mc_height_first_interaction", "mc_hfi"); ("ev_count", "count");
    ("run_id", "run_id"); ("num_tel_with_data", "tel_data");
    ("optical_foclen", "foclen"); ("tel_pos_x", "tel_posx");
    ("tel_pos_y", "tel_posy"); ("tel_pos_z", "tel_posz") ].

(** The metadata names filled from a header comment, with their keyword. *)
Definition unit_fields : list (string * string) :=
  [ ("mc_energy_unit", "energy"); ("mc_azimuth_unit", "mc_az");
    ("mc_altitude_unit", "mc_alt"); ("mc_core_x_unit", "mc_corex");
    ("mc_core_y_unit", "mc_corey");
    ("mc_height_first_interaction_unit", "mc_hfi");
    ("optical_foclen_unit", "foclen"); ("tel_pos_x_unit", "tel_posx");
    ("tel_pos_y_unit", "tel_posy"); ("tel_pos_z_unit", "tel_posz") ].

(** A primary header that carries the cards [cards k] for the keywords
    [load_benchmark_images] reads. *)
Definition carries (h : header) (cards : string -> card) : Prop :=
  forall k : string, str_in k header_keywords = true ->
    h !! upper k = Some (cards k).

(** The file at [path] is a FITS file with the given units. *)
Definition fits_at (w : world) (path : string) (hdu_list : list hdu) : Prop :=
  fs w !! path = Some (RegularFile (FitsFile hdu_list)).

(** The world once [path] has been opened and not closed. *)
Definition opened (w : world) (path : string) : world :=
  MkWorld (fs w) (path :: open_fits w) (stdout w).

(** A list of units that departs from the benchmark layout: not seven
    units, or one of the first seven not image-typed. *)
Definition departs (hdu_list : list hdu) : Prop :=
  length hdu_list <> 7%nat
  \/ exists (i : nat) (u : hdu),
       (i < 7)%nat /\ hdu_list !! i = Some u /\ is_image u = false.

(** The value and the unit string of a metadata entry; a plain entry is
    written without a comment, which reads back as the empty string. *)
Definition value_of (mv : meta_value) : scalar :=
  match mv with
  | Plain v => v
  | WithUnit v _ => v
  end.

Definition unit_of (mv : meta_value) : string :=
  match mv with
  | Plain _ => ""
  | WithUnit _ unit_str => unit_str
  end.

(** The primary header [save_benchmark_images] starts from. *)
Definition initial_header : header :=
  header_set ∅ "desc" (SStr "calibrated image").

(** A unit with its description card. *)
Definition described (u : hdu) (text : string) : hdu :=
  with_header u (header_set (hdr u) "desc" (SStr text)).

(** The units [save_benchmark_images] hands to [writeto], given the primary
    header. *)
Definition saved_units (h0 : header)
    (img pe_img adc_sums_img pedestal_img gains_img pixel_pos pixel_mask
       : ndarray float) : list hdu :=
  [ with_header (PrimaryHDU img) h0;
    described (ImageHDU pe_img) "pe image";
    described (ImageHDU adc_sums_img) "adc sum images";
    described (ImageHDU pedestal_img) "pedestal images";
    described (ImageHDU gains_img) "gains images";
    described (ImageHDU pixel_pos) "pixels position";
    described (ImageHDU pixel_mask) "pixels mask" ].

(** The descriptions [save_benchmark_images] gives the seven units. *)
Definition descriptions : list string :=
  [ "calibrated image"; "pe image"; "adc sum images"; "pedestal images";
    "gains images"; "pixels position"; "pixels mask" ].

(** astropy accepts the seven descriptions and every value and unit string
    of a metadata mapping. *)
Definition accepted_entry (refused : string -> scalar -> option string)
    (refused_comment : string -> string -> option string)
    (kv : string * meta_value) : bool :=
  match kv.2 with
  | Plain v => bool_decide (refused kv.1 v = None)
  | WithUnit v unit_str =>
      bool_decide (refused kv.1 v = None)
      && bool_decide (refused_comment kv.1 unit_str = None)
  end.

Definition accepted (refused : string -> scalar -> option string)
    (refused_comment : string -> string -> option string)
    (metadata : list (string * meta_value)) : bool :=
  forallb (fun text => bool_decide (refused "desc" (SStr text) = None))
    descriptions
  && forallb (accepted_entry refused refused_comment) metadata.

(** The keywords astropy maintains itself for the structure of a unit, which
    the model of a header leaves out: an entry saved under one of them is
    not an ordinary card. *)
Definition structural (key : string) : bool :=
  str_in (upper key)
    [ "SIMPLE"; "BITPIX"; "EXTEND"; "XTENSION"; "PCOUNT"; "GCOUNT"; "GROUPS";
      "BSCALE"; "BZERO"; "BLANK"; "END"; "COMMENT"; "HISTORY"; "CONTINUE";
      "" ]
  || startswith (upper key) "NAXIS".

Definition ordinary (metadata : list (string * meta_value)) : bool :=
  forallb (fun kv : string * meta_value => negb (structural kv.1)) metadata.

(** The names under which [load_benchmark_images] returns metadata. *)
Definition loaded_names : list string :=
  [ "version"; "cam_id"; "tel_id"; "event_id"; "file_path"; "simtel_path";
    "num_tel_with_trigger"; "mc_energy"; "mc_energy_unit"; "mc_azimuth";
    "mc_azimuth_unit"; "mc_altitude"; "mc_altitude_unit"; "mc_core_x";
    "mc_core_x_unit"; "mc_core_y"; "mc_core_y_unit";
    "mc_height_first_interaction"; "mc_height_first_interaction_unit";
    "ev_count"; "run_id"; "num_tel_with_data"; "optical_foclen";
    "optical_foclen_unit"; "tel_pos_x"; "tel_pos_x_unit"; "tel_pos_y";
    "tel_pos_y_unit"; "tel_pos_z"; "tel_pos_z_unit"; "npe"; "min_npe";
    "max_npe" ].

(** The metadata [load_benchmark_images] builds from a primary header
    carrying [cards], before the statistics of the reference image. *)
Definition header_metadata (path : string) (cards : string -> card)
  : gmap string scalar :=
  fold_left (fun md (nv : string * scalar) => <[nv.1 := nv.2]> md)
    [ ("version", value (cards "version"));
      ("cam_id", value (cards "cam_id"));
      ("tel_id", value (cards "tel_id"));
      ("event_id", value (cards "event_id"));
      ("file_path", SStr path);
      ("simtel_path", value (cards "simtel"));
      ("num_tel_with_trigger", value (cards "tel_trig"));
      ("mc_energy", value (cards "energy"));
      ("mc_energy_unit", SStr (comment (cards "energy")));
      ("mc_azimuth", value (cards "mc_az"));
      ("mc_azimuth_unit", SStr (comment (cards "mc_az")));
      ("mc_altitude", value (cards "mc_alt"));
      ("mc_altitude_unit", SStr (comment (cards "mc_alt")));
      ("mc_core_x", value (cards "mc_corex"));
      ("mc_core_x_unit", SStr (comment (cards "mc_corex")));
      ("mc_core_y", value (cards "mc_corey"));
      ("mc_core_y_unit", SStr (comment (cards "mc_corey")));
      ("mc_height_first_interaction", value (cards "mc_hfi"));
      ("mc_height_first_interaction_unit", SStr (comment (cards "mc_hfi")));
      ("ev_count", value (cards "count"));
      ("run_id", value (cards "run_id"));
      ("num_tel_with_data", value (cards "tel_data"));
      ("optical_foclen", value (cards "foclen"));
      ("optical_foclen_unit", SStr (comment (cards "foclen")));
      ("tel_pos_x", value (cards "tel_posx"));
      ("tel_pos_x_unit", SStr (comment (cards "tel_posx")));
      ("tel_pos_y", value (cards "tel_posy"));
      ("tel_pos_y_unit", SStr (comment (cards "tel_posy")));
      ("tel_pos_z", value (cards "tel_posz"));
      ("tel_pos_z_unit", SStr (comment (cards "tel_posz"))) ]
    ∅.

(** The metadata [load_benchmark_images] returns. *)
Definition loaded_metadata (np_nansum np_nanmin np_nanmax : list float -> float)
    (path : string) (cards : string -> card) (reference : ndarray float)
  : gmap string scalar :=
  <["max_npe" := SFloat (np_nanmax (data reference))]>
  (<["min_npe" := SFloat (np_nanmin (data reference))]>
  (<["npe" := SFloat (np_nansum (data reference))]>
  (header_metadata path cards))).

(** The primary header once one metadata entry has been written: the card
    takes the entry's value; it takes the entry's unit as its comment, or
    keeps the comment it had when the entry is plain. *)
Definition entry_written (h : header) (key : string) (val : meta_value)
  : header :=
  <[upper key :=
      Card (value_of val)
           match val with
           | WithUnit _ unit_str => unit_str
           | Plain _ =>
               match h !! upper key with
               | Some c => comment c
               | None => ""
               end
           end]> h.

(** The keywords of a metadata mapping, as the header stores them. *)
Definition stored_keys (metadata : list (string * meta_value)) : list string :=
  map (fun kv : string * meta_value => upper kv.1) metadata.

(** The card a metadata entry is set as, and the card that is read back
    from the file once astropy has written it. *)
Definition card_of (mv : meta_value) : card := Card (value_of mv) (unit_of mv).

Definition read_back (stored : string -> card -> card) (key : string)
    (mv : meta_value) : card :=
  stored (upper key) (card_of mv).

End FitsSpec.

(** ** Concrete benchmark records *)

Module BenchmarkSamples.
Import Images FitsSpec.

(** Sequential stand-ins for [np.nansum], [np.nanmin] and [np.nanmax]. *)
Definition nansum_seq (l : list float) : float :=
  fold_left (fun acc x => if PrimFloat.is_nan x then acc else (acc + x)%float)
            l 0%float.

Definition fmin (x y : float) : float :=
  if PrimFloat.is_nan x then y
  else if PrimFloat.is_nan y then x
  else if (y <? x)%float then y else x.

Definition fmax (x y : float) : float :=
  if PrimFloat.is_nan x then y
  else if PrimFloat.is_nan y then x
  else if (x <? y)%float then y else x.

Definition nanmin_seq (l : list float) : float := fold_left fmin l nan.
Definition nanmax_seq (l : list float) : float := fold_left fmax l nan.

Definition img : ndarray float :=
  NdArray [2%nat; 2%nat] [1.5%float; 2%float; nan; 4%float].
Definition pe_img : ndarray float :=
  NdArray [2%nat; 2%nat] [0%float; 3%float; nan; 7%float].
Definition adc_sums_img : ndarray float :=
  NdArray [1%nat; 2%nat; 2%nat] [10%float; 20%float; 30%float; 40%float].
Definition pedestal_img : ndarray float :=
  NdArray [1%nat; 2%nat; 2%nat] [1%float; 1%float; 1%float; 1%float].
Definition gains_img : ndarray float :=
  NdArray [1%nat; 2%nat; 2%nat] [0.5%float; 0.5%float; 0.5%float; 0.5%float].
Definition pixel_pos : ndarray float :=
  NdArray [2%nat; 2%nat; 2%nat]
    [0%float; 1%float; 0%float; 1%float; 0%float; 0%float; 1%float; 1%float].
Definition pixel_mask : ndarray float :=
  NdArray [2%nat; 2%nat] [1%float; 1%float; 0%float; 1%float].

(** The entries of a metadata mapping keyed by the header keywords, for a
    given format version. *)
Definition fields (version : Z) (k : string) : meta_value :=
  if String.eqb k "version" then Plain (SInt version)
  else if String.eqb k "cam_id" then Plain (SStr "ASTRICam")
  else if String.eqb k "tel_id" then Plain (SInt 3)
  else if String.eqb k "event_id" then Plain (SInt 42)
  else if String.eqb k "simtel" then Plain (SStr "run1.simtel.gz")
  else if String.eqb k "tel_trig" then Plain (SInt 2)
  else if String.eqb k "energy" then WithUnit (SFloat 0.5%float) "TeV"
  else if String.eqb k "mc_az" then WithUnit (SFloat 1.25%float) "rad"
  else if String.eqb k "mc_alt" then WithUnit (SFloat 0.75%float) "rad"
  else if String.eqb k "count" then Plain (SInt 7)
  else if String.eqb k "run_id" then Plain (SInt 1)
  else if String.eqb k "tel_data" then Plain (SInt 2)
  else WithUnit (SFloat 16%float) "m".

(** A metadata mapping keyed by the header keywords, with one more entry. *)
Definition metadata (version : Z) : list (string * meta_value) :=
  map (fun k => (k, fields version k)) header_keywords
  ++ [("uid", Plain (SStr "abc"))].

(** A metadata mapping under the names [simtel_images_generator] uses. *)
Definition generator_metadata : list (string * meta_value) :=
  [ ("cam_id", Plain (SStr "ASTRICam")); ("version", Plain (SInt 1));
    ("tel_id", Plain (SInt 3)); ("event_id", Plain (SInt 42));
    ("file_path", Plain (SStr "run1.simtel.gz"));
    ("simtel_path", Plain (SStr "run1.simtel.gz"));
    ("num_tel_with_trigger", Plain (SInt 2));
    ("mc_energy", WithUnit (SFloat 0.5%float) "TeV") ].

Definition empty_world : world := MkWorld ∅ [] [].

(** Stand-ins for astropy on the sample values: a NaN and an infinity are
    refused, no unit string is, and the sample values fit a card as they
    are. *)
Definition refuses_nan_inf (_ : string) (v : scalar) : option string :=
  match v with
  | SFloat f =>
      if PrimFloat.is_nan f
      then Some "Floating point nan values are not allowed in FITS headers."
      else if PrimFloat.is_infinity f
      then Some "Floating point inf values are not allowed in FITS headers."
      else None
  | _ => None
  end.
Definition no_unit_refused (_ _ : string) : option string := None.
Definition as_given (_ : string) (c : card) : card := c.

Definition save (img pe_img adc_sums_img pedestal_img gains_img pixel_pos
    pixel_mask : ndarray float) (md : list (string * meta_value))
    (path : string) : M unit :=
  save_benchmark_images refuses_nan_inf no_unit_refused as_given img pe_img
    adc_sums_img pedestal_img gains_img pixel_pos pixel_mask md path.

(** The world after saving the record, with the given version and
    metadata, to [out.fits]. *)
Definition saved_with (md : list (string * meta_value)) : world :=
  (save img pe_img adc_sums_img pedestal_img gains_img pixel_pos pixel_mask
     md "out.fits" empty_world).2.

Definition saved (version : Z) : world := saved_with (metadata version).

(** A FITS file of one unit with an empty header. *)
Definition bare_world : world :=
  MkWorld {[ "bare.fits" := RegularFile (FitsFile [PrimaryHDU img]) ]} [] [].

Definition load (path : string) (w : world) :=
  load_benchmark_images nansum_seq nanmin_seq nanmax_seq path w.

(** The units of [out.fits] in a world, and the cards the sample metadata
    is written as. *)
Definition units_of (w : world) : list hdu :=
  match fs w !! "out.fits" with
  | Some (RegularFile (FitsFile hdu_list)) => hdu_list
  | _ => []
  end.

Definition unit_at (w : world) (i : nat) : hdu :=
  nth i (units_of w) (PrimaryHDU img).

Definition primary_of (w : world) : hdu := unit_at w 0.

Definition seven_units (w : world) : list hdu :=
  [ unit_at w 0; unit_at w 1; unit_at w 2; unit_at w 3; unit_at w 4;
    unit_at w 5; unit_at w 6 ].

Definition sample_cards (version : Z) (k : string) : card :=
  card_of (fields version k).

End BenchmarkSamples.

(** ** Concrete inputs of the null driver *)

Module DriverSamples.
Import Null.

(** A FITS file of an input image and its reference image. *)
Definition two_unit_file (input reference : ndarray float) : node :=
  RegularFile (FitsFile [PrimaryHDU input; ImageHDU reference]).

Definition zeros : ndarray float :=
  NdArray [2%nat; 2%nat] [0%float; 0%float; 0%float; 0%float].

(** Two files: [a.fits] with a real reference image, [b.fits] with an
    all-zero one; nothing open, nothing printed. *)
Definition two_files : world :=
  MkWorld
    (<[ "a.fits" := two_unit_file BenchmarkSamples.img BenchmarkSamples.pe_img ]>
     (<[ "b.fits" := two_unit_file BenchmarkSamples.img zeros ]> ∅))
    [] [].

(** A file whose second unit is a table. *)
Definition with_table : world :=
  MkWorld
    {[ "t.fits" := RegularFile (FitsFile
         [PrimaryHDU BenchmarkSamples.img; Hdu false ∅ None]) ]}
    [] [].

(** A file of tables as astropy writes it: a primary unit without data,
    then the table. *)
Definition table_only : world :=
  MkWorld
    {[ "table.fits" := RegularFile (FitsFile
         [Hdu true ∅ None; Hdu false ∅ None]) ]}
    [] [].

(** [null.py -b mse a.fits b.fits]. *)
Definition benchmark_run : arguments :=
  Arguments_ (Some "mse") 0 None ["a.fits"; "b.fits"].

End DriverSamples.

(** ** Notions used to state further properties of file discovery *)

Module DiscoveryMoreSpec.
Import Images DiscoverySpec.

(** The first [N - c] elements under a limit [N] once [c] files have been
    counted; all of them without a limit. *)
Definition capped (max_num_files : option Z) (c : Z) (l : list string)
  : list string :=
  match max_num_files with
  | Some N => take (Z.to_nat (N - c)) l
  | None => l
  end.

(** A directory [image_files_in_paths] can list. *)
Definition listable (expanduser : string -> string) (t : gmap string node)
    (path : string) : Prop :=
  isdir t (expanduser path) = true
  /\ isdir t (expanduser (expanduser path)) = true.

End DiscoveryMoreSpec.

(** ** Notions used to state further properties of [fill_nan_pixels] *)

Module FillNanMoreSpec.

(** The entries of a buffer that lie under a true bit of a mask, in order. *)
Fixpoint under_mask {A} (mask : list bool) (buf : list A) : list A :=
  match mask, buf with
  | m :: mask', x :: buf' =>
      if m then x :: under_mask mask' buf' else under_mask mask' buf'
  | _, _ => []
  end.

(** A sampler that returns [size] copies of one value. *)
Definition constant_noise (v : float) (size : nat) : list float :=
  repeat v size.

End FillNanMoreSpec.

(** ** Notions used to state further properties of the FITS functions *)

Module FitsMoreSpec.
Import Images FitsSpec.

(** Whether a header has a card under a keyword. *)
Definition has_card (h : header) (key : string) : bool :=
  match h !! upper key with
  | Some _ => true
  | None => false
  end.

(** The first keyword, in the order [load_benchmark_images] reads them, for
    which the header has no card. *)
Definition first_missing (h : header) : option string :=
  find (fun k => negb (has_card h k)) header_keywords.

(** A file whose primary header has the first four cards only. *)
Definition four_cards : world :=
  MkWorld
    {[ "part.fits" := RegularFile (FitsFile
         [ with_header (PrimaryHDU BenchmarkSamples.img)
             (header_set (header_set (header_set (header_set ∅
                "version" (SInt 1)) "cam_id" (SStr "ASTRICam"))
                "tel_id" (SInt 3)) "event_id" (SInt 42)) ]) ]}
    [] [].

(** A reference image of shape (0, 3). *)
Definition no_pixel : ndarray float := NdArray [0%nat; 3%nat] [].

(** A 1-D array. *)
Definition flat : ndarray float := NdArray [3%nat] [1%float; 2%float; 3%float].

End FitsMoreSpec.

(** ** Notions used to state further properties of the null driver *)

Module DriverMoreSpec.
Import Null.






End DriverMoreSpec.

(** ** Notions used to state the properties of the histogram script *)

Module HistogramSpec.
Import Histogram.

(** The same command line without the two flags on aborted images. *)
Definition without_aborted_flags (args : arguments) : arguments :=
  Arguments_ false false (logx args) (logy args) (metric args) (output args)
    (title args) (telid args) (quiet args) (fileargs args).

Section Entries.

Variable json : Type.
Variable score_array : Type.
Variable image_filter_equals : json -> string -> Z -> result json.
Variable image_filter_range : json -> string -> float -> float -> result json.
Variable extract_score_array : json -> string -> result score_array.
Variable label_of : json -> result string.

(** What one score file contributes to the five lists. *)
Record entry : Type := Entry {
  scores1 : score_array;
  scores2 : score_array;
  scores3 : score_array;
  scores4 : score_array;
  entry_label : string
}.

(** The entry of a parsed score file: the scores of its images in each of
    the four decades of energy and its label, after the telescope filter if
    one is asked for. *)
Definition entry_of (tel_id : option Z) (metric : string) (j : json)
  : result entry :=
  (let* j := match tel_id with
             | Some tel => image_filter_equals j "tel_id" tel
             | None => Ok j
             end in
   let* j1 := image_filter_range j "mc_energy" 0.1%float 1%float in
   let* j2 := image_filter_range j "mc_energy" 1%float 10%float in
   let* j3 := image_filter_range j "mc_energy" 10%float 100%float in
   let* j4 := image_filter_range j "mc_energy" 100%float 1000%float in
   let* a1 := extract_score_array j1 metric in
   let* a2 := extract_score_array j2 metric in
   let* a3 := extract_score_array j3 metric in
   let* a4 := extract_score_array j4 metric in
   let* l := label_of j in
   Ok (Entry a1 a2 a3 a4 l))%result.

End Entries.

Arguments Entry {score_array}.
Arguments scores1 {score_array} _.
Arguments scores2 {score_array} _.
Arguments scores3 {score_array} _.
Arguments scores4 {score_array} _.
Arguments entry_label {score_array} _.

(** Stand-ins for [common_functions] and matplotlib: a score file is its
    label, every filter keeps it. *)
Definition parse_label (path : string) : M string := ret ("label of " ++ path).
Definition keep_equals (j : string) (_ : string) (_ : Z) : result string := Ok j.
Definition keep_range (j : string) (_ : string) (_ _ : float) : result string :=
  Ok j.
Definition no_scores (_ : string) (_ : string) : result unit := Ok tt.
Definition one_image (_ : string) : result nat := Ok 1%nat.
Definition label_is (j : string) : result string := Ok j.

End HistogramSpec.

(** ** Notions used to state the properties of the image streams *)

Module GeneratorSpec.
Import Images Simtel ImageGenerator.

(** The metadata entry [key] of the image is a plain value that the filter
    list accepts; no list accepts every image. *)
Definition selected_by {A} (eq : scalar -> A -> bool) (key : string)
    (filter_list : option (list A)) (i : image) : bool :=
  match filter_list with
  | None => true
  | Some l =>
      match meta_of i !! key with
      | Some (Plain v) => existsb (eq v) l
      | _ => false
      end
  end.

Definition selected (tel_filter_list ev_filter_list : option (list Z))
    (cam_filter_list : option (list string)) (i : image) : bool :=
  selected_by equals_int "tel_id" tel_filter_list i
  && selected_by equals_int "event_id" ev_filter_list i
  && selected_by equals_str "cam_id" cam_filter_list i.

(** The image carries format version 1 and the given path of its file. *)
Definition stamped (file_path : string) (i : image) : Prop :=
  meta_of i !! "version" = Some (Plain (SInt 1))
  /\ meta_of i !! "file_path" = Some (Plain (SStr file_path))
  /\ meta_of i !! "simtel_path" = Some (Plain (SStr file_path)).

(** The images a run yielded. *)
Definition run_images (r : run) : list image :=
  match r with
  | NotStarted _ _ => []
  | Started _ images _ => images
  end.

(** The same options with [integration_correction] set to [b]. *)
Definition with_correction (b : bool) (o : options) : options :=
  Options (ctapipe_format o) (integrator o) (integrator_window_width o)
    (integrator_window_shift o) (integrator_t0 o)
    (integrator_sig_amp_cut_hg o) (integrator_sig_amp_cut_lg o)
    (integrator_lwt o) b (debug o) (mix_channels o).

(** A camera name in neither list of known cameras. *)
Definition unknown_camera (cam_id : string) : Prop :=
  str_in cam_id SINGLE_CHANNEL_CAMERAS = false
  /\ str_in cam_id TWO_CHANNELS_CAMERAS = false.

(** Stand-ins for astropy, ctapipe and pyhessio: quantities without content,
    a camera guessed to be the given one, a 2-D conversion that keeps the
    array, a source with the given events for every file, a calibration that
    changes nothing. *)
Definition no_value (_ : unit) (_ : string) : float := 0%float.
Definition unit_name (_ : unit) (unit_str : string) : string := unit_str.
Definition camera (cam_id : string) (_ : list float * list float) (_ : unit)
  : string := cam_id.
Definition same_array (a : ndarray float) (_ : string)
  : result (ndarray float) := Ok a.
Definition no_positions (_ : list float * list float) (shp : list nat)
  : ndarray float := NdArray (2%nat :: shp) [].
Definition as_it_is (_ : option config) (_ : bool) (ev : event unit)
  : result (event unit) := Ok ev.
Definition silent (_ : option config) : list string := [].
Definition source_of (events : list (event unit)) (_ : string)
    (_ : option (list Z)) : result (list (event unit)) := Ok events.

(** A telescope of one pixel, and an event number 42 triggering the given
    telescopes, all alike. *)
Definition one_pixel : telescope unit :=
  Telescope unit ([0%float], [0%float]) tt (tt, tt, tt) [1%float]
    [[0%float]; [0%float]] [[1%float]; [1%float]] [[3%float]; [2%float]]
    [[[3%Z]]; [[2%Z]]] [[[3%float]]; [[2%float]]]
    [[[3%float]]; [[2%float]]] [[3%float]; [2%float]] [[0%float]; [0%float]].

Definition event_42 (tels : list Z) : event unit :=
  Event unit 7 42 1 tels tels tt tt tt tt tt tt (fun _ => one_pixel).

(** A world with one Simtel file and one file of another kind. *)
Definition two_files : world :=
  MkWorld (<[ "run.simtel.gz" := RegularFile OtherFile ]>
           (<[ "notes.txt" := RegularFile OtherFile ]> ∅)) [] [].

Definition at_rest (w : world) : state := State w None false.

(** [image_generator] on the stand-ins, for a camera and the events of
    every Simtel file. *)
Definition sample_generator (cam_id : string) (events : list (event unit)) :=
  image_generator BenchmarkSamples.nansum_seq BenchmarkSamples.nanmin_seq
    BenchmarkSamples.nanmax_seq unit no_value unit_name (camera cam_id)
    same_array no_positions (source_of events) as_it_is silent
    DiscoverySpec.no_tilde.

Definition sample_simtel (cam_id : string) (events : list (event unit)) :=
  simtel_images_generator unit no_value unit_name (camera cam_id) same_array
    no_positions (source_of events) as_it_is silent DiscoverySpec.no_tilde.

End GeneratorSpec.

(** ** Notions used to state what the loader leaves open *)

Module HandleSpec.
Import Images.

(** The two exceptions [load_benchmark_images] ends in with no file left
    open: the one raised after [hdu_list.close()], and the failure to open
    the file at all. *)
Definition raised_closed (path : string) (e : exn) : bool :=
  match e with
  | WrongFitsFileStructure p | OSError p => String.eqb p path
  | _ => false
  end.

(** The world [load_benchmark_images] leaves, by its outcome. *)
Definition left_by {A} (path : string) (w : world) (r : result A) : world :=
  match r with
  | Ok _ => w
  | Raise e => if raised_closed path e then w else FitsSpec.opened w path
  end.

End HandleSpec.

(* ===================================================================== *)
(** * Part II.  Properties                                                *)
(* ===================================================================== *)

(** Integer comparisons take precedence over those of strings from here on. *)
Local Open Scope Z_scope.

(** ** File discovery *)

Module DiscoveryProps.
Import Images DiscoverySpec.

(** The string functions on names as the directory parser meets them. *)
Example lower_mixed_case : lower "Run_01.SIMTEL.GZ" = "run_01.simtel.gz".
Proof. reflexivity. Qed.

Example endswith_extension :
  endswith_any (lower "Event.Fit") FILE_EXT = true
  /\ endswith_any (lower "event.fits.txt") FILE_EXT = false
  /\ endswith_any (lower "fit") FILE_EXT = false.
Proof. repeat split. Qed.

Example path_join_cases :
  OS.path_join "data" "a.fits" = "data/a.fits"
  /\ OS.path_join "data/" "a.fits" = "data/a.fits"
  /\ OS.path_join "data" "/abs/a.fits" = "/abs/a.fits".
Proof. repeat split. Qed.

Section Proofs.
Variable expanduser : string -> string.
Variable t : gmap string node.

Lemma matching_files_cons directory_path file_name names :
  matching_files t directory_path (file_name :: names) =
  if matches t directory_path file_name
  then OS.path_join directory_path file_name
       :: matching_files t directory_path names
  else matching_files t directory_path names.
Proof.
  unfold matching_files. rewrite filter_cons.
  destruct (matches t directory_path file_name); simpl.
  - destruct (decide (true = true)) as [_|n]; [reflexivity | congruence].
  - destruct (decide (false = true)) as [e|_]; [discriminate e | reflexivity].
Qed.

Lemma dir_loop_cons directory_path max_num_files file_name names c :
  image_files_in_dir_loop t directory_path max_num_files (file_name :: names) c =
  if matches t directory_path file_name
  then if over_limit max_num_files (c + 1) then []
       else OS.path_join directory_path file_name
            :: image_files_in_dir_loop t directory_path max_num_files names
                 (c + 1)
  else image_files_in_dir_loop t directory_path max_num_files names c.
Proof. reflexivity. Qed.

(** With a limit, the directory loop yields the first [N - c] matching
    entries, [c] being the number counted before. *)
Lemma dir_loop_limit directory_path (N : Z) names : forall c : Z,
  image_files_in_dir_loop t directory_path (Some N) names c =
  take (Z.to_nat (N - c)) (matching_files t directory_path names).
Proof.
  induction names as [|file_name names IH]; intros c.
  - change (matching_files t directory_path []) with (@nil string).
    now rewrite take_nil.
  - rewrite matching_files_cons, dir_loop_cons.
    destruct (matches t directory_path file_name).
    + unfold over_limit. destruct (Z.gtb_spec (c + 1) N) as [Hgt|Hle].
      * replace (Z.to_nat (N - c)) with 0%nat by lia. reflexivity.
      * replace (Z.to_nat (N - c)) with (S (Z.to_nat (N - (c + 1)))) by lia.
        simpl. now rewrite IH.
    + apply IH.
Qed.

Lemma dir_loop_nolimit directory_path names : forall c : Z,
  image_files_in_dir_loop t directory_path None names c =
  matching_files t directory_path names.
Proof.
  induction names as [|file_name names IH]; intros c.
  - reflexivity.
  - rewrite matching_files_cons, dir_loop_cons.
    destruct (matches t directory_path file_name); simpl; now rewrite IH.
Qed.

Lemma image_files_in_dir_nolimit directory_path :
  yielded (image_files_in_dir expanduser t directory_path None) =
  matching_files t (expanduser directory_path)
    (entries t (expanduser directory_path)).
Proof.
  unfold image_files_in_dir, entries.
  destruct (listdir t (expanduser directory_path)) as [names|e]; simpl.
  - apply dir_loop_nolimit.
  - reflexivity.
Qed.

(** The inner loop of [image_files_in_paths]: it yields the first [N - c]
    items, and whatever follows it gets what is left of the limit. *)
Lemma paths_dir_loop_limit (N : Z) items : forall c : Z,
  let '(ys, c', broke) := paths_dir_loop (Some N) items c in
  ys = take (Z.to_nat (N - c)) items
  /\ (forall rest : list string,
        take (Z.to_nat (N - c)) (items ++ rest)%list =
        (ys ++ take (Z.to_nat (N - c')) rest)%list)
  /\ (broke = true -> N < c').
Proof.
  induction items as [|x items IH]; intros c.
  - simpl. rewrite take_nil.
    split; [reflexivity | split; [intros rest; reflexivity | discriminate]].
  - simpl. unfold over_limit. destruct (Z.gtb_spec (c + 1) N) as [Hgt|Hle].
    + replace (Z.to_nat (N - c)) with 0%nat by lia.
      replace (Z.to_nat (N - (c + 1))) with 0%nat by lia.
      split; [reflexivity | split; [intros rest; reflexivity | lia]].
    + specialize (IH (c + 1)).
      destruct (paths_dir_loop (Some N) items (c + 1)) as [[ys c'] broke].
      destruct IH as (Hys & Hrest & Hb).
      replace (Z.to_nat (N - c)) with (S (Z.to_nat (N - (c + 1)))) by lia.
      simpl. split; [now rewrite Hys | split; [|exact Hb]].
      intros rest. now rewrite Hrest.
Qed.

(** With a limit, [image_files_in_paths] yields the first [N - c] of the
    files the path list stands for, as long as every path is accepted. *)
Lemma paths_loop_limit (N : Z) path_list : forall c : Z,
  Forall (accepted expanduser t) path_list ->
  yielded (image_files_in_paths_loop expanduser t (Some N) path_list c) =
  take (Z.to_nat (N - c)) (listed_files expanduser t path_list)
  /\ raised (image_files_in_paths_loop expanduser t (Some N) path_list c) = None.
Proof.
  induction path_list as [|path rest IH]; intros c Hacc.
  - simpl. now rewrite take_nil.
  - inversion Hacc as [|? ? Hp Hrest]; subst. simpl.
    destruct Hp as [[Hd Hd'] | [Hd Hf]]; rewrite Hd.
    + pose proof (paths_dir_loop_limit N
        (yielded (image_files_in_dir expanduser t (expanduser path) None)) c)
        as Hin.
      destruct (paths_dir_loop (Some N)
        (yielded (image_files_in_dir expanduser t (expanduser path) None)) c)
        as [[ys c'] broke].
      destruct Hin as (Hys & Happ & _).
      assert (Hraised :
        raised (image_files_in_dir expanduser t (expanduser path) None) = None).
      { unfold image_files_in_dir, listdir. unfold isdir in Hd'.
        destruct (t !! expanduser (expanduser path)) as [[?|?]|];
          try discriminate Hd'. reflexivity. }
      rewrite Hraised. destruct (IH c' Hrest) as [Hy Hr].
      replace (if broke then None else None) with (@None exn)
        by now destruct broke.
      simpl. split; [|exact Hr].
      rewrite Hy, <- image_files_in_dir_nolimit. symmetry. apply Happ.
    + rewrite Hf. unfold over_limit.
      destruct (Z.gtb_spec (c + 1) N) as [Hgt|Hle].
      * replace (Z.to_nat (N - c)) with 0%nat by lia. now rewrite take_0.
      * destruct (IH (c + 1) Hrest) as [Hy Hr]. simpl. split; [|exact Hr].
        replace (Z.to_nat (N - c)) with (S (Z.to_nat (N - (c + 1)))) by lia.
        simpl. now rewrite Hy.
Qed.

End Proofs.

(** What the code does with a limit [N].  [image_files_in_dir] yields the
    first [N] matching files of the directory, so [min(N, matching)] of them
    ([0] for a negative [N]); and [image_files_in_paths], on a path list of
    directories and regular files, yields the first [N] of the files the
    list stands for, namely the matching files of each directory and every
    listed regular file whatever its name, so [min(N, that number)] of them,
    and ends without an exception. *)
Theorem image_files_limit (expanduser : string -> string)
    (t : gmap string node) (N : Z) (directory_path : string)
    (names path_list : list string) :
  listdir t (expanduser directory_path) = Ok names ->
  Forall (accepted expanduser t) path_list ->
  let in_dir := image_files_in_dir expanduser t directory_path (Some N) in
  let in_paths := image_files_in_paths expanduser t path_list (Some N) in
  let matching := matching_files t (expanduser directory_path) names in
  let listed := listed_files expanduser t path_list in
  yielded in_dir = take (Z.to_nat N) matching
  /\ raised in_dir = None
  /\ Z.of_nat (length (yielded in_dir))
     = Z.max 0 (Z.min N (Z.of_nat (length matching)))
  /\ yielded in_paths = take (Z.to_nat N) listed
  /\ raised in_paths = None
  /\ Z.of_nat (length (yielded in_paths))
     = Z.max 0 (Z.min N (Z.of_nat (length listed))).
Proof.
  intros Hls Hacc in_dir in_paths matching listed.
  assert (Hdir : yielded in_dir = take (Z.to_nat N) matching
                 /\ raised in_dir = None).
  { subst in_dir matching. unfold image_files_in_dir. rewrite Hls. simpl.
    rewrite dir_loop_limit. now replace (N - 0) with N by lia. }
  assert (Hpaths : yielded in_paths = take (Z.to_nat N) listed
                   /\ raised in_paths = None).
  { subst in_paths listed. unfold image_files_in_paths.
    destruct (paths_loop_limit expanduser t N path_list 0 Hacc) as [Hy Hr].
    rewrite Hy, Hr. now replace (N - 0) with N by lia. }
  destruct Hdir as [Hd1 Hd2], Hpaths as [Hp1 Hp2].
  repeat split; try assumption.
  - rewrite Hd1, length_take. lia.
  - rewrite Hp1, length_take. lia.
Qed.

(** The limit on a directory with two matching entries out of three, and on
    a path list made of that directory and a regular file. *)
Lemma image_files_limit_witness :
  yielded (image_files_in_dir no_tilde sample_tree "data" (Some 1))
    = ["data/a.FITS"]
  /\ yielded (image_files_in_paths no_tilde sample_tree ["data"; "run.fit"]
               (Some 5))
    = ["data/a.FITS"; "data/b.simtel.gz"; "run.fit"].
Proof.
  assert (Hls : listdir sample_tree (no_tilde "data")
                = Ok ["a.FITS"; "readme.md"; "b.simtel.gz"])
    by (vm_compute; reflexivity).
  assert (Hacc : Forall (accepted no_tilde sample_tree) ["data"; "run.fit"]).
  { constructor; [|constructor; [|constructor]].
    - left. split; vm_compute; reflexivity.
    - right. split; vm_compute; reflexivity. }
  split.
  - destruct (image_files_limit no_tilde sample_tree 1 "data" _ _ Hls Hacc)
      as (H & _). rewrite H. vm_compute. reflexivity.
  - destruct (image_files_limit no_tilde sample_tree 5 "data" _ _ Hls Hacc)
      as (_ & _ & _ & H & _). rewrite H. vm_compute. reflexivity.
Defined.

(** C7.  The path list [["notes.txt"]], a regular file, with the limit 5:
    [image_files_in_paths] yields [notes.txt] although its name has none of
    the four extensions, so that one path is yielded where no file matches
    and the length is not [min(N, matching files)].  The branch for a
    regular file does not test the extension, which the branch for a
    directory does, and which the docstring of the function promises. *)
Lemma image_files_in_paths_unfiltered :
  Forall (accepted no_tilde notes_only) ["notes.txt"]
  /\ yielded (image_files_in_paths no_tilde notes_only ["notes.txt"] (Some 5))
     = ["notes.txt"]
  /\ files_with_extension no_tilde notes_only ["notes.txt"] = []
  /\ Z.of_nat (length (yielded (image_files_in_paths no_tilde notes_only
                                  ["notes.txt"] (Some 5))))
     <> Z.min 5 (Z.of_nat (length (files_with_extension no_tilde notes_only
                                     ["notes.txt"]))).
Proof.
  split; [|split; [|split]].
  - constructor; [|constructor]. right. split; vm_compute; reflexivity.
  - vm_compute. reflexivity.
  - vm_compute. reflexivity.
  - vm_compute. discriminate.
Qed.

End DiscoveryProps.

(** ** The null algorithm *)

Module NullProps.
Import Null.

(** C8.  [null] is the identity, hence idempotent; on an array the output
    has the shape and the buffer of the input, with the same element type. *)
Theorem null_fixed_point (A : Type) (I : ndarray A) :
  null I = I
  /\ null (null I) = null I
  /\ shape (null I) = shape I
  /\ data (null I) = data I.
Proof. unfold null. repeat split. Qed.

End NullProps.

(** ** [fill_nan_pixels] *)

Module FillNanProps.
Import Images Samples.

Section Generic.
Context {A : Type} `{Dtype A}.

Lemma assign_masked_scalar_isnan (buf : list A) :
  assign_masked_scalar (map isnan buf) zero buf =
  map (fun x => if isnan x then zero else x) buf.
Proof.
  unfold assign_masked_scalar.
  induction buf as [|x buf IH]; simpl; [reflexivity | now rewrite IH].
Qed.

Lemma no_nan_after_fill (buf : list A) :
  Forall (fun x => isnan x = false)
         (map (fun x => if isnan x then zero else x) buf).
Proof.
  induction buf as [|x buf IH]; simpl; constructor; [|exact IH].
  destruct (isnan x) eqn:E; [apply isnan_zero | exact E].
Qed.

End Generic.

(** C10.  Called without a noise distribution on the array [a] held at
    [image], [fill_nan_pixels] returns the mask [np.isnan(a)] and leaves, at
    the same reference, an array of the same shape in which each entry that
    was NaN is [0] and every other entry is what it was; no entry of it is
    NaN, and no other array of the heap is touched. *)
Theorem fill_nan_pixels_zero {A : Type} `{Dtype A} (image : nat)
    (a : ndarray A) (h : heap A) :
  h !! image = Some a ->
  exists a' : ndarray A,
    fill_nan_pixels image None h
      = (Ok (NdArray (shape a) (map isnan (data a))), <[image := a']> h)
    /\ shape a' = shape a
    /\ length (data a') = length (data a)
    /\ (forall (i : nat) (x : A), data a !! i = Some x ->
          data a' !! i = Some (if isnan x then zero else x))
    /\ Forall (fun x => isnan x = false) (data a').
Proof.
  intros Ha.
  exists (NdArray (shape a) (map (fun x => if isnan x then zero else x) (data a))).
  unfold fill_nan_pixels. rewrite Ha. simpl.
  rewrite assign_masked_scalar_isnan.
  split; [reflexivity|]. split; [reflexivity|].
  split; [now rewrite length_map|]. split.
  - intros i x Hi. rewrite list_lookup_fmap, Hi. reflexivity.
  - apply no_nan_after_fill.
Qed.

(** The theorem at the array of the docstring. *)
Lemma fill_nan_pixels_zero_witness :
  let h : heap float := {[ 0%nat := docstring_image ]} in
  h !! 0%nat = Some docstring_image
  /\ exists a' : ndarray float,
       fill_nan_pixels 0%nat None h
         = (Ok (NdArray (shape docstring_image)
                  (map isnan (data docstring_image))), <[0%nat := a']> h)
       /\ shape a' = shape docstring_image
       /\ length (data a') = length (data docstring_image)
       /\ (forall (i : nat) (x : float), data docstring_image !! i = Some x ->
             data a' !! i = Some (if isnan x then zero else x))
       /\ Forall (fun x => isnan x = false) (data a').
Proof.
  intros h. split.
  - apply lookup_singleton_eq.
  - apply (fill_nan_pixels_zero 0%nat docstring_image h).
    apply lookup_singleton_eq.
Defined.

(** The docstring's example: the mask returned and the image afterwards. *)
Example fill_nan_pixels_docstring :
  fill_nan_pixels 0%nat None ({[ 0%nat := docstring_image ]} : heap float)
  = (Ok docstring_mask, {[ 0%nat := docstring_filled ]}).
Proof. vm_compute. reflexivity. Qed.

End FillNanProps.

(** ** Channel mixing *)

Module MixProps.
Import Images MixSpec.

Lemma fold_max_ge (row : list Z) : forall x : Z,
  x <= fold_left Z.max row x
  /\ (forall s, In s row -> s <= fold_left Z.max row x)
  /\ (fold_left Z.max row x = x \/ In (fold_left Z.max row x) row).
Proof.
  induction row as [|y row IH]; intros x; simpl.
  - split; [lia|]. split; [intros s []|]. now left.
  - destruct (IH (Z.max x y)) as (H1 & H2 & H3).
    split; [lia|]. split.
    + intros s [->|Hs]; [lia | now apply H2].
    + destruct H3 as [H3|H3]; [|right; now right].
      rewrite H3. destruct (Z.max_spec x y) as [[_ ->]|[_ ->]];
        [right; now left | now left].
Qed.

(** [peak_of] is the maximum of a non-empty row. *)
Lemma peak_of_is_max (row : list Z) :
  row <> [] ->
  In (peak_of row) row /\ (forall s, In s row -> s <= peak_of row).
Proof.
  destruct row as [|x row]; [congruence|]. intros _. simpl.
  destruct (fold_max_ge row x) as (H1 & H2 & H3). split.
  - destruct H3 as [->|H3]; [now left | now right].
  - intros s [<-|Hs]; [exact H1 | now apply H2].
Qed.

Lemma max_axis1_peaks (samples : list (list Z)) :
  Forall (fun row => row <> []) samples ->
  max_axis1 samples = Ok (map peak_of samples).
Proof.
  induction 1 as [|row samples Hrow _ IH]; [reflexivity|].
  destruct row as [|x row]; [congruence|]. simpl. now rewrite IH.
Qed.

(** Adding [0.0] on the left gives the same number. *)
Lemma add_zero_l (x : float) : same_number (0 + x)%float x.
Proof.
  destruct (Prim2SF x) as [s|s| |s m e] eqn:E.
  - destruct s.
    + right. split.
      * apply Prim2SF_inj. rewrite add_spec, E. reflexivity.
      * apply Prim2SF_inj. rewrite E. reflexivity.
    + left. apply Prim2SF_inj. rewrite add_spec, E. reflexivity.
  - left. apply Prim2SF_inj. rewrite add_spec, E. reflexivity.
  - left. apply Prim2SF_inj. rewrite add_spec, E. reflexivity.
  - left. apply Prim2SF_inj. rewrite add_spec, E. reflexivity.
Qed.

(** Adding [0.0] on the right gives the same number. *)
Lemma add_zero_r (x : float) : same_number (x + 0)%float x.
Proof.
  destruct (Prim2SF x) as [s|s| |s m e] eqn:E.
  - destruct s.
    + right. split.
      * apply Prim2SF_inj. rewrite add_spec, E. reflexivity.
      * apply Prim2SF_inj. rewrite E. reflexivity.
    + left. apply Prim2SF_inj. rewrite add_spec, E. reflexivity.
  - left. apply Prim2SF_inj. rewrite add_spec, E. reflexivity.
  - left. apply Prim2SF_inj. rewrite add_spec, E. reflexivity.
  - left. apply Prim2SF_inj. rewrite add_spec, E. reflexivity.
Qed.

Lemma assign_masked_scalar_lookup {A} (f : Z -> bool) (peaks : list Z)
    (v : A) (row : list A) (p : nat) (k : Z) (x : A) :
  peaks !! p = Some k -> row !! p = Some x ->
  assign_masked_scalar (map f peaks) v row !! p = Some (if f k then v else x).
Proof.
  intros Hk Hx. unfold assign_masked_scalar.
  rewrite lookup_zip_with, list_lookup_fmap, Hk, Hx. reflexivity.
Qed.

(** The three statements of a two-channel branch, on a high-gain and a
    low-gain channel of as many pixels as there are sample rows. *)
Lemma merge_channels_two (threshold : Z) (hg lg : list float)
    (samples : list (list Z)) (other : list (list (list Z))) :
  length hg = length samples -> length lg = length samples ->
  Forall (fun row => row <> []) samples ->
  merge_channels threshold [hg; lg] (samples :: other) =
  Ok (zip_with PrimFloat.add
        (assign_masked_scalar
           (map (fun p : Z => p >=? threshold) (map peak_of samples)) 0%float hg)
        (assign_masked_scalar
           (map (fun p : Z => p <? threshold) (map peak_of samples)) 0%float lg)).
Proof.
  intros Hhg Hlg Hrows. unfold merge_channels, high_gain_peak. simpl.
  rewrite (max_axis1_peaks samples Hrows). simpl.
  unfold zero_channel_where. simpl.
  rewrite ?length_map, Hlg, Nat.eqb_refl. simpl.
  rewrite ?length_map, Hhg, Nat.eqb_refl. simpl. reflexivity.
Qed.

(** C3.  For a two-channel camera (ASTRICam, NectarCam, LSTCam) with a
    high-gain and a low-gain calibrated channel, the mixing block returns one
    value per pixel, the sum of the two masked channels: where the high-gain
    peak sample is at least 4095 the high-gain channel is zeroed and the
    pixel has the low-gain value, where it is below 4095 the low-gain channel
    is zeroed and the pixel has the high-gain value.  A peak of exactly 4095
    selects the low-gain value. *)
Theorem mix_channels_threshold (cam_id : string) (hg lg : list float)
    (samples : list (list Z)) (other : list (list (list Z))) :
  In cam_id TWO_CHANNELS_CAMERAS ->
  length hg = length samples -> length lg = length samples ->
  Forall (fun row => row <> []) samples ->
  exists merged : list float,
    mix_channels_block true cam_id [hg; lg] (samples :: other)
      = Ok (Mixed merged)
    /\ length merged = length samples
    /\ forall (p : nat) (h l : float) (row : list Z),
         hg !! p = Some h -> lg !! p = Some l -> samples !! p = Some row ->
         exists m : float,
           merged !! p = Some m
           /\ m = ((if (peak_of row >=? 4095)%Z then 0 else h)
                   + (if (peak_of row <? 4095)%Z then 0 else l))%float
           /\ (4095 <= peak_of row -> same_number m l)
           /\ (peak_of row < 4095 -> same_number m h)
           /\ (peak_of row = 4095 -> same_number m l).
Proof.
  intros Hcam Hhg Hlg Hrows.
  exists (zip_with PrimFloat.add
            (assign_masked_scalar
               (map (fun p : Z => p >=? 4095) (map peak_of samples)) 0%float hg)
            (assign_masked_scalar
               (map (fun p : Z => p <? 4095) (map peak_of samples)) 0%float lg)).
  split; [|split].
  - unfold mix_channels_block.
    destruct Hcam as [<-|[<-|[<-|[]]]]; simpl;
      unfold ASTRI_CAM_CHANNEL_THRESHOLD, NECTAR_CAM_CHANNEL_THRESHOLD,
        LST_CAM_CHANNEL_THRESHOLD;
      change (2 ^ 12 - 1) with 4095;
      now rewrite (merge_channels_two 4095 hg lg samples other Hhg Hlg Hrows).
  - unfold assign_masked_scalar.
    rewrite !length_zip_with, !length_map. lia.
  - intros p h l row Hh Hl Hrow.
    assert (Hpeak : map peak_of samples !! p = Some (peak_of row))
      by now rewrite list_lookup_fmap, Hrow.
    eexists. split; [|split; [reflexivity|]].
    + rewrite lookup_zip_with.
      rewrite (assign_masked_scalar_lookup _ _ _ _ _ _ _ Hpeak Hh).
      rewrite (assign_masked_scalar_lookup _ _ _ _ _ _ _ Hpeak Hl).
      reflexivity.
    + assert (Hge : 4095 <= peak_of row ->
                    same_number ((if (peak_of row >=? 4095)%Z then 0 else h)
                       + (if (peak_of row <? 4095)%Z then 0 else l))%float l).
      { intros Hp.
        destruct (Z.geb_spec (peak_of row) 4095); [|lia].
        destruct (Z.ltb_spec (peak_of row) 4095); [lia|].
        apply add_zero_l. }
      split; [exact Hge|]. split; [|intros Heq; apply Hge; lia].
      intros Hp.
      destruct (Z.geb_spec (peak_of row) 4095); [lia|].
      destruct (Z.ltb_spec (peak_of row) 4095); [|lia].
      apply add_zero_r.
Qed.

(** The theorem at the straddling image. *)
Lemma mix_channels_threshold_witness :
  In "NectarCam" TWO_CHANNELS_CAMERAS
  /\ length straddle_hg = length straddle_samples
  /\ length straddle_lg = length straddle_samples
  /\ Forall (fun row => row <> []) straddle_samples
  /\ exists merged : list float,
       mix_channels_block true "NectarCam" [straddle_hg; straddle_lg]
         [straddle_samples; straddle_samples] = Ok (Mixed merged)
       /\ length merged = length straddle_samples
       /\ forall (p : nat) (h l : float) (row : list Z),
            straddle_hg !! p = Some h -> straddle_lg !! p = Some l ->
            straddle_samples !! p = Some row ->
            exists m : float,
              merged !! p = Some m
              /\ m = ((if (peak_of row >=? 4095)%Z then 0 else h)
                      + (if (peak_of row <? 4095)%Z then 0 else l))%float
              /\ (4095 <= peak_of row -> same_number m l)
              /\ (peak_of row < 4095 -> same_number m h)
              /\ (peak_of row = 4095 -> same_number m l).
Proof.
  assert (Hcam : In "NectarCam" TWO_CHANNELS_CAMERAS) by (right; now left).
  assert (Hrows : Forall (fun row : list Z => row <> []) straddle_samples)
    by (repeat constructor; discriminate).
  split; [exact Hcam|]. split; [reflexivity|]. split; [reflexivity|].
  split; [exact Hrows|].
  exact (mix_channels_threshold "NectarCam" straddle_hg straddle_lg
           straddle_samples [straddle_samples] Hcam eq_refl eq_refl Hrows).
Defined.

(** The straddling image mixed: the pixel below the threshold keeps its
    high-gain value, the pixels at and above it take their low-gain value. *)
Example mix_channels_straddle :
  mix_channels_block true "NectarCam" [straddle_hg; straddle_lg]
    [straddle_samples; straddle_samples]
  = Ok (Mixed [10.5%float; 2%float; 3%float]).
Proof. vm_compute. reflexivity. Qed.

End MixProps.

(** ** The monad of the world *)

Module MonadFacts.

Lemma world_eta (w : world) : MkWorld (fs w) (open_fits w) (stdout w) = w.
Proof. now destruct w. Qed.

Lemma remove_first_head (path : string) (l : list string) :
  remove_first path (path :: l) = l.
Proof. simpl. now rewrite String.eqb_refl. Qed.

Lemma bind_ret {A B} (a : A) (k : A -> M B) (w : world) :
  bind (ret a) k w = k a w.
Proof. reflexivity. Qed.

Lemma bind_lift_ok {A B} (a : A) (k : A -> M B) (w : world) :
  bind (lift (Ok a)) k w = k a w.
Proof. reflexivity. Qed.

Lemma bind_lift_raise {A B} (e : exn) (k : A -> M B) (w : world) :
  bind (lift (Raise e)) k w = (Raise e, w).
Proof. reflexivity. Qed.

Lemma bind_raise {A B} (e : exn) (k : A -> M B) (w : world) :
  bind (raise e) k w = (Raise e, w).
Proof. reflexivity. Qed.

Lemma bind_fits_open {B} (path : string) (hdu_list : list hdu)
    (k : list hdu -> M B) (w : world) :
  FitsSpec.fits_at w path hdu_list ->
  bind (fits_open path) k w = k hdu_list (FitsSpec.opened w path).
Proof.
  intros Hf. unfold bind, fits_open. now rewrite Hf.
Qed.

(** Closing what was just opened gives the world back. *)
Lemma close_opened (path : string) (w : world) :
  fits_close path (FitsSpec.opened w path) = (Ok tt, w).
Proof.
  unfold fits_close, FitsSpec.opened. simpl.
  now rewrite String.eqb_refl, world_eta.
Qed.

Lemma bind_close_opened {B} (path : string) (k : unit -> M B) (w : world) :
  bind (fits_close path) k (FitsSpec.opened w path) = k tt w.
Proof. unfold bind. now rewrite close_opened. Qed.

End MonadFacts.

(** ** [load_fits] *)

Module LoadFitsProps.
Import Images FitsSpec MonadFacts.

(** On a FITS file, [load_fits] raises [WrongHDUError] exactly when the
    index is outside [[0, len(hdu_list))]; with the index in range it raises
    [NotAnImageError] when the unit is not image-typed and returns the
    [data] of the unit otherwise, an array or [None].  In every case the
    handle it opened is closed: the world is what it was. *)
Theorem load_fits_outcome (input_file_path : string) (hdu_index : Z)
    (hdu_list : list hdu) (w : world) :
  fits_at w input_file_path hdu_list ->
  let out := load_fits input_file_path hdu_index w in
  (out.1 = Raise (WrongHDUError input_file_path hdu_index)
   <-> ~ (0 <= hdu_index < Z.of_nat (length hdu_list)))
  /\ (forall u : hdu,
        0 <= hdu_index -> hdu_list !! Z.to_nat hdu_index = Some u ->
        out.1 = if is_image u then Ok (hdu_data u)
                else Raise (NotAnImageError input_file_path hdu_index))
  /\ out.2 = w.
Proof.
  intros Hf out. subst out. unfold load_fits.
  rewrite (bind_fits_open _ _ _ _ Hf).
  destruct (Z.leb_spec 0 hdu_index) as [H0|H0];
    destruct (Z.ltb_spec hdu_index (Z.of_nat (length hdu_list))) as [H1|H1];
    cbn [negb andb].
  2-4: rewrite bind_close_opened; unfold raise; simpl;
       (split; [split; [intros _; lia | reflexivity] |]);
       (split; [|reflexivity]); intros u Hge Hu;
       apply lookup_lt_Some in Hu; lia.
  destruct (hdu_list !! Z.to_nat hdu_index) as [u|] eqn:Hu.
  - unfold hdu_list_get. rewrite Hu, bind_lift_ok.
    destruct (is_image u) eqn:Hi; cbn [negb];
      rewrite bind_close_opened; unfold raise, ret; simpl.
    + split; [split; [discriminate | lia]|]. split; [|reflexivity].
      intros u' _ Hu'. injection Hu' as <-. now rewrite Hi.
    + split; [split; [discriminate | lia]|]. split; [|reflexivity].
      intros u' _ Hu'. injection Hu' as <-. now rewrite Hi.
  - apply lookup_ge_None in Hu. lia.
Qed.

(** The theorem at the reference image of [a.fits]. *)
Lemma load_fits_outcome_witness :
  let hdu_list := [PrimaryHDU BenchmarkSamples.img;
                   ImageHDU BenchmarkSamples.pe_img] in
  fits_at DriverSamples.two_files "a.fits" hdu_list
  /\ let out := load_fits "a.fits" 1 DriverSamples.two_files in
     (out.1 = Raise (WrongHDUError "a.fits" 1)
      <-> ~ (0 <= 1 < Z.of_nat (length hdu_list)))
     /\ (forall u : hdu,
           0 <= 1 -> hdu_list !! Z.to_nat 1 = Some u ->
           out.1 = if is_image u then Ok (hdu_data u)
                   else Raise (NotAnImageError "a.fits" 1))
     /\ out.2 = DriverSamples.two_files.
Proof.
  intros hdu_list.
  assert (Hf : fits_at DriverSamples.two_files "a.fits" hdu_list)
    by (vm_compute; reflexivity).
  exact (conj Hf (load_fits_outcome "a.fits" 1 hdu_list
                    DriverSamples.two_files Hf)).
Defined.

(** The three outcomes on concrete files. *)
Example load_fits_reference_image :
  (load_fits "a.fits" 1 DriverSamples.two_files).1
  = Ok (Some BenchmarkSamples.pe_img).
Proof. vm_compute. reflexivity. Qed.

Example load_fits_index_too_large :
  (load_fits "a.fits" 2 DriverSamples.two_files).1
  = Raise (WrongHDUError "a.fits" 2).
Proof. vm_compute. reflexivity. Qed.

Example load_fits_negative_index :
  (load_fits "a.fits" (-1) DriverSamples.two_files).1
  = Raise (WrongHDUError "a.fits" (-1)).
Proof. vm_compute. reflexivity. Qed.

Example load_fits_table_unit :
  (load_fits "t.fits" 1 DriverSamples.with_table).1
  = Raise (NotAnImageError "t.fits" 1).
Proof. vm_compute. reflexivity. Qed.

(** C4.  A file of tables as astropy writes it: an image-typed primary unit
    that holds no data, then a table.  The index 0 is in range and the unit
    contains no image data, yet [load_fits] raises nothing and returns
    [None] where the claim, and the docstring of the function, have
    [NotAnImageError] or an array; the test of the code is
    [not hdu.is_image], which only the table at index 1 fails. *)
Theorem load_fits_returns_none_for_empty_image_unit :
  let hdu_list := [Hdu true ∅ None; Hdu false ∅ None] in
  fits_at DriverSamples.table_only "table.fits" hdu_list
  /\ (exists u : hdu,
        hdu_list !! 0%nat = Some u /\ is_image u = true /\ hdu_data u = None)
  /\ load_fits "table.fits" 0 DriverSamples.table_only
     = (Ok None, DriverSamples.table_only)
  /\ (load_fits "table.fits" 0 DriverSamples.table_only).1
     <> Raise (NotAnImageError "table.fits" 0)
  /\ load_fits "table.fits" 1 DriverSamples.table_only
     = (Raise (NotAnImageError "table.fits" 1), DriverSamples.table_only).
Proof.
  intros hdu_list.
  split; [vm_compute; reflexivity|].
  split; [exists (Hdu true ∅ None); now repeat split|].
  split; [vm_compute; reflexivity|].
  split; [vm_compute; discriminate|].
  vm_compute. reflexivity.
Qed.

End LoadFitsProps.

(** ** [load_benchmark_images] and [save_benchmark_images] *)

Module BenchmarkProps.
Import Images FitsSpec MonadFacts.

Lemma bind_read_value {B} (h : header) (md : gmap string scalar)
    (name key : string) (c : card) (k : gmap string scalar -> M B)
    (w : world) :
  h !! upper key = Some c ->
  bind (read_value h md name key) k w = k (<[name := value c]> md) w.
Proof.
  intros Hc. unfold read_value, header_get. now rewrite Hc.
Qed.

Lemma bind_read_comment {B} (h : header) (md : gmap string scalar)
    (name key : string) (c : card) (k : gmap string scalar -> M B)
    (w : world) :
  h !! upper key = Some c ->
  bind (read_comment h md name key) k w = k (<[name := SStr (comment c)]> md) w.
Proof.
  intros Hc. unfold read_comment, comments_get. now rewrite Hc.
Qed.

(** Runs the header-reading part of [load_benchmark_images] on a file whose
    primary header carries the cards [Hc] speaks of. *)
Ltac read_header Hf Hc :=
  unfold load_benchmark_images;
  rewrite (bind_fits_open _ _ _ _ Hf);
  unfold hdu_list_get; cbn [lookup list_lookup]; rewrite bind_lift_ok;
  repeat first
    [ erewrite bind_read_value by (apply Hc; reflexivity)
    | erewrite bind_read_comment by (apply Hc; reflexivity) ];
  rewrite lookup_insert_ne by discriminate;
  repeat (rewrite lookup_insert_ne by discriminate);
  rewrite lookup_insert_eq, bind_lift_ok.

(** *** Writing the metadata *)

Section Writer.

Variable refused : string -> scalar -> option string.
Variable refused_comment : string -> string -> option string.
Variable stored : string -> card -> card.

Local Abbreviation write_metadata := (write_metadata refused refused_comment).
Local Abbreviation accepted_entry := (accepted_entry refused refused_comment).

Lemma write_metadata_cons (h : header) (key : string) (val : meta_value)
    (metadata : list (string * meta_value)) :
  accepted_entry (key, val) = true ->
  write_metadata h ((key, val) :: metadata) =
  write_metadata (entry_written h key val) metadata.
Proof.
  unfold FitsSpec.accepted_entry, entry_written. cbn [fst snd].
  destruct val as [v|v unit_str]; cbn [Images.write_metadata].
  - intros Hv. apply bool_decide_eq_true in Hv.
    unfold setitem. rewrite Hv. cbn [rbind].
    unfold header_set. now destruct (h !! upper key).
  - intros Hv. apply andb_true_iff in Hv as [Hv Hu].
    apply bool_decide_eq_true in Hv. apply bool_decide_eq_true in Hu.
    unfold setitem. rewrite Hv. cbn [rbind]. unfold comments_set, header_set.
    destruct (h !! upper key) as [c|]; rewrite lookup_insert_eq, Hu;
      cbn [rbind value]; now rewrite insert_insert_eq.
Qed.

(** An entry astropy refuses ends the loop with [ValueError]. *)
Lemma write_metadata_refused (h : header) (key : string) (val : meta_value)
    (metadata : list (string * meta_value)) :
  accepted_entry (key, val) = false ->
  exists msg : string,
    write_metadata h ((key, val) :: metadata) = Raise (ValueError msg).
Proof.
  unfold FitsSpec.accepted_entry. cbn [fst snd].
  destruct val as [v|v unit_str]; cbn [Images.write_metadata]; unfold setitem.
  - intros Hv. apply bool_decide_eq_false in Hv.
    destruct (refused key v) as [msg|]; [|congruence]. now exists msg.
  - intros Hv. destruct (refused key v) as [msg|] eqn:Ev; [now exists msg|].
    rewrite bool_decide_eq_true_2 in Hv by reflexivity. cbn [andb] in Hv.
    apply bool_decide_eq_false in Hv. cbn [rbind].
    unfold comments_set, header_set.
    destruct (h !! upper key) as [c|]; rewrite lookup_insert_eq;
      (destruct (refused_comment key unit_str) as [msg|]; [|congruence]);
      now exists msg.
Qed.

(** Writing a metadata mapping astropy accepts, whose keywords are distinct,
    over a header whose cards under these keywords have no comment: every
    entry ends as its card, and the other cards are untouched. *)
Lemma write_metadata_cards (metadata : list (string * meta_value)) :
  forall h : header,
  forallb accepted_entry metadata = true ->
  NoDup (stored_keys metadata) ->
  (forall k c, In k (stored_keys metadata) -> h !! k = Some c ->
     comment c = "") ->
  exists h' : header,
    write_metadata h metadata = Ok h'
    /\ (forall key mv, In (key, mv) metadata ->
          h' !! upper key = Some (card_of mv))
    /\ (forall k, ~ In k (stored_keys metadata) -> h' !! k = h !! k).
Proof.
  induction metadata as [|[key val] metadata IH]; intros h Hacc Hnd Hcom.
  - exists h. split; [reflexivity|]. split; [intros ? ? []|reflexivity].
  - cbn [forallb] in Hacc. apply andb_true_iff in Hacc as [Hentry0 Hacc].
    rewrite (write_metadata_cons _ _ _ _ Hentry0).
    unfold stored_keys in Hnd. simpl in Hnd.
    apply NoDup_cons in Hnd as [Hnotin Hnd].
    assert (Hnotin' : ~ In (upper key) (stored_keys metadata)).
    { intros Hin. apply Hnotin. now apply list_elem_of_In. }
    assert (Hentry : entry_written h key val !! upper key = Some (card_of val)).
    { unfold entry_written. rewrite lookup_insert_eq. unfold card_of.
      destruct val as [v|v unit_str]; [|reflexivity]. simpl.
      destruct (h !! upper key) as [c|] eqn:E; [|reflexivity].
      now rewrite (Hcom (upper key) c (or_introl eq_refl) E). }
    destruct (IH (entry_written h key val) Hacc Hnd)
      as (h' & Hw & Hcards & Hframe).
    { intros k c Hk Hl. apply (Hcom k c); [now right|].
      unfold entry_written in Hl. rewrite lookup_insert_ne in Hl; [exact Hl|].
      intros <-. now apply Hnotin'. }
    exists h'. split; [exact Hw|]. split.
    + intros key' mv [Heq|Hin].
      * injection Heq as <- <-. now rewrite (Hframe _ Hnotin').
      * now apply Hcards.
    + intros k Hk. rewrite Hframe.
      * unfold entry_written. apply lookup_insert_ne.
        intros <-. apply Hk. now left.
      * intros Hin. apply Hk. now right.
Qed.

(** The loop goes through the entries astropy accepts. *)
Lemma write_metadata_prefix (pre rest : list (string * meta_value)) :
  forall h : header,
  forallb accepted_entry pre = true ->
  exists h' : header,
    write_metadata h (pre ++ rest) = write_metadata h' rest.
Proof.
  induction pre as [|[key val] pre IH]; intros h Hacc; [now exists h|].
  cbn [forallb] in Hacc. apply andb_true_iff in Hacc as [Hentry Hacc].
  cbn [app]. rewrite (write_metadata_cons _ _ _ _ Hentry).
  exact (IH _ Hacc).
Qed.

(** *** Creating a file *)

Lemma creatable_after_remove (t : gmap string node) (path : string) :
  isfile t path = true -> creatable t path = true ->
  creatable (delete path (leave t path)) path = true.
Proof.
  unfold creatable, parent_exists, isfile. intros Hf Hc.
  apply andb_true_iff in Hc as [Hb Hp]. rewrite Hb. cbn [andb].
  destruct (OS.rstrip_slashes (OS.dirname path)); [reflexivity|].
  unfold isdir in *.
  destruct (t !! OS.dirname path) as [[?|entries]|] eqn:Hd;
    try discriminate Hp.
  assert (Hne : OS.dirname path <> path).
  { intros Heq. rewrite Heq in Hd. now rewrite Hd in Hf. }
  rewrite lookup_delete_ne by congruence.
  unfold leave. rewrite Hd. now rewrite lookup_insert_eq.
Qed.

(** Writing to a path that is not a directory and where a file can be
    created: the path holds the content afterwards; the paths other than it
    and its directory are untouched. *)
Lemma write_file_creates (path : string) (content : file_content) (w : world) :
  isdir (fs w) path = false -> creatable (fs w) path = true ->
  exists t' : gmap string node,
    write_file path content w = (Ok tt, MkWorld t' (open_fits w) (stdout w))
    /\ t' !! path = Some (RegularFile content)
    /\ (forall p : string, p <> path -> p <> OS.dirname path ->
          t' !! p = fs w !! p).
Proof.
  intros Hdir Hc. unfold write_file, isdir in *.
  destruct (fs w !! path) as [[old|entries]|] eqn:Hp; [|discriminate Hdir|].
  - eexists. split; [reflexivity|]. split; [apply lookup_insert_eq|].
    intros p Hne _. now apply lookup_insert_ne.
  - rewrite Hc. eexists. split; [reflexivity|].
    split; [apply lookup_insert_eq|].
    intros p Hne Hnd. rewrite lookup_insert_ne by congruence.
    unfold enter. destruct (fs w !! OS.dirname path) as [[?|entries]|];
      try reflexivity.
    destruct (str_in _ entries); [reflexivity|].
    now rewrite lookup_insert_ne by congruence.
Qed.

(** *** Saving *)

Lemma with_desc_accepted (u : hdu) (text : string) :
  refused "desc" (SStr text) = None ->
  with_desc refused u text = Ok (described u text).
Proof. intros Ha. unfold with_desc, setitem. now rewrite Ha. Qed.

Lemma save_benchmark_images_writes
    (img pe_img adc_sums_img pedestal_img gains_img pixel_pos pixel_mask
       : ndarray float)
    (metadata : list (string * meta_value)) (path : string) (h0 : header)
    (w : world) :
  ndim img = 2 -> ndim pe_img = 2 -> ndim adc_sums_img = 3 ->
  ndim pedestal_img = 3 -> ndim gains_img = 3 -> ndim pixel_pos = 3 ->
  ndim pixel_mask = 2 ->
  isdir (fs w) path = false ->
  creatable (fs w) path = true ->
  forallb (fun text => bool_decide (refused "desc" (SStr text) = None))
    descriptions = true ->
  write_metadata initial_header metadata = Ok h0 ->
  exists t' : gmap string node,
    save_benchmark_images refused refused_comment stored img pe_img
      adc_sums_img pedestal_img gains_img pixel_pos pixel_mask metadata path w
    = (Ok tt, MkWorld t' (open_fits w) (stdout w))
    /\ t' !! path
       = Some (RegularFile (FitsFile
                 (on_disk stored
                    <$> saved_units h0 img pe_img adc_sums_img pedestal_img
                          gains_img pixel_pos pixel_mask))).
Proof.
  intros H1 H2 H3 H4 H5 H6 H7 Hdir Hc Hdesc Hw. unfold save_benchmark_images.
  rewrite H1, H2, H3, H4, H5, H6, H7. cbn [Z.eqb Pos.eqb negb].
  cbn [forallb descriptions] in Hdesc.
  repeat (apply andb_true_iff in Hdesc as [?Hd Hdesc]).
  repeat match goal with
         | H : bool_decide _ = true |- _ => apply bool_decide_eq_true in H
         end.
  rewrite !with_desc_accepted by assumption. rewrite !bind_lift_ok.
  change (hdr (described (PrimaryHDU img) "calibrated image"))
    with initial_header.
  rewrite Hw, bind_lift_ok.
  unfold bind at 1.
  destruct (isfile (fs w) path) eqn:Hf.
  - unfold bind at 1. unfold os_remove. rewrite Hf.
    unfold fits_writeto. cbn [fs open_fits stdout].
    rewrite lookup_delete_eq.
    destruct (write_file_creates path
                (FitsFile (on_disk stored
                   <$> [with_header (described (PrimaryHDU img)
                                       "calibrated image") h0;
                        described (ImageHDU pe_img) "pe image";
                        described (ImageHDU adc_sums_img) "adc sum images";
                        described (ImageHDU pedestal_img) "pedestal images";
                        described (ImageHDU gains_img) "gains images";
                        described (ImageHDU pixel_pos) "pixels position";
                        described (ImageHDU pixel_mask) "pixels mask"]))
                (MkWorld (delete path (leave (fs w) path)) (open_fits w)
                   (stdout w)))
      as (t' & Hwrite & Hat & _).
    { unfold isdir. cbn [fs]. now rewrite lookup_delete_eq. }
    { cbn [fs]. now apply creatable_after_remove. }
    exists t'. split; [exact Hwrite | exact Hat].
  - unfold bind at 1, ret at 1. unfold fits_writeto.
    unfold isfile, isdir in Hf, Hdir.
    destruct (fs w !! path) as [[?|?]|] eqn:Hp;
      [discriminate Hf | discriminate Hdir |].
    destruct (write_file_creates path
                (FitsFile (on_disk stored
                   <$> [with_header (described (PrimaryHDU img)
                                       "calibrated image") h0;
                        described (ImageHDU pe_img) "pe image";
                        described (ImageHDU adc_sums_img) "adc sum images";
                        described (ImageHDU pedestal_img) "pedestal images";
                        described (ImageHDU gains_img) "gains images";
                        described (ImageHDU pixel_pos) "pixels position";
                        described (ImageHDU pixel_mask) "pixels mask"]))
                w) as (t' & Hwrite & Hat & _).
    { unfold isdir. now rewrite Hp. }
    { exact Hc. }
    exists t'. split; [exact Hwrite | exact Hat].
Qed.

End Writer.

Section Loader.
Variables np_nansum np_nanmin np_nanmax : list float -> float.

(** A version other than 1 ends in a plain [Exception], with the handle
    still open. *)
Lemma load_unknown_version (path : string) (hdu0 : hdu) (rest : list hdu)
    (cards : string -> card) (w : world) :
  fits_at w path (hdu0 :: rest) ->
  carries (hdr hdu0) cards ->
  equals_one (value (cards "version")) = false ->
  load_benchmark_images np_nansum np_nanmin np_nanmax path w =
  (Raise (PyException ["Unknown version number"]), opened w path).
Proof.
  intros Hf Hc Hv. read_header Hf Hc.
  rewrite Hv. reflexivity.
Qed.

(** The structure test of [load_benchmark_images] is [departs]. *)
Lemma departs_test (hdu_list : list hdu) :
  (negb (length hdu_list =? 7)%nat
   || not_image_at hdu_list 0 || not_image_at hdu_list 1
   || not_image_at hdu_list 2 || not_image_at hdu_list 3
   || not_image_at hdu_list 4 || not_image_at hdu_list 5
   || not_image_at hdu_list 6)%bool = true
  <-> departs hdu_list.
Proof.
  assert (Hat : forall i, not_image_at hdu_list i = true ->
                  exists u, hdu_list !! i = Some u /\ is_image u = false).
  { intros i. unfold not_image_at.
    destruct (hdu_list !! i) as [u|]; [|discriminate].
    intros Hn. exists u. split; [reflexivity|].
    now destruct (is_image u). }
  split.
  - rewrite !orb_true_iff, negb_true_iff, Nat.eqb_neq.
    intros [[[[[[[Hlen|H]|H]|H]|H]|H]|H]|H]; [now left|..];
      right; destruct (Hat _ H) as (u & Hu & Hi); eexists _, u;
      (split; [|split; [exact Hu | exact Hi]]); lia.
  - intros [Hlen|(i & u & Hlt & Hu & Hi)].
    + apply Nat.eqb_neq in Hlen. now rewrite Hlen.
    + assert (Hn : not_image_at hdu_list i = true)
        by (unfold not_image_at; now rewrite Hu, Hi).
      destruct (negb (length hdu_list =? 7)%nat); [reflexivity|].
      do 7 (destruct i as [|i]; [rewrite Hn; cbn [orb];
                                   rewrite ?orb_true_r; reflexivity|]).
      lia.
Qed.

Lemma classic_departs (hdu_list : list hdu) :
  departs hdu_list \/ ~ departs hdu_list.
Proof.
  destruct ((negb (length hdu_list =? 7)%nat
   || not_image_at hdu_list 0 || not_image_at hdu_list 1
   || not_image_at hdu_list 2 || not_image_at hdu_list 3
   || not_image_at hdu_list 4 || not_image_at hdu_list 5
   || not_image_at hdu_list 6)%bool) eqn:Ht.
  - left. now apply departs_test.
  - right. intros Hd. apply departs_test in Hd. congruence.
Qed.

(** A list that does not depart is seven image-typed units. *)
Lemma not_departs_seven (hdu_list : list hdu) :
  ~ departs hdu_list ->
  exists u0 u1 u2 u3 u4 u5 u6 : hdu,
    hdu_list = [u0; u1; u2; u3; u4; u5; u6].
Proof.
  intros Hn.
  destruct (decide (length hdu_list = 7%nat)) as [Hlen|Hlen];
    [|exfalso; apply Hn; now left].
  do 7 (destruct hdu_list as [|? hdu_list]; [discriminate Hlen|]).
  destruct hdu_list; [|discriminate Hlen].
  now eexists _, _, _, _, _, _, _.
Qed.

(** Version 1 and a departing layout: [WrongFitsFileStructure], the handle
    closed. *)
Lemma load_wrong_structure (path : string) (hdu0 : hdu) (rest : list hdu)
    (cards : string -> card) (w : world) :
  fits_at w path (hdu0 :: rest) ->
  carries (hdr hdu0) cards ->
  equals_one (value (cards "version")) = true ->
  departs (hdu0 :: rest) ->
  load_benchmark_images np_nansum np_nanmin np_nanmax path w =
  (Raise (WrongFitsFileStructure path), w).
Proof.
  intros Hf Hc Hv Hd. read_header Hf Hc.
  rewrite Hv. apply departs_test in Hd. rewrite Hd.
  unfold bind at 1. unfold bind at 1. rewrite close_opened. reflexivity.
Qed.

(** Version 1 and the benchmark layout: the data of the seven units and the
    metadata, the handle closed; unless the reference unit has no data,
    which [float] refuses, or its array has no element, which [np.nanmin]
    refuses. *)
Lemma load_benchmark_layout (path : string) (u0 u1 u2 u3 u4 u5 u6 : hdu)
    (cards : string -> card) (w : world) :
  fits_at w path [u0; u1; u2; u3; u4; u5; u6] ->
  carries (hdr u0) cards ->
  equals_one (value (cards "version")) = true ->
  ~ departs [u0; u1; u2; u3; u4; u5; u6] ->
  load_benchmark_images np_nansum np_nanmin np_nanmax path w =
  match hdu_data u1 with
  | None => (Raise TypeError, opened w path)
  | Some reference =>
      match data reference with
      | [] => (Raise (ValueError "zero-size array to reduction operation"),
               opened w path)
      | _ =>
          (Ok (ImagesDict (hdu_data u0) (hdu_data u1) (hdu_data u2)
                 (hdu_data u3) (hdu_data u4) (hdu_data u5) (hdu_data u6)
                 None None None None,
               loaded_metadata np_nansum np_nanmin np_nanmax path cards
                 reference),
           w)
      end
  end.
Proof.
  intros Hf Hc Hv Hd. read_header Hf Hc.
  rewrite Hv.
  destruct ((negb (length [u0; u1; u2; u3; u4; u5; u6] =? 7)%nat
   || not_image_at [u0; u1; u2; u3; u4; u5; u6] 0
   || not_image_at [u0; u1; u2; u3; u4; u5; u6] 1
   || not_image_at [u0; u1; u2; u3; u4; u5; u6] 2
   || not_image_at [u0; u1; u2; u3; u4; u5; u6] 3
   || not_image_at [u0; u1; u2; u3; u4; u5; u6] 4
   || not_image_at [u0; u1; u2; u3; u4; u5; u6] 5
   || not_image_at [u0; u1; u2; u3; u4; u5; u6] 6)%bool) eqn:Ht.
  { exfalso. apply Hd. now apply departs_test. }
  rewrite bind_ret. cbn [reference_image].
  unfold nan_sum, nan_reduce.
  destruct (hdu_data u1) as [reference|]; [|reflexivity].
  rewrite bind_lift_ok.
  destruct (data reference) as [|x l] eqn:Hdata.
  - reflexivity.
  - rewrite !bind_lift_ok, bind_close_opened.
    unfold loaded_metadata. rewrite Hdata. reflexivity.
Qed.

End Loader.

(** C2 (as amended).  On a FITS file whose primary header carries the
    keywords [load_benchmark_images] reads: with version 1, the loader
    raises [WrongFitsFileStructure] exactly when the file has not seven
    units or one of them is not image-typed, and then closes the file; with
    any other version it raises the plain exception "Unknown version
    number". *)
Theorem load_benchmark_structure_errors
    (np_nansum np_nanmin np_nanmax : list float -> float)
    (path : string) (hdu0 : hdu) (rest : list hdu) (cards : string -> card)
    (w : world) :
  fits_at w path (hdu0 :: rest) ->
  carries (hdr hdu0) cards ->
  let out := load_benchmark_images np_nansum np_nanmin np_nanmax path w in
  (equals_one (value (cards "version")) = true ->
     (out.1 = Raise (WrongFitsFileStructure path) <-> departs (hdu0 :: rest))
     /\ (departs (hdu0 :: rest) -> out.2 = w))
  /\ (equals_one (value (cards "version")) = false ->
        out.1 = Raise (PyException ["Unknown version number"])).
Proof.
  intros Hf Hc out. subst out. split.
  - intros Hv. split; [split|].
    + intros Hout.
      destruct (decide (length (hdu0 :: rest) = 7%nat)) as [Hlen|Hlen];
        [|now left].
      destruct (classic_departs (hdu0 :: rest)) as [Hd|Hd]; [exact Hd|].
      exfalso. destruct (not_departs_seven _ Hd)
        as (u0 & u1 & u2 & u3 & u4 & u5 & u6 & Heq).
      injection Heq as -> ->.
      rewrite (load_benchmark_layout _ _ _ _ _ _ _ _ _ _ _ _ _ Hf Hc Hv Hd)
        in Hout.
      destruct (hdu_data u1) as [reference|]; [|discriminate Hout].
      destruct (data reference); discriminate Hout.
    + intros Hd. now rewrite (load_wrong_structure _ _ _ _ _ _ _ _ Hf Hc Hv Hd).
    + intros Hd. now rewrite (load_wrong_structure _ _ _ _ _ _ _ _ Hf Hc Hv Hd).
  - intros Hv.
    now rewrite (load_unknown_version np_nansum np_nanmin np_nanmax path hdu0
                   rest cards w Hf Hc Hv).
Qed.

(** The metadata the loader builds has its fixed names only. *)
Lemma loaded_metadata_names
    (np_nansum np_nanmin np_nanmax : list float -> float) (path : string)
    (cards : string -> card) (reference : ndarray float) (name : string) :
  loaded_metadata np_nansum np_nanmin np_nanmax path cards reference !! name
  <> None ->
  In name loaded_names.
Proof.
  intros Hn. destruct (decide (name ∈ loaded_names)) as [Hin|Hout];
    [now apply list_elem_of_In|].
  exfalso. apply Hn. unfold loaded_metadata, header_metadata.
  cbn [fold_left fst snd].
  repeat (rewrite lookup_insert_ne;
          [|intros <-; apply Hout; unfold loaded_names; repeat constructor]).
  apply lookup_empty.
Qed.

(** What a file holds of a header that carries cards. *)
Lemma carries_on_disk (stored : string -> card -> card) (u : hdu)
    (fields : string -> meta_value) :
  (forall k, str_in k header_keywords = true ->
     hdr u !! upper k = Some (card_of (fields k))) ->
  carries (hdr (on_disk stored u)) (fun k => read_back stored k (fields k)).
Proof.
  intros Hc k Hk. unfold on_disk, read_back. cbn [hdr].
  rewrite map_lookup_imap, (Hc k Hk). reflexivity.
Qed.

(** C1 (as amended).  For a record with 2-D input, reference and mask
    arrays, 3-D adc-sum, pedestal, gain and position arrays and a non-empty
    reference image, saved to a path that is not a directory and where a
    file can be created, with a metadata mapping of distinct keywords, none
    of them a structural keyword of FITS, whose values and unit strings
    astropy accepts and that has an entry for every header keyword the
    loader reads, the version read back being 1: saving
    succeeds, and loading the written file returns the seven arrays as they
    were given and closes the file; the loaded metadata holds, under the
    loader's name of each keyword, the value that is read back from the card
    astropy wrote for the entry saved under that keyword, and under the
    loader's unit name the unit string read back from it (the one of an
    entry without unit being empty), and the path under [file_path]; it has
    no entry under any other name than the loader's own, so that an entry
    saved under another keyword is not returned. *)
Theorem save_load_round_trip
    (refused : string -> scalar -> option string)
    (refused_comment : string -> string -> option string)
    (stored : string -> card -> card)
    (np_nansum np_nanmin np_nanmax : list float -> float)
    (img pe_img adc_sums_img pedestal_img gains_img pixel_pos pixel_mask
       : ndarray float)
    (metadata : list (string * meta_value)) (fields : string -> meta_value)
    (path : string) (w : world) :
  ndim img = 2 -> ndim pe_img = 2 -> ndim adc_sums_img = 3 ->
  ndim pedestal_img = 3 -> ndim gains_img = 3 -> ndim pixel_pos = 3 ->
  ndim pixel_mask = 2 ->
  data pe_img <> [] ->
  isdir (fs w) path = false ->
  creatable (fs w) path = true ->
  accepted refused refused_comment metadata = true ->
  ordinary metadata = true ->
  NoDup (stored_keys metadata) ->
  (forall k, str_in k header_keywords = true -> In (k, fields k) metadata) ->
  equals_one (value (read_back stored "version" (fields "version"))) = true ->
  exists (w' : world) (md : gmap string scalar),
    save_benchmark_images refused refused_comment stored img pe_img
      adc_sums_img pedestal_img gains_img pixel_pos pixel_mask metadata path w
    = (Ok tt, w')
    /\ load_benchmark_images np_nansum np_nanmin np_nanmax path w'
       = (Ok (ImagesDict (Some img) (Some pe_img) (Some adc_sums_img)
                (Some pedestal_img) (Some gains_img) (Some pixel_pos)
                (Some pixel_mask) None None None None, md), w')
    /\ (forall name key, In (name, key) value_fields ->
          md !! name = Some (value (read_back stored key (fields key))))
    /\ (forall name key, In (name, key) unit_fields ->
          md !! name = Some (SStr (comment (read_back stored key (fields key)))))
    /\ md !! "file_path" = Some (SStr path)
    /\ (forall name, md !! name <> None -> In name loaded_names).
Proof.
  intros H1 H2 H3 H4 H5 H6 H7 Hpe Hdir Hcreate Hacc _ Hnd Hfields Hv.
  unfold accepted in Hacc. apply andb_true_iff in Hacc as [Hdesc Hacc].
  destruct (write_metadata_cards refused refused_comment metadata
              initial_header Hacc Hnd) as (h0 & Hw & Hcards & _).
  { intros k c _. unfold initial_header, header_set.
    rewrite lookup_empty.
    destruct (decide (k = upper "desc")) as [->|Hne].
    - rewrite lookup_insert_eq. now intros [= <-].
    - rewrite lookup_insert_ne by congruence. now rewrite lookup_empty. }
  destruct (save_benchmark_images_writes refused refused_comment stored
              img pe_img adc_sums_img pedestal_img gains_img pixel_pos
              pixel_mask metadata path h0 w H1 H2 H3 H4 H5 H6 H7 Hdir Hcreate
              Hdesc Hw) as (t' & Hsave & Hat).
  pose (cards := fun k : string => read_back stored k (fields k)).
  pose (w' := MkWorld t' (open_fits w) (stdout w)).
  exists w', (loaded_metadata np_nansum np_nanmin np_nanmax path cards pe_img).
  split; [exact Hsave|].
  assert (Hf : fits_at w' path
                 (on_disk stored
                    <$> saved_units h0 img pe_img adc_sums_img pedestal_img
                          gains_img pixel_pos pixel_mask))
    by exact Hat.
  assert (Hc : carries (hdr (on_disk stored (with_header (PrimaryHDU img) h0)))
                 cards).
  { apply carries_on_disk. intros k Hk. apply Hcards. now apply Hfields. }
  unfold saved_units in Hf. cbn [fmap list_fmap] in Hf.
  assert (Hd : ~ departs
                 [on_disk stored (with_header (PrimaryHDU img) h0);
                  on_disk stored (described (ImageHDU pe_img) "pe image");
                  on_disk stored
                    (described (ImageHDU adc_sums_img) "adc sum images");
                  on_disk stored
                    (described (ImageHDU pedestal_img) "pedestal images");
                  on_disk stored
                    (described (ImageHDU gains_img) "gains images");
                  on_disk stored
                    (described (ImageHDU pixel_pos) "pixels position");
                  on_disk stored
                    (described (ImageHDU pixel_mask) "pixels mask")]).
  { intros Hd. apply departs_test in Hd. discriminate Hd. }
  split.
  - rewrite (load_benchmark_layout np_nansum np_nanmin np_nanmax path
               _ _ _ _ _ _ _ cards w' Hf Hc Hv Hd).
    cbn [hdu_data on_disk described with_header ImageHDU PrimaryHDU].
    destruct (data pe_img); [congruence | reflexivity].
  - split; [|split; [|split]].
    + intros name key Hin. unfold value_fields in Hin. simpl in Hin.
      repeat (destruct Hin as [[= <- <-]|Hin];
              [vm_compute; reflexivity|]).
      destruct Hin.
    + intros name key Hin. unfold unit_fields in Hin. simpl in Hin.
      repeat (destruct Hin as [[= <- <-]|Hin];
              [vm_compute; reflexivity|]).
      destruct Hin.
    + vm_compute. reflexivity.
    + apply loaded_metadata_names.
Qed.

(** *** The theorems on the sample record *)

Import BenchmarkSamples.

Lemma keyword_cases (k : string) :
  str_in k header_keywords = true -> In k header_keywords.
Proof.
  unfold str_in. rewrite existsb_exists. intros (x & Hin & Heq).
  apply String.eqb_eq in Heq. now subst.
Qed.

Lemma sample_fields_listed (version : Z) (k : string) :
  str_in k header_keywords = true ->
  In (k, BenchmarkSamples.fields version k) (BenchmarkSamples.metadata version).
Proof.
  intros Hk. apply in_or_app. left.
  apply (in_map (fun k => (k, BenchmarkSamples.fields version k))).
  now apply keyword_cases.
Qed.

Lemma sample_carries (version : Z) :
  carries (hdr (primary_of (saved version))) (sample_cards version).
Proof.
  intros k Hk. apply keyword_cases in Hk. unfold header_keywords in Hk.
  simpl in Hk.
  repeat (destruct Hk as [<-|Hk]; [vm_compute; reflexivity|]).
  destruct Hk.
Qed.

(** The round trip of the sample record, version 1. *)
Lemma save_load_round_trip_witness :
  exists (w' : world) (md : gmap string scalar),
    save BenchmarkSamples.img BenchmarkSamples.pe_img
      BenchmarkSamples.adc_sums_img BenchmarkSamples.pedestal_img
      BenchmarkSamples.gains_img BenchmarkSamples.pixel_pos
      BenchmarkSamples.pixel_mask (BenchmarkSamples.metadata 1) "out.fits"
      empty_world = (Ok tt, w')
    /\ load "out.fits" w'
       = (Ok (ImagesDict (Some BenchmarkSamples.img)
                (Some BenchmarkSamples.pe_img)
                (Some BenchmarkSamples.adc_sums_img)
                (Some BenchmarkSamples.pedestal_img)
                (Some BenchmarkSamples.gains_img)
                (Some BenchmarkSamples.pixel_pos)
                (Some BenchmarkSamples.pixel_mask) None None None None, md),
          w')
    /\ (forall name key, In (name, key) value_fields ->
          md !! name
          = Some (value (read_back as_given key
                           (BenchmarkSamples.fields 1 key))))
    /\ (forall name key, In (name, key) unit_fields ->
          md !! name
          = Some (SStr (comment (read_back as_given key
                                   (BenchmarkSamples.fields 1 key)))))
    /\ md !! "file_path" = Some (SStr "out.fits")
    /\ (forall name, md !! name <> None -> In name loaded_names).
Proof.
  apply (save_load_round_trip refuses_nan_inf no_unit_refused as_given
           nansum_seq nanmin_seq nanmax_seq
           BenchmarkSamples.img BenchmarkSamples.pe_img
           BenchmarkSamples.adc_sums_img BenchmarkSamples.pedestal_img
           BenchmarkSamples.gains_img BenchmarkSamples.pixel_pos
           BenchmarkSamples.pixel_mask (BenchmarkSamples.metadata 1)
           (BenchmarkSamples.fields 1) "out.fits" empty_world).
  - reflexivity.
  - reflexivity.
  - reflexivity.
  - reflexivity.
  - reflexivity.
  - reflexivity.
  - reflexivity.
  - discriminate.
  - reflexivity.
  - reflexivity.
  - vm_compute. reflexivity.
  - reflexivity.
  - apply NoDup_ListNoDup. vm_compute.
    repeat (constructor; [simpl; intuition discriminate|]). constructor.
  - apply sample_fields_listed.
  - reflexivity.
Defined.

(** C1 as stated fails.  The sample record is saved and loaded back, yet the
    loaded metadata has no entry under the saved keys [uid] and [energy], and
    holds the value saved under [uid] nowhere; and a record whose metadata is
    under the names [simtel_images_generator] uses is saved but cannot be
    loaded. *)
Lemma saved_metadata_not_reproduced :
  let images := ImagesDict (Some BenchmarkSamples.img)
                  (Some BenchmarkSamples.pe_img)
                  (Some BenchmarkSamples.adc_sums_img)
                  (Some BenchmarkSamples.pedestal_img)
                  (Some BenchmarkSamples.gains_img)
                  (Some BenchmarkSamples.pixel_pos)
                  (Some BenchmarkSamples.pixel_mask) None None None None in
  let md := loaded_metadata nansum_seq nanmin_seq nanmax_seq "out.fits"
              (sample_cards 1) BenchmarkSamples.pe_img in
  In ("uid", Plain (SStr "abc")) (BenchmarkSamples.metadata 1)
  /\ In ("energy", WithUnit (SFloat 0.5%float) "TeV")
        (BenchmarkSamples.metadata 1)
  /\ load "out.fits" (saved 1) = (Ok (images, md), saved 1)
  /\ md !! "uid" = None
  /\ md !! "energy" = None
  /\ md !! "energy_unit" = None
  /\ map_Forall (fun _ v => v <> SStr "abc") md
  /\ (load "out.fits" (saved_with generator_metadata)).1
     = Raise (KeyError "simtel").
Proof.
  intros images md. subst images md.
  split; [apply in_or_app; right; now left|].
  split; [exact (sample_fields_listed 1 "energy" eq_refl)|].
  split.
  { assert (Hf : fits_at (saved 1) "out.fits" (seven_units (saved 1)))
      by (vm_compute; reflexivity).
    assert (Hd : ~ departs (seven_units (saved 1))).
    { intros Hd. apply departs_test in Hd. vm_compute in Hd. discriminate Hd. }
    unfold load.
    rewrite (load_benchmark_layout nansum_seq nanmin_seq nanmax_seq "out.fits"
               _ _ _ _ _ _ _ (sample_cards 1) (saved 1) Hf (sample_carries 1)
               eq_refl Hd).
    reflexivity. }
  split; [vm_compute; reflexivity|].
  split; [vm_compute; reflexivity|].
  split; [vm_compute; reflexivity|].
  split; [|vm_compute; reflexivity].
  apply map_Forall_to_list. vm_compute.
  repeat (constructor; [discriminate|]). constructor.
Qed.

(** The structure errors on the files saved from the sample record. *)
Lemma load_benchmark_structure_errors_witness :
  fits_at (saved 1) "out.fits"
    (primary_of (saved 1) :: tl (units_of (saved 1)))
  /\ carries (hdr (primary_of (saved 1))) (sample_cards 1)
  /\ let out := load "out.fits" (saved 1) in
     (equals_one (value (sample_cards 1 "version")) = true ->
        (out.1 = Raise (WrongFitsFileStructure "out.fits")
         <-> departs (primary_of (saved 1) :: tl (units_of (saved 1))))
        /\ (departs (primary_of (saved 1) :: tl (units_of (saved 1))) ->
            out.2 = saved 1))
     /\ (equals_one (value (sample_cards 1 "version")) = false ->
           out.1 = Raise (PyException ["Unknown version number"])).
Proof.
  assert (Hf : fits_at (saved 1) "out.fits"
                 (primary_of (saved 1) :: tl (units_of (saved 1))))
    by (vm_compute; reflexivity).
  split; [exact Hf|]. split; [apply sample_carries|].
  exact (load_benchmark_structure_errors nansum_seq nanmin_seq nanmax_seq
           "out.fits" (primary_of (saved 1)) (tl (units_of (saved 1)))
           (sample_cards 1) (saved 1) Hf (sample_carries 1)).
Defined.

(** C2 as stated fails.  A file of seven image-typed units whose version
    card is 2 is refused with a plain exception, not with
    [WrongFitsFileStructure]; and a file of one unit whose header lacks the
    version card is refused with a [KeyError]. *)
Lemma unknown_version_is_not_structure_error :
  length (units_of (saved 2)) = 7%nat
  /\ Forall (fun u => is_image u = true) (units_of (saved 2))
  /\ header_get (hdr (primary_of (saved 2))) "version" = Ok (SInt 2)
  /\ (load "out.fits" (saved 2)).1
     = Raise (PyException ["Unknown version number"])
  /\ (load "out.fits" (saved 2)).1 <> Raise (WrongFitsFileStructure "out.fits")
  /\ departs [PrimaryHDU BenchmarkSamples.img]
  /\ (load "bare.fits" bare_world).1 = Raise (KeyError "version").
Proof.
  split; [vm_compute; reflexivity|].
  split; [vm_compute; repeat constructor|].
  split; [vm_compute; reflexivity|].
  split; [vm_compute; reflexivity|].
  split; [vm_compute; discriminate|].
  split; [left; vm_compute; discriminate|].
  vm_compute. reflexivity.
Qed.

(** C5 at a file whose version card is 2: no handle is open before the
    call; the loader raises and the handle it opened is still open.  (On the
    structure error, see [load_wrong_structure], and on both errors of
    [load_fits], the handle is closed before raising.) *)
Theorem unknown_version_leaves_file_open :
  open_fits (saved 2) = []
  /\ load "out.fits" (saved 2)
     = (Raise (PyException ["Unknown version number"]),
        opened (saved 2) "out.fits")
  /\ open_fits (load "out.fits" (saved 2)).2 = ["out.fits"].
Proof.
  split; [vm_compute; reflexivity|].
  split; [vm_compute; reflexivity|].
  vm_compute. reflexivity.
Qed.

End BenchmarkProps.

(** ** The null driver *)

Module DriverProps.
Import Null DriverSamples MonadFacts.

Section Driver.
Variable score : Type.
Variable assess_image_cleaning :
  ndarray float -> ndarray float -> ndarray float -> string -> result score.
Variable images_load : string -> Z -> M (ndarray float).
Variable plot_list_call : list (ndarray float) -> list string -> M unit.
Variable mpl_save_list_call :
  list (ndarray float) -> string -> list string -> M unit.
Variable perf_counter : M float.
Variable basename : string -> string.
Variable splitext_root : string -> string.
Variable str_of_scores : list score -> string.
Variable json_dump : report score -> string.
Variable this_file : string.
Variable now : M string.
Variable uname : string.

Local Abbreviation process_file :=
  (process_file score assess_image_cleaning images_load plot_list_call
     mpl_save_list_call perf_counter basename splitext_root).
Local Abbreviation process_files :=
  (process_files score assess_image_cleaning images_load plot_list_call
     mpl_save_list_call perf_counter basename splitext_root).
Local Abbreviation main_loop :=
  (main_loop score assess_image_cleaning images_load plot_list_call
     mpl_save_list_call perf_counter basename splitext_root).
Local Abbreviation main :=
  (main score assess_image_cleaning images_load plot_list_call
     mpl_save_list_call perf_counter basename splitext_root str_of_scores
     json_dump this_file now uname).
Local Abbreviation assess_or_plot :=
  (assess_or_plot score assess_image_cleaning plot_list_call
     mpl_save_list_call).

Lemma process_file_fails (benchmark_method : option string) (hdu_index : Z)
    (input_file_path : string) (acc : accumulators score) (w : world) :
  process_file benchmark_method hdu_index input_file_path acc w =
  (Raise (AttributeError "datapipe.io.images" "load"), w).
Proof. reflexivity. Qed.

Lemma process_files_fails (benchmark_method : option string) (hdu_index : Z)
    (input_file_path : string) (rest : list string)
    (acc : accumulators score) (w : world) :
  process_files benchmark_method hdu_index (input_file_path :: rest) acc w =
  (Raise (AttributeError "datapipe.io.images" "load"), w).
Proof. reflexivity. Qed.

(** The [try ... except] statement by itself does what C6 describes: when
    the assessment raises one of the two empty-image errors, nothing is
    appended, the warning is printed and the statement ends normally. *)
Lemma assess_or_plot_skips (method input_file_path base_file_path : string)
    (input_img reference_img cleaned_img : ndarray float)
    (execution_time : float) (acc : accumulators score) (w : world) (e : exn) :
  assess_image_cleaning input_img cleaned_img reference_img method = Raise e ->
  (e = EmptyReferenceImageError ->
     assess_or_plot (Some method) input_file_path base_file_path input_img
       reference_img cleaned_img execution_time acc w
     = (Ok acc, MkWorld (fs w) (open_fits w)
                  (stdout w ++ ["Empty reference image error"])))
  /\ (e = EmptyOutputImageError ->
        assess_or_plot (Some method) input_file_path base_file_path input_img
          reference_img cleaned_img execution_time acc w
        = (Ok acc, MkWorld (fs w) (open_fits w)
                     (stdout w ++ ["Empty output image error"]))).
Proof.
  intros He. unfold Null.assess_or_plot, try_except, bind, lift.
  rewrite He. split; intros ->; reflexivity.
Qed.

(** When the assessment returns a score, the entry is appended. *)
Lemma assess_or_plot_appends (method input_file_path base_file_path : string)
    (input_img reference_img cleaned_img : ndarray float)
    (execution_time : float) (acc : accumulators score) (w : world)
    (score_tuple : score) :
  assess_image_cleaning input_img cleaned_img reference_img method
    = Ok score_tuple ->
  assess_or_plot (Some method) input_file_path base_file_path input_img
    reference_img cleaned_img execution_time acc w
  = (Ok (Acc (file_path_list acc ++ [input_file_path])
             (score_list acc ++ [score_tuple])
             (execution_time_list acc ++ [execution_time])), w).
Proof.
  intros He. unfold Null.assess_or_plot, try_except, bind, lift.
  now rewrite He.
Qed.

End Driver.

(** C9.  [images.py] binds no name [load] (its FITS loader is [load_fits]),
    so the body of the driver's loop over input files fails at its first
    statement with an attribute error, whatever the file, the options, the
    lists accumulated so far and the world: nothing has been printed,
    plotted, denoised or scored, and no later file is processed. *)
Theorem driver_fails_on_every_file (score : Type)
    (assess_image_cleaning :
       ndarray float -> ndarray float -> ndarray float -> string -> result score)
    (images_load : string -> Z -> M (ndarray float))
    (plot_list_call : list (ndarray float) -> list string -> M unit)
    (mpl_save_list_call :
       list (ndarray float) -> string -> list string -> M unit)
    (perf_counter : M float) (basename splitext_root : string -> string)
    (benchmark_method : option string) (hdu_index : Z)
    (input_file_path : string) (rest : list string)
    (acc : accumulators score) (w : world) :
  Images.getattr "load" = Raise (AttributeError "datapipe.io.images" "load")
  /\ Images.getattr "load_fits" = Ok tt
  /\ process_file score assess_image_cleaning images_load plot_list_call
       mpl_save_list_call perf_counter basename splitext_root
       benchmark_method hdu_index input_file_path acc w
     = (Raise (AttributeError "datapipe.io.images" "load"), w)
  /\ process_files score assess_image_cleaning images_load plot_list_call
       mpl_save_list_call perf_counter basename splitext_root
       benchmark_method hdu_index (input_file_path :: rest) acc w
     = (Raise (AttributeError "datapipe.io.images" "load"), w).
Proof. repeat split. Qed.

(** C6 at [null.py -b mse a.fits b.fits], [b.fits] holding an all-zero
    reference image: the run ends with the attribute error of the first
    file; no warning is printed, no file is skipped and processing does not
    continue, and no report is written. *)
Theorem benchmark_run_stops_at_first_file (score : Type)
    (assess_image_cleaning :
       ndarray float -> ndarray float -> ndarray float -> string -> result score)
    (images_load : string -> Z -> M (ndarray float))
    (plot_list_call : list (ndarray float) -> list string -> M unit)
    (mpl_save_list_call :
       list (ndarray float) -> string -> list string -> M unit)
    (perf_counter : M float) (basename splitext_root : string -> string)
    (str_of_scores : list score -> string) (json_dump : report score -> string)
    (this_file : string) (now : M string) (uname : string) :
  let out := main score assess_image_cleaning images_load plot_list_call
               mpl_save_list_call perf_counter basename splitext_root
               str_of_scores json_dump this_file now uname benchmark_run
               two_files in
  out = (Raise (AttributeError "datapipe.io.images" "load"), two_files)
  /\ stdout out.2 = []
  /\ fs out.2 !! "score_null_benchmark_mse.json" = None.
Proof.
  assert (Hrun : main score assess_image_cleaning images_load plot_list_call
               mpl_save_list_call perf_counter basename splitext_root
               str_of_scores json_dump this_file now uname benchmark_run
               two_files
             = (Raise (AttributeError "datapipe.io.images" "load"), two_files)).
  { unfold main, benchmark_run. cbn [benchmark hdu fileargs output].
    unfold bind at 1. unfold Null.main_loop. unfold bind at 1.
    unfold input_files.
    replace (isdir (fs two_files) "a.fits") with false
      by (vm_compute; reflexivity).
    reflexivity. }
  intros out. subst out. rewrite Hrun.
  split; [reflexivity|]. split; [reflexivity|]. vm_compute. reflexivity.
Qed.

End DriverProps.

(** ** Further properties of file discovery *)

Module DiscoveryMore.
Import Images DiscoverySpec DiscoveryMoreSpec DiscoveryProps.

Section Proofs.
Variable expanduser : string -> string.
Variable t : gmap string node.

Lemma matching_files_In (directory_path : string) (names : list string)
    (p : string) :
  In p (matching_files t directory_path names) <->
  exists name : string,
    In name names /\ p = OS.path_join directory_path name
    /\ isfile t p = true
    /\ endswith_any (lower name) FILE_EXT = true.
Proof.
  unfold matching_files. rewrite in_map_iff. split.
  - intros (name & <- & Hin). apply list_elem_of_In in Hin.
    apply list_elem_of_filter in Hin as [Hm Hin].
    unfold matches in Hm. apply andb_true_iff in Hm as [Hf He].
    exists name. repeat split; [now apply list_elem_of_In | exact Hf | exact He].
  - intros (name & Hin & -> & Hf & He). exists name. split; [reflexivity|].
    apply list_elem_of_In, list_elem_of_filter. split.
    + unfold matches. now rewrite Hf, He.
    + now apply list_elem_of_In.
Qed.

Lemma listable_dir_run (path : string) :
  isdir t (expanduser path) = true ->
  image_files_in_dir expanduser t path None =
  GenRun (matching_files t (expanduser path) (entries t (expanduser path)))
         None.
Proof.
  intros Hd. unfold image_files_in_dir, entries, listdir. unfold isdir in Hd.
  destruct (t !! expanduser path) as [[?|names]|]; try discriminate Hd.
  simpl. now rewrite dir_loop_nolimit.
Qed.

(** The inner loop of [image_files_in_paths], for any limit: what it
    yields, and what is left of the limit for what follows. *)
Lemma paths_dir_loop_capped (max_num_files : option Z) (items : list string)
    (c : Z) :
  let '(ys, c', broke) := paths_dir_loop max_num_files items c in
  ys = capped max_num_files c items
  /\ (forall rest : list string,
        capped max_num_files c (items ++ rest)%list =
        (ys ++ capped max_num_files c' rest)%list)
  /\ c <= c'
  /\ match max_num_files with
     | Some N => c' = c + Z.of_nat (length items) \/ N < c'
     | None => True
     end.
Proof.
  revert c. induction items as [|x items IH]; intros c.
  - simpl. destruct max_num_files as [N|]; simpl; rewrite ?take_nil;
      (split; [reflexivity|]); (split; [reflexivity|]); (split; [lia|]);
      [left; lia | exact I].
  - simpl. destruct max_num_files as [N|]; simpl.
    + destruct (Z.gtb_spec (c + 1) N) as [Hgt|Hle].
      * replace (Z.to_nat (N - c)) with 0%nat by lia.
        replace (Z.to_nat (N - (c + 1))) with 0%nat by lia.
        split; [reflexivity|]. split; [reflexivity|]. split; [lia|]. right; lia.
      * specialize (IH (c + 1)). simpl in IH.
        destruct (paths_dir_loop (Some N) items (c + 1)) as [[ys c'] broke].
        destruct IH as (Hys & Hrest & Hle' & Hc).
        replace (Z.to_nat (N - c)) with (S (Z.to_nat (N - (c + 1)))) by lia.
        simpl. split; [now rewrite Hys|]. split.
        -- intros rest. now rewrite Hrest.
        -- split; [lia|]. destruct Hc as [->|Hc]; [left; lia | now right].
    + specialize (IH (c + 1)). simpl in IH.
      destruct (paths_dir_loop None items (c + 1)) as [[ys c'] broke].
      destruct IH as (Hys & Hrest & Hle' & _).
      split; [now rewrite Hys|]. split.
      * intros rest. now rewrite Hrest.
      * split; [lia | exact I].
Qed.

(** A run of listable directories at the head of the path list: their
    files are yielded as far as the limit allows, and the loop goes on with
    the paths that follow, whatever the limit. *)
Lemma paths_loop_directories (max_num_files : option Z)
    (dirs rest : list string) : forall c : Z,
  Forall (listable expanduser t) dirs ->
  exists c' : Z,
    c <= c'
    /\ yielded (image_files_in_paths_loop expanduser t max_num_files
                  (dirs ++ rest) c)
       = (capped max_num_files c (listed_files expanduser t dirs)
          ++ yielded (image_files_in_paths_loop expanduser t max_num_files
                        rest c'))%list
    /\ raised (image_files_in_paths_loop expanduser t max_num_files
                 (dirs ++ rest) c)
       = raised (image_files_in_paths_loop expanduser t max_num_files rest c')
    /\ (forall more : list string,
          capped max_num_files c
            (listed_files expanduser t dirs ++ more)%list
          = (capped max_num_files c (listed_files expanduser t dirs)
             ++ capped max_num_files c' more)%list).
Proof.
  induction dirs as [|d dirs IH]; intros c Hdirs.
  - exists c. simpl. split; [lia|]. split; [|split; [reflexivity|]].
    + destruct max_num_files; simpl; now rewrite ?take_nil.
    + intros more. destruct max_num_files; simpl; now rewrite ?take_nil.
  - inversion Hdirs as [|? ? [Hd Hd'] Hrest]; subst. simpl. rewrite Hd.
    rewrite (listable_dir_run (expanduser d) Hd'). simpl.
    pose proof (paths_dir_loop_capped max_num_files
      (matching_files t (expanduser (expanduser d))
         (entries t (expanduser (expanduser d)))) c) as Hin.
    destruct (paths_dir_loop max_num_files
      (matching_files t (expanduser (expanduser d))
         (entries t (expanduser (expanduser d)))) c) as [[ys c1] broke].
    destruct Hin as (Hys & Happ & Hle & _).
    replace (if broke then None else None) with (@None exn)
      by now destruct broke.
    destruct (IH c1 Hrest) as (c' & Hle' & Hy & Hr & Hmore).
    exists c'. simpl. split; [lia|]. split; [|split; [exact Hr|]].
    + rewrite Hy, Happ. now rewrite app_assoc.
    + intros more. rewrite <- app_assoc.
      rewrite (Happ (listed_files expanduser t dirs ++ more)%list).
      rewrite (Happ (listed_files expanduser t dirs)), Hmore.
      now rewrite app_assoc.
Qed.

(** Once the files counted reach the limit, the next regular file of the
    path list ends the enumeration. *)
Lemma paths_loop_break (N : Z) (pre : list string) (f : string)
    (post : list string) : forall c : Z,
  Forall (accepted expanduser t) pre ->
  isdir t (expanduser f) = false -> isfile t (expanduser f) = true ->
  N - c <= Z.of_nat (length (listed_files expanduser t pre)) ->
  image_files_in_paths_loop expanduser t (Some N) (pre ++ f :: post) c =
  GenRun (take (Z.to_nat (N - c)) (listed_files expanduser t pre)) None.
Proof.
  intros c Hpre Hfd Hff. revert c.
  induction Hpre as [|p pre Hp _ IH]; intros c Hlen.
  - simpl in *. rewrite Hfd, Hff. unfold over_limit.
    destruct (Z.gtb_spec (c + 1) N); [|lia]. now rewrite take_nil.
  - simpl. destruct Hp as [[Hd Hd'] | [Hd Hf]]; rewrite Hd.
    + rewrite (listable_dir_run (expanduser p) Hd'). simpl.
      simpl in Hlen. rewrite Hd in Hlen. rewrite length_app in Hlen.
      pose proof (paths_dir_loop_capped (Some N)
        (matching_files t (expanduser (expanduser p))
           (entries t (expanduser (expanduser p)))) c) as Hin.
      destruct (paths_dir_loop (Some N)
        (matching_files t (expanduser (expanduser p))
           (entries t (expanduser (expanduser p)))) c) as [[ys c1] broke].
      destruct Hin as (Hys & Happ & Hle & Hc).
      replace (if broke then None else None) with (@None exn)
        by now destruct broke.
      rewrite IH by (destruct Hc as [->|Hc]; lia). simpl.
      f_equal. symmetry. apply Happ.
    + rewrite Hf. simpl in Hlen. rewrite Hd in Hlen. simpl in Hlen.
      unfold over_limit. destruct (Z.gtb_spec (c + 1) N) as [Hgt|Hle].
      * replace (Z.to_nat (N - c)) with 0%nat by lia. reflexivity.
      * rewrite IH by lia. simpl.
        replace (Z.to_nat (N - c)) with (S (Z.to_nat (N - (c + 1)))) by lia.
        reflexivity.
Qed.

End Proofs.

(** X1.  Without a limit, [image_files_in_dir] yields, in listing order, the
    paths of exactly those entries of the directory that are regular files and
    whose lower-cased name ends in one of the four extensions, and ends
    normally; when the directory cannot be listed it yields nothing and
    raises the error of [os.listdir]. *)
Theorem image_files_in_dir_all (expanduser : string -> string)
    (t : gmap string node) (directory_path : string) :
  let g := image_files_in_dir expanduser t directory_path None in
  match listdir t (expanduser directory_path) with
  | Ok names =>
      raised g = None
      /\ yielded g = matching_files t (expanduser directory_path) names
      /\ forall p : string,
           In p (yielded g) <->
           exists name : string,
             In name names
             /\ p = OS.path_join (expanduser directory_path) name
             /\ isfile t p = true
             /\ endswith_any (lower name) FILE_EXT = true
  | Raise e => g = GenRun [] (Some e)
  end.
Proof.
  intros g. subst g. unfold image_files_in_dir.
  destruct (listdir t (expanduser directory_path)) as [names|e];
    [|reflexivity].
  simpl. rewrite dir_loop_nolimit.
  split; [reflexivity|]. split; [reflexivity|].
  intros p. apply matching_files_In.
Qed.

(** X2.  A path that is neither a directory nor a regular file ends
    [image_files_in_paths] with the exception "Wrong item" even when the
    limit was reached in the directories listed before it: the [break] taken
    inside a directory leaves only the inner loop.  What is yielded before is
    the files of those directories, as far as the limit allows. *)
Theorem wrong_item_after_directories (expanduser : string -> string)
    (t : gmap string node) (dirs : list string) (wrong : string)
    (post : list string) (max_num_files : option Z) :
  Forall (listable expanduser t) dirs ->
  isdir t (expanduser wrong) = false ->
  isfile t (expanduser wrong) = false ->
  let g := image_files_in_paths expanduser t (dirs ++ wrong :: post)
             max_num_files in
  raised g = Some (PyException ["Wrong item:"; expanduser wrong])
  /\ yielded g = capped max_num_files 0 (listed_files expanduser t dirs).
Proof.
  intros Hdirs Hd Hf g. subst g. unfold image_files_in_paths.
  destruct (paths_loop_directories expanduser t max_num_files dirs
              (wrong :: post) 0 Hdirs) as (c' & _ & Hy & Hr & _).
  rewrite Hy, Hr. simpl. rewrite Hd, Hf. simpl.
  split; [reflexivity | now rewrite app_nil_r].
Qed.

(** The limit 1 is reached inside [data]; the missing path after it still
    raises. *)
Lemma wrong_item_after_directories_witness :
  Forall (listable no_tilde sample_tree) ["data"]
  /\ isdir sample_tree (no_tilde "missing") = false
  /\ isfile sample_tree (no_tilde "missing") = false
  /\ let g := image_files_in_paths no_tilde sample_tree
                (["data"] ++ "missing" :: ["run.fit"]) (Some 1) in
     raised g = Some (PyException ["Wrong item:"; no_tilde "missing"])
     /\ yielded g
        = capped (Some 1) 0 (listed_files no_tilde sample_tree ["data"]).
Proof.
  assert (Hdirs : Forall (listable no_tilde sample_tree) ["data"]).
  { constructor; [|constructor]. split; vm_compute; reflexivity. }
  split; [exact Hdirs|]. split; [reflexivity|]. split; [reflexivity|].
  exact (wrong_item_after_directories no_tilde sample_tree ["data"] "missing"
           ["run.fit"] (Some 1) Hdirs eq_refl eq_refl).
Defined.

(** X3.  Once the directories and files listed so far hold at least [N]
    files, the next regular file of the path list ends
    [image_files_in_paths] normally: the first [N] files are what it yields
    and no later path is examined, so that an invalid path after it raises
    nothing. *)
Theorem limit_reached_at_regular_file (expanduser : string -> string)
    (t : gmap string node) (pre : list string) (f : string)
    (post : list string) (N : Z) :
  Forall (accepted expanduser t) pre ->
  isdir t (expanduser f) = false -> isfile t (expanduser f) = true ->
  N <= Z.of_nat (length (listed_files expanduser t pre)) ->
  image_files_in_paths expanduser t (pre ++ f :: post) (Some N) =
  GenRun (take (Z.to_nat N) (listed_files expanduser t pre)) None.
Proof.
  intros Hpre Hd Hf Hlen. unfold image_files_in_paths.
  rewrite (paths_loop_break expanduser t N pre f post 0 Hpre Hd Hf) by lia.
  now replace (N - 0) with N by lia.
Qed.

(** The limit 2 is reached in [data]; the file [run.fit] ends the
    enumeration and the missing path after it is never looked at. *)
Lemma limit_reached_at_regular_file_witness :
  Forall (accepted no_tilde sample_tree) ["data"]
  /\ isdir sample_tree (no_tilde "run.fit") = false
  /\ isfile sample_tree (no_tilde "run.fit") = true
  /\ 2 <= Z.of_nat (length (listed_files no_tilde sample_tree ["data"]))
  /\ image_files_in_paths no_tilde sample_tree
       (["data"] ++ "run.fit" :: ["missing"]) (Some 2)
     = GenRun (take (Z.to_nat 2) (listed_files no_tilde sample_tree ["data"]))
              None.
Proof.
  assert (Hpre : Forall (accepted no_tilde sample_tree) ["data"]).
  { constructor; [|constructor]. left. split; vm_compute; reflexivity. }
  assert (Hlen : 2 <= Z.of_nat (length (listed_files no_tilde sample_tree
                                          ["data"])))
    by (vm_compute; discriminate).
  split; [exact Hpre|]. split; [reflexivity|]. split; [reflexivity|].
  split; [exact Hlen|].
  exact (limit_reached_at_regular_file no_tilde sample_tree ["data"] "run.fit"
           ["missing"] 2 Hpre eq_refl eq_refl Hlen).
Defined.

End DiscoveryMore.

(** ** Further properties of [fill_nan_pixels] *)

Module FillNanMore.
Import Images Samples FillNanMoreSpec FillNanProps.

Lemma count_nonzero_cons (m : bool) (mask : list bool) :
  count_nonzero (m :: mask) =
  if m then S (count_nonzero mask) else count_nonzero mask.
Proof.
  unfold count_nonzero. rewrite filter_cons.
  destruct m; simpl.
  - destruct (decide (true = true)) as [_|n]; [reflexivity | congruence].
  - destruct (decide (false = true)) as [e|_]; [discriminate e | reflexivity].
Qed.

(** Assigning as many values as the mask has true bits. *)
Lemma assign_masked_values_spec {A} (mask : list bool) :
  forall (values buf : list A),
  length mask = length buf ->
  length values = count_nonzero mask ->
  exists buf' : list A,
    assign_masked_values mask values buf = Some buf'
    /\ length buf' = length buf
    /\ under_mask mask buf' = values
    /\ (forall (i : nat) (x : A),
          mask !! i = Some false -> buf !! i = Some x -> buf' !! i = Some x).
Proof.
  induction mask as [|m mask IH]; intros values buf Hlen Hcount.
  - destruct buf; [|discriminate Hlen]. exists []. simpl.
    destruct values; [|discriminate Hcount].
    repeat split. intros i x Hi. now rewrite lookup_nil in Hi.
  - destruct buf as [|x buf]; [discriminate Hlen|].
    injection Hlen as Hlen. rewrite count_nonzero_cons in Hcount.
    destruct m.
    + destruct values as [|v values]; [discriminate Hcount|].
      injection Hcount as Hcount.
      destruct (IH values buf Hlen Hcount) as (buf' & Ha & Hl & Hu & Hk).
      exists (v :: buf'). simpl. rewrite Ha. simpl.
      split; [reflexivity|]. split; [now rewrite Hl|].
      split; [now rewrite Hu|].
      intros [|i] y Hi Hy; [discriminate Hi|]. simpl in *. now apply Hk.
    + destruct (IH values buf Hlen Hcount) as (buf' & Ha & Hl & Hu & Hk).
      exists (x :: buf'). simpl. rewrite Ha. simpl.
      split; [reflexivity|]. split; [now rewrite Hl|].
      split; [exact Hu|].
      intros [|i] y Hi Hy; [exact Hy|]. simpl in *. now apply Hk.
Qed.

(** One value for one position: broadcasting it is assigning it. *)
Lemma assign_masked_values_none {A} (mask : list bool) (v : A) :
  forall (values buf : list A),
  length mask = length buf -> count_nonzero mask = 0%nat ->
  assign_masked_values mask values buf
  = Some (assign_masked_scalar mask v buf).
Proof.
  unfold assign_masked_scalar.
  induction mask as [|m mask IH]; intros values [|x buf] Hlen Hc;
    try discriminate Hlen; [reflexivity|].
  rewrite count_nonzero_cons in Hc. destruct m; [discriminate Hc|].
  injection Hlen as Hlen. cbn [assign_masked_values zip_with].
  now rewrite (IH values buf Hlen Hc).
Qed.

Lemma assign_masked_values_one {A} (mask : list bool) (v : A) :
  forall buf : list A,
  length mask = length buf -> count_nonzero mask = 1%nat ->
  assign_masked_values mask [v] buf
  = Some (assign_masked_scalar mask v buf).
Proof.
  induction mask as [|m mask IH]; intros [|x buf] Hlen Hc;
    try discriminate Hlen; [discriminate Hc|].
  rewrite count_nonzero_cons in Hc. injection Hlen as Hlen.
  destruct m; cbn [assign_masked_values].
  - injection Hc as Hc.
    rewrite (assign_masked_values_none mask v [] buf Hlen Hc). reflexivity.
  - rewrite (IH buf Hlen Hc). reflexivity.
Qed.

(** X4.  Called with a noise distribution whose sampler returns as many
    values as the array has NaN entries, [fill_nan_pixels] returns the mask
    [np.isnan(a)] and leaves, at the same reference, an array of the same
    shape whose entries at the NaN positions are the sampled values, in
    order, and whose other entries are what they were. *)
Theorem fill_nan_pixels_noise {A : Type} `{Dtype A} (image : nat)
    (a : ndarray A) (h : heap A) (rvs : nat -> list A) :
  h !! image = Some a ->
  length (rvs (count_nonzero (map isnan (data a))))
    = count_nonzero (map isnan (data a)) ->
  exists a' : ndarray A,
    fill_nan_pixels image (Some rvs) h
      = (Ok (NdArray (shape a) (map isnan (data a))), <[image := a']> h)
    /\ shape a' = shape a
    /\ length (data a') = length (data a)
    /\ under_mask (map isnan (data a)) (data a')
       = rvs (count_nonzero (map isnan (data a)))
    /\ (forall (i : nat) (x : A),
          data a !! i = Some x -> isnan x = false -> data a' !! i = Some x).
Proof.
  intros Ha Hn.
  destruct (assign_masked_values_spec (map isnan (data a))
              (rvs (count_nonzero (map isnan (data a)))) (data a))
    as (buf' & Hassign & Hlen & Hunder & Hkeep);
    [apply length_map | exact Hn |].
  exists (NdArray (shape a) buf').
  assert (Hfill : fill_nan_pixels image (Some rvs) h
                  = (Ok (NdArray (shape a) (map isnan (data a))),
                     <[image := NdArray (shape a) buf']> h)).
  { unfold fill_nan_pixels. rewrite Ha. cbn [data shape].
    destruct (rvs (count_nonzero (map isnan (data a))))
      as [|v [|v' noise]] eqn:Hr.
    - rewrite <- Hn. cbn [length]. rewrite Nat.eqb_refl, Hassign. reflexivity.
    - rewrite (assign_masked_values_one (map isnan (data a)) v (data a))
        in Hassign by (rewrite ?length_map; auto).
      now injection Hassign as <-.
    - rewrite Hn, Nat.eqb_refl, Hassign. reflexivity. }
  split; [exact Hfill|]. split; [reflexivity|]. split; [exact Hlen|].
  split; [exact Hunder|].
  intros i x Hi Hx. apply Hkeep; [|exact Hi].
  now rewrite list_lookup_fmap, Hi; simpl; rewrite Hx.
Qed.

(** The theorem at the array of the docstring, every NaN replaced by [5.0]. *)
Lemma fill_nan_pixels_noise_witness :
  let h : heap float := {[ 0%nat := docstring_image ]} in
  let rvs := constant_noise 5%float in
  h !! 0%nat = Some docstring_image
  /\ length (rvs (count_nonzero (map isnan (data docstring_image))))
     = count_nonzero (map isnan (data docstring_image))
  /\ exists a' : ndarray float,
       fill_nan_pixels 0%nat (Some rvs) h
         = (Ok (NdArray (shape docstring_image)
                  (map isnan (data docstring_image))), <[0%nat := a']> h)
       /\ shape a' = shape docstring_image
       /\ length (data a') = length (data docstring_image)
       /\ under_mask (map isnan (data docstring_image)) (data a')
          = rvs (count_nonzero (map isnan (data docstring_image)))
       /\ (forall (i : nat) (x : float),
             data docstring_image !! i = Some x -> isnan x = false ->
             data a' !! i = Some x).
Proof.
  intros h rvs.
  assert (Hl : h !! 0%nat = Some docstring_image)
    by apply lookup_singleton_eq.
  assert (Hn : length (rvs (count_nonzero (map isnan (data docstring_image))))
               = count_nonzero (map isnan (data docstring_image)))
    by (vm_compute; reflexivity).
  split; [exact Hl|]. split; [exact Hn|].
  exact (fill_nan_pixels_noise 0%nat docstring_image h rvs Hl Hn).
Defined.

Lemma isnan_after_fill {A} `{Dtype A} (buf : list A) :
  map isnan (map (fun x => if isnan x then zero else x) buf)
  = map (fun _ => false) buf.
Proof.
  induction buf as [|x buf IH]; [reflexivity|]. simpl. rewrite IH. f_equal.
  destruct (isnan x) eqn:E; [apply isnan_zero | exact E].
Qed.

Lemma assign_masked_scalar_all_false {A B} (v : A) (l : list B) :
  forall buf : list A,
  length l = length buf ->
  assign_masked_scalar (map (fun _ => false) l) v buf = buf.
Proof.
  unfold assign_masked_scalar.
  induction l as [|y l IH]; intros [|x buf] Hlen; try discriminate Hlen;
    [reflexivity|].
  simpl. rewrite IH; [reflexivity | now injection Hlen].
Qed.

(** X5.  Filling twice is filling once: after [fill_nan_pixels] without a
    noise distribution, a second call returns a mask that is false everywhere
    and leaves the heap as the first call left it. *)
Theorem fill_nan_pixels_twice {A : Type} `{Dtype A} (image : nat)
    (a : ndarray A) (h : heap A) :
  h !! image = Some a ->
  let h1 := (fill_nan_pixels image None h).2 in
  fill_nan_pixels image None h1
  = (Ok (NdArray (shape a) (map (fun _ => false) (data a))), h1).
Proof.
  intros Ha h1. subst h1. unfold fill_nan_pixels at 2. rewrite Ha. simpl.
  unfold fill_nan_pixels. rewrite lookup_insert_eq, Ha. simpl.
  rewrite assign_masked_scalar_isnan, isnan_after_fill.
  rewrite assign_masked_scalar_all_false by now rewrite length_map.
  now rewrite insert_insert_eq.
Qed.

Lemma fill_nan_pixels_twice_witness :
  let h : heap float := {[ 0%nat := docstring_image ]} in
  h !! 0%nat = Some docstring_image
  /\ let h1 := (fill_nan_pixels 0%nat None h).2 in
     fill_nan_pixels 0%nat None h1
     = (Ok (NdArray (shape docstring_image)
              (map (fun _ => false) (data docstring_image))), h1).
Proof.
  intros h.
  assert (Hl : h !! 0%nat = Some docstring_image)
    by apply lookup_singleton_eq.
  exact (conj Hl (fill_nan_pixels_twice 0%nat docstring_image h Hl)).
Defined.

End FillNanMore.

(** ** Further properties of the FITS functions *)

Module FitsMore.
Import Images FitsSpec FitsMoreSpec MonadFacts BenchmarkProps.





(** X7.  [save_benchmark_images] checks the seven dimensionalities before
    anything else: when one of them is wrong it raises an exception and the
    world is untouched, a file already at the output path included. *)
Theorem save_benchmark_images_wrong_dimension
    (refused : string -> scalar -> option string)
    (refused_comment : string -> string -> option string)
    (stored : string -> card -> card)
    (img pe_img adc_sums_img pedestal_img gains_img pixel_pos pixel_mask
       : ndarray float)
    (metadata : list (string * meta_value)) (path : string) (w : world) :
  ndim img <> 2 \/ ndim pe_img <> 2 \/ ndim adc_sums_img <> 3
  \/ ndim pedestal_img <> 3 \/ ndim gains_img <> 3 \/ ndim pixel_pos <> 3
  \/ ndim pixel_mask <> 2 ->
  exists msg : string,
    save_benchmark_images refused refused_comment stored img pe_img
      adc_sums_img pedestal_img gains_img pixel_pos pixel_mask metadata path w
    = (Raise (PyException [msg]), w).
Proof.
  intros Hdim. unfold save_benchmark_images.
  destruct (Z.eqb_spec (ndim img) 2); [|eexists; reflexivity].
  destruct (Z.eqb_spec (ndim pe_img) 2); [|eexists; reflexivity].
  destruct (Z.eqb_spec (ndim adc_sums_img) 3); [|eexists; reflexivity].
  destruct (Z.eqb_spec (ndim pedestal_img) 3); [|eexists; reflexivity].
  destruct (Z.eqb_spec (ndim gains_img) 3); [|eexists; reflexivity].
  destruct (Z.eqb_spec (ndim pixel_pos) 3); [|eexists; reflexivity].
  destruct (Z.eqb_spec (ndim pixel_mask) 2); [|eexists; reflexivity].
  exfalso. intuition congruence.
Qed.

(** A 1-D pixel mask; the file saved before at the path is still there. *)
Lemma save_benchmark_images_wrong_dimension_witness :
  (ndim BenchmarkSamples.img <> 2 \/ ndim BenchmarkSamples.pe_img <> 2
   \/ ndim BenchmarkSamples.adc_sums_img <> 3
   \/ ndim BenchmarkSamples.pedestal_img <> 3
   \/ ndim BenchmarkSamples.gains_img <> 3
   \/ ndim BenchmarkSamples.pixel_pos <> 3 \/ ndim flat <> 2)
  /\ exists msg : string,
       BenchmarkSamples.save BenchmarkSamples.img BenchmarkSamples.pe_img
         BenchmarkSamples.adc_sums_img BenchmarkSamples.pedestal_img
         BenchmarkSamples.gains_img BenchmarkSamples.pixel_pos flat
         (BenchmarkSamples.metadata 1) "out.fits" (BenchmarkSamples.saved 1)
       = (Raise (PyException [msg]), BenchmarkSamples.saved 1).
Proof.
  assert (Hdim : ndim BenchmarkSamples.img <> 2
     \/ ndim BenchmarkSamples.pe_img <> 2
     \/ ndim BenchmarkSamples.adc_sums_img <> 3
     \/ ndim BenchmarkSamples.pedestal_img <> 3
     \/ ndim BenchmarkSamples.gains_img <> 3
     \/ ndim BenchmarkSamples.pixel_pos <> 3 \/ ndim flat <> 2)
    by (do 6 right; discriminate).
  exact (conj Hdim (save_benchmark_images_wrong_dimension
                      BenchmarkSamples.refuses_nan_inf
                      BenchmarkSamples.no_unit_refused
                      BenchmarkSamples.as_given _ _ _ _ _ _ flat
                      (BenchmarkSamples.metadata 1) "out.fits"
                      (BenchmarkSamples.saved 1) Hdim)).
Defined.

(** X22.  A value or a unit string that astropy refuses to put in a header
    (a NaN or an infinite float, for one) ends [save_benchmark_images] with
    [ValueError] at the first such entry of the metadata, before the file
    system is touched: nothing is written, and a file already at the output
    path is not removed. *)
Theorem save_benchmark_images_refused_value
    (refused : string -> scalar -> option string)
    (refused_comment : string -> string -> option string)
    (stored : string -> card -> card)
    (img pe_img adc_sums_img pedestal_img gains_img pixel_pos pixel_mask
       : ndarray float)
    (pre post : list (string * meta_value)) (key : string) (val : meta_value)
    (path : string) (w : world) :
  ndim img = 2 -> ndim pe_img = 2 -> ndim adc_sums_img = 3 ->
  ndim pedestal_img = 3 -> ndim gains_img = 3 -> ndim pixel_pos = 3 ->
  ndim pixel_mask = 2 ->
  accepted refused refused_comment pre = true ->
  accepted_entry refused refused_comment (key, val) = false ->
  exists msg : string,
    save_benchmark_images refused refused_comment stored img pe_img
      adc_sums_img pedestal_img gains_img pixel_pos pixel_mask
      (pre ++ (key, val) :: post) path w
    = (Raise (ValueError msg), w).
Proof.
  intros H1 H2 H3 H4 H5 H6 H7 Hacc Hbad. unfold save_benchmark_images.
  rewrite H1, H2, H3, H4, H5, H6, H7. cbn [Z.eqb Pos.eqb negb].
  unfold accepted in Hacc. apply andb_true_iff in Hacc as [Hdesc Hacc].
  cbn [forallb descriptions] in Hdesc.
  repeat (apply andb_true_iff in Hdesc as [?Hd Hdesc]).
  repeat match goal with
         | H : bool_decide _ = true |- _ => apply bool_decide_eq_true in H
         end.
  rewrite !(with_desc_accepted refused) by assumption. rewrite !bind_lift_ok.
  destruct (write_metadata_prefix refused refused_comment pre
              ((key, val) :: post)
              (hdr (described (PrimaryHDU img) "calibrated image")) Hacc)
    as [h' Hpre].
  destruct (write_metadata_refused refused refused_comment h' key val post
              Hbad) as [msg Hraise].
  exists msg. now rewrite Hpre, Hraise.
Qed.

(** An energy that is not a number; the file saved before at the path is
    still there. *)
Lemma save_benchmark_images_refused_value_witness :
  exists msg : string,
    BenchmarkSamples.save BenchmarkSamples.img BenchmarkSamples.pe_img
      BenchmarkSamples.adc_sums_img BenchmarkSamples.pedestal_img
      BenchmarkSamples.gains_img BenchmarkSamples.pixel_pos
      BenchmarkSamples.pixel_mask
      ([("version", Plain (SInt 1))]
       ++ ("energy", WithUnit (SFloat nan) "TeV")
       :: [("tel_id", Plain (SInt 3))])
      "out.fits" (BenchmarkSamples.saved 1)
    = (Raise (ValueError msg), BenchmarkSamples.saved 1).
Proof.
  apply (save_benchmark_images_refused_value BenchmarkSamples.refuses_nan_inf
           BenchmarkSamples.no_unit_refused BenchmarkSamples.as_given
           BenchmarkSamples.img BenchmarkSamples.pe_img
           BenchmarkSamples.adc_sums_img BenchmarkSamples.pedestal_img
           BenchmarkSamples.gains_img BenchmarkSamples.pixel_pos
           BenchmarkSamples.pixel_mask [("version", Plain (SInt 1))]
           [("tel_id", Plain (SInt 3))] "energy" (WithUnit (SFloat nan) "TeV")
           "out.fits" (BenchmarkSamples.saved 1)).
  - reflexivity.
  - reflexivity.
  - reflexivity.
  - reflexivity.
  - reflexivity.
  - reflexivity.
  - reflexivity.
  - vm_compute. reflexivity.
  - vm_compute. reflexivity.
Defined.

Lemma bind_read_value_missing {B} (h : header) (md : gmap string scalar)
    (name key : string) (k : gmap string scalar -> M B) (w : world) :
  h !! upper key = None ->
  bind (read_value h md name key) k w = (Raise (KeyError key), w).
Proof.
  intros Hc. unfold read_value, header_get, bind, lift. now rewrite Hc.
Qed.

(** One keyword of the header-reading part: present, both reads go
    through; absent, the first read raises. *)
Ltac read_keyword Hfind :=
  lazymatch type of Hfind with
  | (if negb (has_card ?h ?k) then _ else _) = _ =>
      let c := fresh "c" in
      let E := fresh "E" in
      unfold has_card in Hfind at 1;
      destruct (h !! upper k) as [c|] eqn:E; cbn [negb] in Hfind;
      [ erewrite bind_read_value by exact E;
        try (erewrite bind_read_comment by exact E)
      | injection Hfind as <-;
        exact (bind_read_value_missing _ _ _ _ _ _ E) ]
  end.

(** X8.  When the primary header lacks one of the keywords
    [load_benchmark_images] reads, the loader raises [KeyError] for the first
    of them in reading order, before any test of the file structure, and the
    file it opened stays open. *)
Theorem load_benchmark_images_missing_keyword
    (np_nansum np_nanmin np_nanmax : list float -> float)
    (path : string) (hdu0 : hdu) (rest : list hdu) (k : string) (w : world) :
  fits_at w path (hdu0 :: rest) ->
  first_missing (hdr hdu0) = Some k ->
  load_benchmark_images np_nansum np_nanmin np_nanmax path w
  = (Raise (KeyError k), opened w path).
Proof.
  intros Hf Hfind. unfold load_benchmark_images.
  rewrite (bind_fits_open _ _ _ _ Hf).
  unfold hdu_list_get; cbn [lookup list_lookup]; rewrite bind_lift_ok.
  unfold first_missing, header_keywords in Hfind. cbn [find] in Hfind.
  cbv zeta.
  do 19 (read_keyword Hfind).
  discriminate Hfind.
Qed.

Lemma load_benchmark_images_missing_keyword_witness :
  fits_at four_cards "part.fits"
    [with_header (PrimaryHDU BenchmarkSamples.img)
       (header_set (header_set (header_set (header_set ∅
          "version" (SInt 1)) "cam_id" (SStr "ASTRICam"))
          "tel_id" (SInt 3)) "event_id" (SInt 42))]
  /\ BenchmarkSamples.load "part.fits" four_cards
     = (Raise (KeyError "simtel"), opened four_cards "part.fits").
Proof.
  assert (Hf : fits_at four_cards "part.fits"
    [with_header (PrimaryHDU BenchmarkSamples.img)
       (header_set (header_set (header_set (header_set ∅
          "version" (SInt 1)) "cam_id" (SStr "ASTRICam"))
          "tel_id" (SInt 3)) "event_id" (SInt 42))])
    by apply lookup_singleton_eq.
  split; [exact Hf|].
  refine (load_benchmark_images_missing_keyword _ _ _ "part.fits" _ [] "simtel"
            four_cards Hf _).
  vm_compute. reflexivity.
Defined.

(** X9.  A record whose reference image has no element is saved like any
    other (to a path where a file can be created, with metadata of ordinary
    keywords that astropy accepts), but the written file cannot be loaded:
    [np.nanmin] of the empty reference image raises [ValueError], after the
    structure test has passed, and the file stays open. *)
Theorem empty_reference_saves_but_does_not_load
    (refused : string -> scalar -> option string)
    (refused_comment : string -> string -> option string)
    (stored : string -> card -> card)
    (np_nansum np_nanmin np_nanmax : list float -> float)
    (img pe_img adc_sums_img pedestal_img gains_img pixel_pos pixel_mask
       : ndarray float)
    (metadata : list (string * meta_value)) (fields : string -> meta_value)
    (path : string) (w : world) :
  ndim img = 2 -> ndim pe_img = 2 -> ndim adc_sums_img = 3 ->
  ndim pedestal_img = 3 -> ndim gains_img = 3 -> ndim pixel_pos = 3 ->
  ndim pixel_mask = 2 ->
  data pe_img = [] ->
  isdir (fs w) path = false ->
  creatable (fs w) path = true ->
  accepted refused refused_comment metadata = true ->
  ordinary metadata = true ->
  NoDup (stored_keys metadata) ->
  (forall k, str_in k header_keywords = true -> In (k, fields k) metadata) ->
  equals_one (value (read_back stored "version" (fields "version"))) = true ->
  exists w' : world,
    save_benchmark_images refused refused_comment stored img pe_img
      adc_sums_img pedestal_img gains_img pixel_pos pixel_mask metadata path w
    = (Ok tt, w')
    /\ load_benchmark_images np_nansum np_nanmin np_nanmax path w'
       = (Raise (ValueError "zero-size array to reduction operation"),
          opened w' path).
Proof.
  intros H1 H2 H3 H4 H5 H6 H7 Hpe Hdir Hcreate Hacc _ Hnd Hfields Hv.
  unfold accepted in Hacc. apply andb_true_iff in Hacc as [Hdesc Hacc].
  destruct (write_metadata_cards refused refused_comment metadata
              initial_header Hacc Hnd) as (h0 & Hw & Hcards & _).
  { intros k c _. unfold initial_header, header_set.
    rewrite lookup_empty.
    destruct (decide (k = upper "desc")) as [->|Hne].
    - rewrite lookup_insert_eq. now intros [= <-].
    - rewrite lookup_insert_ne by congruence. now rewrite lookup_empty. }
  destruct (save_benchmark_images_writes refused refused_comment stored
              img pe_img adc_sums_img pedestal_img gains_img pixel_pos
              pixel_mask metadata path h0 w H1 H2 H3 H4 H5 H6 H7 Hdir Hcreate
              Hdesc Hw) as (t' & Hsave & Hat).
  pose (cards := fun k : string => read_back stored k (fields k)).
  pose (w' := MkWorld t' (open_fits w) (stdout w)).
  exists w'. split; [exact Hsave|].
  assert (Hf : fits_at w' path
                 (on_disk stored
                    <$> saved_units h0 img pe_img adc_sums_img pedestal_img
                          gains_img pixel_pos pixel_mask))
    by exact Hat.
  assert (Hc : carries (hdr (on_disk stored (with_header (PrimaryHDU img) h0)))
                 cards).
  { apply carries_on_disk. intros k Hk. apply Hcards. now apply Hfields. }
  unfold saved_units in Hf. cbn [fmap list_fmap] in Hf.
  assert (Hd : ~ departs
                 [on_disk stored (with_header (PrimaryHDU img) h0);
                  on_disk stored (described (ImageHDU pe_img) "pe image");
                  on_disk stored
                    (described (ImageHDU adc_sums_img) "adc sum images");
                  on_disk stored
                    (described (ImageHDU pedestal_img) "pedestal images");
                  on_disk stored
                    (described (ImageHDU gains_img) "gains images");
                  on_disk stored
                    (described (ImageHDU pixel_pos) "pixels position");
                  on_disk stored
                    (described (ImageHDU pixel_mask) "pixels mask")]).
  { intros Hd. apply departs_test in Hd. discriminate Hd. }
  rewrite (load_benchmark_layout np_nansum np_nanmin np_nanmax path
             _ _ _ _ _ _ _ cards w' Hf Hc Hv Hd).
  cbn [hdu_data on_disk described with_header ImageHDU PrimaryHDU].
  now rewrite Hpe.
Qed.

Lemma empty_reference_saves_but_does_not_load_witness :
  exists w' : world,
    BenchmarkSamples.save BenchmarkSamples.img no_pixel
      BenchmarkSamples.adc_sums_img BenchmarkSamples.pedestal_img
      BenchmarkSamples.gains_img BenchmarkSamples.pixel_pos
      BenchmarkSamples.pixel_mask (BenchmarkSamples.metadata 1) "out.fits"
      BenchmarkSamples.empty_world = (Ok tt, w')
    /\ BenchmarkSamples.load "out.fits" w'
       = (Raise (ValueError "zero-size array to reduction operation"),
          opened w' "out.fits").
Proof.
  apply (empty_reference_saves_but_does_not_load
           BenchmarkSamples.refuses_nan_inf BenchmarkSamples.no_unit_refused
           BenchmarkSamples.as_given
           BenchmarkSamples.nansum_seq BenchmarkSamples.nanmin_seq
           BenchmarkSamples.nanmax_seq
           BenchmarkSamples.img no_pixel
           BenchmarkSamples.adc_sums_img BenchmarkSamples.pedestal_img
           BenchmarkSamples.gains_img BenchmarkSamples.pixel_pos
           BenchmarkSamples.pixel_mask (BenchmarkSamples.metadata 1)
           (BenchmarkSamples.fields 1) "out.fits"
           BenchmarkSamples.empty_world).
  - reflexivity.
  - reflexivity.
  - reflexivity.
  - reflexivity.
  - reflexivity.
  - reflexivity.
  - reflexivity.
  - reflexivity.
  - reflexivity.
  - reflexivity.
  - vm_compute. reflexivity.
  - reflexivity.
  - apply NoDup_ListNoDup. vm_compute.
    repeat (constructor; [simpl; intuition discriminate|]). constructor.
  - apply sample_fields_listed.
  - reflexivity.
Defined.

End FitsMore.

(** ** Further properties of the null driver *)

Module DriverMore.
Import Null DriverMoreSpec MonadFacts.

Section Driver.
Variable score : Type.
Variable assess_image_cleaning :
  ndarray float -> ndarray float -> ndarray float -> string -> result score.
Variable images_load : string -> Z -> M (ndarray float).
Variable plot_list_call : list (ndarray float) -> list string -> M unit.
Variable mpl_save_list_call :
  list (ndarray float) -> string -> list string -> M unit.
Variable perf_counter : M float.
Variable basename : string -> string.
Variable splitext_root : string -> string.
Variable str_of_scores : list score -> string.
Variable json_dump : report score -> string.
Variable this_file : string.
Variable now : M string.
Variable uname : string.

Local Abbreviation main_loop :=
  (main_loop score assess_image_cleaning images_load plot_list_call
     mpl_save_list_call perf_counter basename splitext_root).
Local Abbreviation main :=
  (main score assess_image_cleaning images_load plot_list_call
     mpl_save_list_call perf_counter basename splitext_root str_of_scores
     json_dump this_file now uname).




End Driver.


End DriverMore.

(** ** Further properties of channel mixing *)

Module MixMore.
Import Images MixSpec.

Lemma max_axis1_raises (a : list (list Z)) (e : exn) :
  max_axis1 a = Raise e -> exists msg : string, e = ValueError msg.
Proof.
  induction a as [|row a IH]; [discriminate|].
  destruct row as [|x row]; simpl.
  - intros [= <-]. now eexists.
  - destruct (max_axis1 a) as [peaks|e']; simpl; [discriminate|].
    intros [= <-]. now apply IH.
Qed.

Lemma high_gain_peak_raises (samples : list (list (list Z))) (e : exn) :
  high_gain_peak samples = Raise e ->
  e = IndexError \/ exists msg : string, e = ValueError msg.
Proof.
  unfold high_gain_peak. destruct (samples !! 0%nat).
  - intros He. right. now apply (max_axis1_raises _ _ He).
  - intros [= <-]. now left.
Qed.

Lemma zero_channel_where_raises (img : list (list float)) (ch : nat)
    (mask : list bool) (e : exn) :
  zero_channel_where img ch mask = Raise e -> e = IndexError.
Proof.
  unfold zero_channel_where. destruct (img !! ch); [|now intros [= <-]].
  destruct (length mask =? length l)%nat; [discriminate | now intros [= <-]].
Qed.

(** The statements of a two-channel branch fail only on arrays of the wrong
    shape. *)
Lemma merge_channels_raises (threshold : Z) (img : list (list float))
    (samples : list (list (list Z))) (e : exn) :
  merge_channels threshold img samples = Raise e ->
  e = IndexError \/ exists msg : string, e = ValueError msg.
Proof.
  unfold merge_channels.
  destruct (high_gain_peak samples) as [peak|e1] eqn:Hp; simpl;
    [|intros [= <-]; now apply (high_gain_peak_raises samples)].
  destruct (zero_channel_where img 1 _) as [img1|e1] eqn:H1; simpl;
    [|intros [= <-]; left; now apply (zero_channel_where_raises _ _ _ _ H1)].
  destruct (zero_channel_where img1 0 _) as [img0|e0] eqn:H0; simpl;
    [discriminate|].
  intros [= <-]. left. now apply (zero_channel_where_raises _ _ _ _ H0).
Qed.

(** X11.  The mixing block by camera.  Without mixing the image is returned
    per channel, whatever the camera.  With mixing, a single-channel camera
    (CHEC, DigiCam, FlashCam) gives the first channel as it is; a two-channel
    camera never ends in [NotImplementedError]; any other camera name ends in
    [NotImplementedError] with the message "Unknown camera: <name>". *)
Theorem mix_channels_block_by_camera (cam_id : string)
    (calibrated_image : list (list float))
    (r0_adc_samples : list (list (list Z))) :
  mix_channels_block false cam_id calibrated_image r0_adc_samples
  = Ok (PerChannel calibrated_image)
  /\ if str_in cam_id SINGLE_CHANNEL_CAMERAS then
       mix_channels_block true cam_id calibrated_image r0_adc_samples
       = match calibrated_image !! 0%nat with
         | Some row => Ok (Mixed row)
         | None => Raise IndexError
         end
     else if str_in cam_id TWO_CHANNELS_CAMERAS then
       forall msg : string,
         mix_channels_block true cam_id calibrated_image r0_adc_samples
         <> Raise (NotImplementedError msg)
     else
       mix_channels_block true cam_id calibrated_image r0_adc_samples
       = Raise (NotImplementedError ("Unknown camera: " ++ cam_id)).
Proof.
  split; [reflexivity|].
  assert (Htwo : str_in cam_id TWO_CHANNELS_CAMERAS
                 = (String.eqb cam_id "ASTRICam"
                    || (String.eqb cam_id "NectarCam"
                        || (String.eqb cam_id "LSTCam" || false)))%bool)
    by reflexivity.
  rewrite Htwo. unfold mix_channels_block.
  destruct (str_in cam_id SINGLE_CHANNEL_CAMERAS) eqn:Hs.
  - destruct (String.eqb_spec cam_id "ASTRICam") as [->|_];
      [discriminate Hs|].
    destruct (String.eqb_spec cam_id "NectarCam") as [->|_];
      [discriminate Hs|].
    destruct (String.eqb_spec cam_id "LSTCam") as [->|_];
      [discriminate Hs|].
    reflexivity.
  - assert (Hm : forall threshold msg,
        (let* img := merge_channels threshold calibrated_image r0_adc_samples
         in Ok (Mixed img))%result <> Raise (NotImplementedError msg)).
    { intros threshold msg.
      destruct (merge_channels threshold calibrated_image r0_adc_samples)
        as [img|e] eqn:Hmerge; simpl; [discriminate|].
      intros [= ->].
      destruct (merge_channels_raises _ _ _ _ Hmerge) as [He|[m He]];
        discriminate He. }
    destruct (String.eqb cam_id "ASTRICam"); [cbn [orb]; intros msg; apply Hm|].
    destruct (String.eqb cam_id "NectarCam"); [cbn [orb]; intros msg; apply Hm|].
    destruct (String.eqb cam_id "LSTCam"); [cbn [orb]; intros msg; apply Hm|].
    reflexivity.
Qed.

End MixMore.

(** ** The histogram script *)

Module HistogramProps.
Import Histogram HistogramSpec MonadFacts.

Section Script.
Variable json : Type.
Variable score_array : Type.
Variable parse_json_file : string -> M json.
Variable image_filter_equals : json -> string -> Z -> result json.
Variable image_filter_range : json -> string -> float -> float -> result json.
Variable extract_score_array : json -> string -> result score_array.
Variable io_length : json -> result nat.
Variable label_of : json -> result string.
Variable plot_hist1d :
  nat -> list score_array -> list string -> bool -> bool -> M unit.
Variable subplots : M unit.
Variable set_title : nat -> string -> M unit.
Variable suptitle : string -> M unit.
Variable savefig : string -> M unit.
Variable show : M unit.

Local Abbreviation script :=
  (script json score_array parse_json_file image_filter_equals
     image_filter_range extract_score_array io_length label_of plot_hist1d
     subplots set_title suptitle savefig show).
Local Abbreviation fetch_file :=
  (fetch_file json score_array parse_json_file image_filter_equals
     image_filter_range extract_score_array io_length label_of).
Local Abbreviation fetch_scores :=
  (fetch_scores json score_array parse_json_file image_filter_equals
     image_filter_range extract_score_array io_length label_of).

(** X12.  The two flags on aborted images are only tested against each
    other: set together they make the script raise before it prints, parses
    or plots anything; otherwise they change nothing, the run being the one
    of the same command line without them. *)
Theorem aborted_flags_only_exclude_each_other (args : arguments) (w : world) :
  if (exclude_aborted args && aborted_only args)%bool
  then script args w
       = (Raise (PyException
                   ["--exclude-aborted and --aborted-only are not compatible"]),
          w)
  else script args w = script (without_aborted_flags args) w.
Proof.
  destruct args as [ex ab lx ly m o ti te q f]. unfold Histogram.script.
  cbn [exclude_aborted aborted_only without_aborted_flags logx logy metric
       output title telid quiet fileargs].
  destruct ex, ab; reflexivity.
Qed.

Local Abbreviation entry_of :=
  (entry_of json score_array image_filter_equals image_filter_range
     extract_score_array label_of).

(** The calls of the loop body on the filtered score file [jj]. *)
Ltac after_filter jj :=
  let j1 := fresh "j1" in let j2 := fresh "j2" in
  let j3 := fresh "j3" in let j4 := fresh "j4" in
  let H1 := fresh "H1" in let H2 := fresh "H2" in
  let H3 := fresh "H3" in let H4 := fresh "H4" in
  let E1 := fresh "E1" in let E2 := fresh "E2" in
  let E3 := fresh "E3" in let E4 := fresh "E4" in
  let El := fresh "El" in
  destruct (image_filter_range jj "mc_energy" 0.1%float 1%float)
    as [j1|?] eqn:H1; [|discriminate];
  destruct (image_filter_range jj "mc_energy" 1%float 10%float)
    as [j2|?] eqn:H2; [|discriminate];
  destruct (image_filter_range jj "mc_energy" 10%float 100%float)
    as [j3|?] eqn:H3; [|discriminate];
  destruct (image_filter_range jj "mc_energy" 100%float 1000%float)
    as [j4|?] eqn:H4; [|discriminate];
  destruct (io_length jj); [|discriminate];
  destruct (extract_score_array j1 _) as [?a1|?] eqn:E1; [|discriminate];
  destruct (extract_score_array j2 _) as [?a2|?] eqn:E2; [|discriminate];
  destruct (extract_score_array j3 _) as [?a3|?] eqn:E3; [|discriminate];
  destruct (extract_score_array j4 _) as [?a4|?] eqn:E4; [|discriminate];
  destruct (label_of jj) as [?l|?] eqn:El; [|discriminate];
  intros [= <- _]; cbn [rbind].

(** One pass of the loop body: the file was parsed, and its entry is
    appended to each list. *)
Lemma fetch_file_entry (tel_id : option Z) (metric : string)
    (json_file_path : string) (acc lists : fetched score_array)
    (w w' : world) :
  fetch_file tel_id metric json_file_path acc w = (Ok lists, w') ->
  exists (j : json) (e : entry score_array) (w0 w1 : world),
    parse_json_file json_file_path w0 = (Ok j, w1)
    /\ entry_of tel_id metric j = Ok e
    /\ lists = Fetched _ (data_list1 _ acc ++ [scores1 e])
                 (data_list2 _ acc ++ [scores2 e])
                 (data_list3 _ acc ++ [scores3 e])
                 (data_list4 _ acc ++ [scores4 e])
                 (label_list _ acc ++ [entry_label e]).
Proof.
  unfold Histogram.fetch_file, bind, lift, print, ret.
  destruct (parse_json_file json_file_path _) as [[j|e] w1] eqn:Hparse;
    [|discriminate].
  destruct tel_id as [tel|].
  - destruct (image_filter_equals j "tel_id" tel) as [j'|e] eqn:Htel;
      [|discriminate].
    after_filter j'.
    exists j, (Entry a1 a2 a3 a4 l). eexists _, w1.
    split; [exact Hparse|]. split; [|reflexivity].
    unfold HistogramSpec.entry_of. rewrite Htel. cbn [rbind].
    rewrite H1, H2, H3, H4, El. cbn [rbind].
    now rewrite E1, E2, E3, E4.
  - after_filter j.
    exists j, (Entry a1 a2 a3 a4 l). eexists _, w1.
    split; [exact Hparse|]. split; [|reflexivity].
    unfold HistogramSpec.entry_of. cbn [rbind].
    rewrite H1, H2, H3, H4, El. cbn [rbind].
    now rewrite E1, E2, E3, E4.
Qed.

(** X13.  When the loop over the score files ends normally, every score
    file was parsed, and the five lists hold, file by file and in the order
    of the command line, the entry of each: the four lists of score arrays
    and the list of labels handed to the four histograms are parallel, the
    i-th array of each decade and the i-th label coming from the i-th
    file. *)
Theorem fetch_scores_parallel (tel_id : option Z) (metric : string)
    (json_file_path_list : list string) (lists : fetched score_array)
    (w w' : world) :
  fetch_scores tel_id metric json_file_path_list (Fetched _ [] [] [] [] []) w
  = (Ok lists, w') ->
  exists (parsed : list json) (entries : list (entry score_array)),
    Forall2 (fun path j => exists w0 w1 : world,
                             parse_json_file path w0 = (Ok j, w1))
      json_file_path_list parsed
    /\ Forall2 (fun j e => entry_of tel_id metric j = Ok e) parsed entries
    /\ data_list1 _ lists = map scores1 entries
    /\ data_list2 _ lists = map scores2 entries
    /\ data_list3 _ lists = map scores3 entries
    /\ data_list4 _ lists = map scores4 entries
    /\ label_list _ lists = map entry_label entries
    /\ length entries = length json_file_path_list.
Proof.
  assert (Hgen : forall files acc w0,
    fetch_scores tel_id metric files acc w0 = (Ok lists, w') ->
    exists (parsed : list json) (entries : list (entry score_array)),
      Forall2 (fun path j => exists w0 w1 : world,
                               parse_json_file path w0 = (Ok j, w1))
        files parsed
      /\ Forall2 (fun j e => entry_of tel_id metric j = Ok e) parsed entries
      /\ data_list1 _ lists = (data_list1 _ acc ++ map scores1 entries)%list
      /\ data_list2 _ lists = (data_list2 _ acc ++ map scores2 entries)%list
      /\ data_list3 _ lists = (data_list3 _ acc ++ map scores3 entries)%list
      /\ data_list4 _ lists = (data_list4 _ acc ++ map scores4 entries)%list
      /\ label_list _ lists
         = (label_list _ acc ++ map entry_label entries)%list).
  { induction files as [|f files IH]; intros acc w0.
    - simpl. unfold ret. intros [= <- _]. exists [], [].
      split; [constructor|]. split; [constructor|].
      cbn [map]. now rewrite !app_nil_r.
    - simpl. unfold bind at 1.
      destruct (fetch_file tel_id metric f acc w0) as [[acc1|e] w1] eqn:Hf;
        [|discriminate].
      intros Hrest. apply IH in Hrest.
      destruct Hrest as (parsed & entries & Hp & He & R1 & R2 & R3 & R4 & R5).
      apply fetch_file_entry in Hf.
      destruct Hf as (j & e & wa & wb & Hparse & Hentry & ->).
      exists (j :: parsed), (e :: entries).
      split; [constructor; [now exists wa, wb | exact Hp]|].
      split; [constructor; [exact Hentry | exact He]|].
      cbn [data_list1 data_list2 data_list3 data_list4 label_list] in *.
      cbn [map]. rewrite R1, R2, R3, R4, R5, <- !app_assoc. now repeat split. }
  intros Hrun. apply Hgen in Hrun.
  destruct Hrun as (parsed & entries & Hp & He & R1 & R2 & R3 & R4 & R5).
  exists parsed, entries. cbn [app data_list1 data_list2 data_list3 data_list4
    label_list] in *.
  repeat (split; [assumption|]).
  apply Forall2_length in Hp. apply Forall2_length in He. congruence.
Qed.

End Script.

(** Two score files, every call of the library succeeding. *)
Lemma fetch_scores_parallel_witness :
  let run := fetch_scores string unit parse_label keep_equals keep_range
               no_scores one_image label_is (Some 3) "mse"
               ["a.json"; "b.json"] (Fetched unit [] [] [] [] [])
               BenchmarkSamples.empty_world in
  exists (lists : fetched unit) (w' : world),
    run = (Ok lists, w')
    /\ exists (parsed : list string) (entries : list (entry unit)),
         Forall2 (fun path j => exists w0 w1 : world,
                                  parse_label path w0 = (Ok j, w1))
           ["a.json"; "b.json"] parsed
         /\ Forall2 (fun j e => entry_of string unit keep_equals keep_range
                                  no_scores label_is (Some 3) "mse" j = Ok e)
              parsed entries
         /\ data_list1 _ lists = map scores1 entries
         /\ data_list2 _ lists = map scores2 entries
         /\ data_list3 _ lists = map scores3 entries
         /\ data_list4 _ lists = map scores4 entries
         /\ label_list _ lists = map entry_label entries
         /\ length entries = 2%nat.
Proof.
  intros run.
  destruct run as [[lists|e] w'] eqn:Hrun; [|discriminate Hrun].
  exists lists, w'. split; [reflexivity|].
  exact (fetch_scores_parallel string unit parse_label keep_equals keep_range
           no_scores one_image label_is (Some 3) "mse" ["a.json"; "b.json"]
           lists BenchmarkSamples.empty_world w' Hrun).
Defined.

End HistogramProps.

(** ** The Simtel stream *)

Module SimtelProps.
Import Images Simtel GeneratorSpec.

Lemma meta_of_set_meta (i : image) (key : string) (val : meta_value) :
  meta_of (set_meta i key val) = <[key := val]> (meta_of i).
Proof. now destruct i. Qed.

Section Extraction.

Variable quantity : Type.
Variable to_value : quantity -> string -> float.
Variable to_fits_unit : quantity -> string -> string.
Variable guess_cam_id : list float * list float -> quantity -> string.
Variable image_1d_to_2d : ndarray float -> string -> result (ndarray float).
Variable mock_pixel_pos : list float * list float -> list nat -> ndarray float.
Variable hessio_event_source :
  string -> option (list Z) -> result (list (event quantity)).
Variable calibrate :
  option config -> bool -> event quantity -> result (event quantity).
Variable debug_lines : option config -> list string.
Variable expanduser : string -> string.

Local Abbreviation to_images :=
  (simtel_event_to_images quantity guess_cam_id image_1d_to_2d mock_pixel_pos).
Local Abbreviation with_md := (with_metadata quantity to_value to_fits_unit).
Local Abbreviation tel_loop :=
  (telescopes_loop quantity to_value to_fits_unit guess_cam_id image_1d_to_2d
     mock_pixel_pos).
Local Abbreviation ev_loop :=
  (events_loop quantity to_value to_fits_unit guess_cam_id image_1d_to_2d
     mock_pixel_pos calibrate).
Local Abbreviation generator :=
  (simtel_images_generator quantity to_value to_fits_unit guess_cam_id
     image_1d_to_2d mock_pixel_pos hessio_event_source calibrate debug_lines
     expanduser).

(** What [with_metadata] leaves under the keys the filters and the loader
    look at. *)
Lemma with_metadata_lookup (i : image) (ev : event quantity)
    (tel_id event_id : Z) (file_path : string) :
  let m := meta_of (with_md i ev tel_id event_id file_path) in
  m !! "version" = Some (Plain (SInt 1))
  /\ m !! "tel_id" = Some (Plain (SInt tel_id))
  /\ m !! "event_id" = Some (Plain (SInt event_id))
  /\ m !! "file_path" = Some (Plain (SStr file_path))
  /\ m !! "simtel_path" = Some (Plain (SStr file_path))
  /\ m !! "cam_id" = meta_of i !! "cam_id".
Proof.
  unfold with_metadata. cbv zeta. rewrite !meta_of_set_meta.
  repeat split;
    repeat (rewrite lookup_insert_ne by discriminate);
    try (rewrite lookup_insert_eq); reflexivity.
Qed.

Lemma passes_selected_int (x : Z) (filter_list : option (list Z))
    (key : string) (i : image) :
  meta_of i !! key = Some (Plain (SInt x)) ->
  selected_by ImageGenerator.equals_int key filter_list i
  = passes Z.eqb x filter_list.
Proof.
  intros H. unfold selected_by, passes. destruct filter_list; [|reflexivity].
  now rewrite H.
Qed.

Lemma passes_selected_str (x : string) (filter_list : option (list string))
    (key : string) (i : image) :
  meta_of i !! key = Some (Plain (SStr x)) ->
  selected_by ImageGenerator.equals_str key filter_list i
  = passes String.eqb x filter_list.
Proof.
  intros H. unfold selected_by, passes. destruct filter_list; [|reflexivity].
  now rewrite H.
Qed.

Lemma cam_of_lookup (i : image) (cam_id : string) :
  cam_of i = Ok cam_id -> meta_of i !! "cam_id" = Some (Plain (SStr cam_id)).
Proof.
  unfold cam_of. destruct (meta_of i !! "cam_id") as [[[]|]|];
    try discriminate. now intros [= ->].
Qed.

Lemma telescopes_loop_selected (o : options) (file_path : string)
    (tel_filter_list ev_filter_list : option (list Z))
    (cam_filter_list : option (list string)) (ev : event quantity)
    (event_id : Z) (tels : list Z) :
  passes Z.eqb event_id ev_filter_list = true ->
  Forall (fun i => selected tel_filter_list ev_filter_list cam_filter_list i
                   = true /\ stamped file_path i)
    (tel_loop o file_path tel_filter_list cam_filter_list ev event_id tels).1.
Proof.
  intros Hev. induction tels as [|tel_id tels IH]; [constructor|].
  cbn [telescopes_loop].
  destruct (passes Z.eqb tel_id tel_filter_list) eqn:Htel; [|exact IH].
  destruct (to_images ev tel_id (ctapipe_format o) (mix_channels o))
    as [image|e]; cbn [rbind].
  - destruct (cam_of image) as [cam_id|e] eqn:Hcam; cbn [rbind].
    + destruct (passes String.eqb cam_id cam_filter_list) eqn:Hc; [|exact IH].
      cbn [fst]. constructor; [|exact IH].
      destruct (with_metadata_lookup image ev tel_id event_id file_path)
        as (Hv & Ht & He & Hf & Hs & Hk).
      rewrite (cam_of_lookup _ _ Hcam) in Hk.
      split; [|now repeat split].
      unfold selected.
      rewrite (passes_selected_int _ _ _ _ Ht), (passes_selected_int _ _ _ _ He),
        (passes_selected_str _ _ _ _ Hk), Htel, Hev, Hc. reflexivity.
    + destruct e; first [exact IH | constructor].
  - destruct e; first [exact IH | constructor].
Qed.

Lemma events_loop_selected (o : options) (cfg : option config) (off : bool)
    (file_path : string) (tel_filter_list ev_filter_list : option (list Z))
    (cam_filter_list : option (list string)) (events : list (event quantity)) :
  Forall (fun i => selected tel_filter_list ev_filter_list cam_filter_list i
                   = true /\ stamped file_path i)
    (ev_loop o cfg off file_path tel_filter_list ev_filter_list
       cam_filter_list events).1.
Proof.
  induction events as [|raw events IH]; [constructor|].
  cbn [events_loop]. destruct (calibrate cfg off raw) as [ev|e]; [|constructor].
  destruct (passes Z.eqb (dl0_event_id ev) ev_filter_list) eqn:Hev.
  - pose proof (telescopes_loop_selected o file_path tel_filter_list
                  ev_filter_list cam_filter_list ev (dl0_event_id ev)
                  (trig_tels_with_trigger ev) Hev) as Ht.
    destruct (tel_loop _ _ _ _ _ _ _) as [ys [e|]]; cbn [fst snd] in *;
      [exact Ht|].
    apply Forall_app. split; [exact Ht | exact IH].
  - cbn [fst snd app]. exact IH.
Qed.

(** The loops read two options only. *)
Lemma telescopes_loop_options (o o' : options) (file_path : string)
    (tel_filter_list : option (list Z)) (cam_filter_list : option (list string))
    (ev : event quantity) (event_id : Z) (tels : list Z) :
  ctapipe_format o = ctapipe_format o' -> mix_channels o = mix_channels o' ->
  tel_loop o file_path tel_filter_list cam_filter_list ev event_id tels
  = tel_loop o' file_path tel_filter_list cam_filter_list ev event_id tels.
Proof.
  intros Hc Hm. induction tels as [|tel_id tels IH]; [reflexivity|].
  cbn [telescopes_loop]. now rewrite IH, Hc, Hm.
Qed.

Lemma events_loop_options (o o' : options) (cfg : option config) (off : bool)
    (file_path : string) (tel_filter_list ev_filter_list : option (list Z))
    (cam_filter_list : option (list string)) (events : list (event quantity)) :
  ctapipe_format o = ctapipe_format o' -> mix_channels o = mix_channels o' ->
  ev_loop o cfg off file_path tel_filter_list ev_filter_list cam_filter_list
    events
  = ev_loop o' cfg off file_path tel_filter_list ev_filter_list
      cam_filter_list events.
Proof.
  intros Hc Hm. induction events as [|raw events IH]; [reflexivity|].
  cbn [events_loop]. rewrite IH.
  destruct (calibrate cfg off raw) as [ev|e]; [|reflexivity].
  now rewrite (telescopes_loop_options o o' _ _ _ _ _ _ Hc Hm).
Qed.

Lemma generator_selected (file_path : string)
    (tel_filter_list ev_filter_list : option (list Z))
    (cam_filter_list : option (list string)) (o : options) (s : state) :
  Forall (fun i => selected tel_filter_list ev_filter_list cam_filter_list i
                   = true /\ stamped (expanduser file_path) i)
    (run_images (generator file_path tel_filter_list ev_filter_list
                   cam_filter_list o s)).
Proof.
  unfold simtel_images_generator.
  destruct (make_config o) as [cfg|e]; [|constructor].
  cbv zeta.
  destruct (hessio_event_source _ _) as [events|e]; [|constructor].
  cbn [run_images]. apply events_loop_selected.
Qed.

(** X14.  Every image [simtel_images_generator] yields carries the format
    version 1, the expanded path of the file under [file_path] and
    [simtel_path], and a telescope number, an event number and a camera name
    that the three filter lists accept. *)
Theorem simtel_images_are_selected (file_path : string)
    (tel_filter_list ev_filter_list : option (list Z))
    (cam_filter_list : option (list string)) (o : options) (s : state)
    (i : image) :
  In i (run_images (generator file_path tel_filter_list ev_filter_list
                      cam_filter_list o s)) ->
  selected tel_filter_list ev_filter_list cam_filter_list i = true
  /\ stamped (expanduser file_path) i.
Proof.
  intros Hin.
  pose proof (generator_selected file_path tel_filter_list ev_filter_list
                cam_filter_list o s) as H.
  rewrite Forall_forall in H. apply H. now apply list_elem_of_In.
Qed.

Lemma mix_unknown_camera (cam_id : string) (img : list (list float))
    (samples : list (list (list Z))) :
  unknown_camera cam_id ->
  mix_channels_block true cam_id img samples
  = Raise (NotImplementedError ("Unknown camera: " ++ cam_id)).
Proof.
  intros [Hs Ht]. unfold mix_channels_block. rewrite Hs.
  assert (Htwo : str_in cam_id TWO_CHANNELS_CAMERAS
                 = (String.eqb cam_id "ASTRICam"
                    || (String.eqb cam_id "NectarCam"
                        || (String.eqb cam_id "LSTCam" || false)))%bool)
    by reflexivity.
  rewrite Htwo in Ht.
  destruct (String.eqb cam_id "ASTRICam"); [discriminate Ht|].
  destruct (String.eqb cam_id "NectarCam"); [discriminate Ht|].
  destruct (String.eqb cam_id "LSTCam"); [discriminate Ht|].
  reflexivity.
Qed.

Lemma to_images_unknown_camera (ev : event quantity) (tel_id : Z)
    (ctapipe_format mix_channels : bool) :
  let t := tel ev tel_id in
  unknown_camera (guess_cam_id (pixel_pos t) (optical_foclen t)) ->
  (mix_channels = true \/ ctapipe_format = false) ->
  to_images ev tel_id ctapipe_format mix_channels
  = Raise (NotImplementedError
             ("Unknown camera: "
              ++ guess_cam_id (pixel_pos t) (optical_foclen t))).
Proof.
  intros t Hu Hopt. unfold simtel_event_to_images. fold t.
  destruct mix_channels.
  - now rewrite (mix_unknown_camera _ _ _ Hu).
  - destruct Hopt as [Hm | ->]; [discriminate Hm|].
    cbn [mix_channels_block rbind]. destruct Hu as [-> ->]. reflexivity.
Qed.

(** X15.  A telescope whose camera is in neither list of known cameras is
    passed over without an image and without ending the stream, when the
    channels are mixed or the 2-D format is asked for; the loop goes on with
    the next telescope.  With [ctapipe_format] set and [mix_channels] unset
    the camera name is not looked at, and the event gives a 1-D image. *)
Theorem unknown_camera_is_passed_over (o : options) (file_path : string)
    (tel_filter_list : option (list Z)) (cam_filter_list : option (list string))
    (ev : event quantity) (event_id tel_id : Z) (tels : list Z) :
  let t := tel ev tel_id in
  unknown_camera (guess_cam_id (pixel_pos t) (optical_foclen t)) ->
  (if (mix_channels o || negb (ctapipe_format o))%bool then
     tel_loop o file_path tel_filter_list cam_filter_list ev event_id
       (tel_id :: tels)
     = tel_loop o file_path tel_filter_list cam_filter_list ev event_id tels
   else
     exists a b c d e f g h k l m,
       to_images ev tel_id (ctapipe_format o) (mix_channels o)
       = Ok (Image1D a b c d e f g h k l m)).
Proof.
  intros t Hu.
  destruct (mix_channels o) eqn:Hm; cbn [orb].
  - cbn [telescopes_loop].
    destruct (passes Z.eqb tel_id tel_filter_list); [|reflexivity].
    rewrite Hm.
    rewrite (to_images_unknown_camera ev tel_id _ true Hu) by now left.
    reflexivity.
  - destruct (ctapipe_format o) eqn:Hc; cbn [negb].
    + unfold simtel_event_to_images. cbn [mix_channels_block rbind].
      now repeat eexists.
    + cbn [telescopes_loop].
      destruct (passes Z.eqb tel_id tel_filter_list); [|reflexivity].
      rewrite Hm, Hc.
      rewrite (to_images_unknown_camera ev tel_id false false Hu)
        by now right.
      reflexivity.
Qed.

(** X16.  Switching the integration correction off is for good.  A run of
    [simtel_images_generator] that is asked not to correct (the default)
    and gets past the choice of the integrator leaves the correction
    replaced; a later run is then the same whether or not it asks for the
    correction. *)
Theorem integration_correction_stays_off (p1 p2 : string)
    (tf1 ef1 tf2 ef2 : option (list Z)) (cf1 cf2 : option (list string))
    (o1 o2 : options) (cfg : option config) (s : state) :
  integration_correction o1 = false ->
  make_config o1 = Ok cfg ->
  let s1 := exhausted (generator p1 tf1 ef1 cf1 o1 s) in
  correction_off s1 = true
  /\ generator p2 tf2 ef2 cf2 (with_correction true o2) s1
     = generator p2 tf2 ef2 cf2 (with_correction false o2) s1.
Proof.
  intros Hoff Hcfg s1.
  assert (Hs1 : correction_off s1 = true).
  { subst s1. unfold simtel_images_generator. rewrite Hcfg, Hoff. cbv zeta.
    destruct (hessio_event_source _ _) as [events|e]; cbn [exhausted].
    - destruct (events_loop _ _ _ _ _ _ _ _ _ _ _ _ _ _ _).2;
        cbn [close_file correction_off]; apply orb_true_r.
    - cbn [correction_off]. apply orb_true_r. }
  split; [exact Hs1|].
  unfold simtel_images_generator. rewrite Hs1.
  assert (Hmk : make_config (with_correction true o2)
                = make_config (with_correction false o2)) by reflexivity.
  rewrite Hmk. destruct (make_config (with_correction false o2)) as [c2|e];
    [|reflexivity].
  cbv zeta. cbn [orb debug with_correction].
  destruct (hessio_event_source _ _) as [events|e]; [|reflexivity].
  now rewrite (events_loop_options (with_correction true o2)
                 (with_correction false o2)).
Qed.

End Extraction.

Lemma simtel_images_are_selected_witness :
  let r := sample_simtel "ASTRICam" [event_42 [3; 4]] "run.simtel.gz"
             (Some [3]) (Some [42]) (Some ["ASTRICam"]) default_options
             (at_rest two_files) in
  exists i : image,
    In i (run_images r)
    /\ selected (Some [3]) (Some [42]) (Some ["ASTRICam"]) i = true
    /\ stamped (DiscoverySpec.no_tilde "run.simtel.gz") i.
Proof.
  intros r.
  assert (E : exists i : image, In i (run_images r)).
  { destruct (run_images r) as [|i l] eqn:E;
      [vm_compute in E; discriminate E|].
    exists i. now left. }
  destruct E as [i Hin]. exists i. split; [exact Hin|].
  exact (simtel_images_are_selected unit no_value unit_name
           (camera "ASTRICam") same_array no_positions
           (source_of [event_42 [3; 4]]) as_it_is silent
           DiscoverySpec.no_tilde "run.simtel.gz" (Some [3]) (Some [42])
           (Some ["ASTRICam"]) default_options (at_rest two_files) i Hin).
Defined.

Lemma unknown_camera_is_passed_over_witness :
  unknown_camera "FooCam"
  /\ telescopes_loop unit no_value unit_name (camera "FooCam") same_array
       no_positions default_options "run.simtel.gz" None None
       (event_42 [3; 4]) 42 (3 :: [4])
     = telescopes_loop unit no_value unit_name (camera "FooCam") same_array
         no_positions default_options "run.simtel.gz" None None
         (event_42 [3; 4]) 42 [4].
Proof.
  assert (Hu : unknown_camera "FooCam") by (split; reflexivity).
  split; [exact Hu|].
  exact (unknown_camera_is_passed_over unit no_value unit_name
           (camera "FooCam") same_array no_positions default_options
           "run.simtel.gz" None None (event_42 [3; 4]) 42 3 [4] Hu).
Defined.

Lemma integration_correction_stays_off_witness :
  integration_correction default_options = false
  /\ make_config default_options
     = Ok (Some (Config "LocalPeakIntegrator" (Some 5) (Some 2) None None
                   None None))
  /\ let s1 := exhausted (sample_simtel "ASTRICam" [event_42 [3]]
                            "run.simtel.gz" None None None default_options
                            (at_rest two_files)) in
     correction_off s1 = true
     /\ sample_simtel "ASTRICam" [event_42 [3]] "other.simtel" None None None
          (with_correction true default_options) s1
        = sample_simtel "ASTRICam" [event_42 [3]] "other.simtel" None None
            None (with_correction false default_options) s1.
Proof.
  split; [reflexivity|]. split; [reflexivity|].
  exact (integration_correction_stays_off unit no_value unit_name
           (camera "ASTRICam") same_array no_positions
           (source_of [event_42 [3]]) as_it_is silent DiscoverySpec.no_tilde
           "run.simtel.gz" "other.simtel" None None None None None None
           default_options default_options _ (at_rest two_files)
           eq_refl eq_refl).
Defined.

End SimtelProps.

(** ** The file handle of [load_benchmark_images] *)

Module HandleProps.
Import Images FitsSpec HandleSpec.

Section Steps.

Context {B : Type} (P : result B * world -> Prop).

Lemma step_lift {A} (x : result A) (k : A -> M B) (w : world) :
  (forall e : exn, x = Raise e -> P (Raise e, w)) ->
  (forall a : A, x = Ok a -> P (k a w)) ->
  P (bind (lift x) k w).
Proof.
  intros He Ha. unfold bind, lift. destruct x as [a|e]; [now apply Ha|].
  now apply He.
Qed.

Lemma step_read_value (h : header) (md : gmap string scalar)
    (name key : string) (k : gmap string scalar -> M B) (w : world) :
  P (Raise (KeyError key), w) ->
  (forall v : scalar, P (k (<[name := v]> md) w)) ->
  P (bind (read_value h md name key) k w).
Proof.
  intros He Hv. unfold read_value, header_get, bind, lift, ret.
  destruct (h !! upper key) as [c|]; [apply Hv | exact He].
Qed.

Lemma step_read_comment (h : header) (md : gmap string scalar)
    (name key : string) (k : gmap string scalar -> M B) (w : world) :
  P (Raise (KeyError key), w) ->
  (forall v : scalar, P (k (<[name := v]> md) w)) ->
  P (bind (read_comment h md name key) k w).
Proof.
  intros He Hv. unfold read_comment, comments_get, bind, lift, ret.
  destruct (h !! upper key) as [c|]; [apply Hv | exact He].
Qed.

End Steps.

Lemma closed_again (w : world) (path : string) :
  MkWorld (fs (opened w path))
    (remove_first path (open_fits (opened w path))) (stdout (opened w path))
  = w.
Proof.
  destruct w as [t o out]. unfold opened. cbn.
  now rewrite String.eqb_refl.
Qed.

Lemma load_benchmark_images_world
    (np_nansum np_nanmin np_nanmax : list float -> float) (path : string)
    (w : world) :
  let r := load_benchmark_images np_nansum np_nanmin np_nanmax path w in
  r.2 = left_by path w r.1.
Proof.
  set (P := fun r : result (images_dict * gmap string scalar) * world =>
              r.2 = left_by path w r.1).
  change (P (load_benchmark_images np_nansum np_nanmin np_nanmax path w)).
  unfold load_benchmark_images.
  unfold bind at 1, fits_open.
  destruct (fs w !! path) as [[[hdus| |]|]|];
    try (unfold P; cbn; now rewrite String.eqb_refl).
  change (MkWorld (fs w) (path :: open_fits w) (stdout w))
    with (opened w path).
  apply step_lift; [intros e He|intros hdu0 _].
  { unfold hdu_list_get in He. destruct (hdus !! 0%nat); [discriminate He|].
    injection He as <-. reflexivity. }
  cbv zeta.
  repeat first
    [ apply step_read_value; [reflexivity | intros ?]
    | apply step_read_comment; [reflexivity | intros ?] ].
  apply step_lift; [intros e He|intros version _].
  { destruct (_ !! "version"); [discriminate He|]. injection He as <-.
    reflexivity. }
  destruct (equals_one version).
  - match goal with
    | |- context [if ?c then _ else _] => destruct c
    end.
    + unfold P, bind, fits_close, raise. cbn [fst snd left_by raised_closed].
      rewrite String.eqb_refl. apply closed_again.
    + destruct hdus as [|h0 [|h1 [|h2 [|h3 [|h4 [|h5 [|h6 [|h7 t]]]]]]]];
        try reflexivity.
      unfold bind at 1, ret at 1. cbn [reference_image].
      apply step_lift; [intros e He|intros npe _].
      { unfold nan_sum in He. destruct (hdu_data h1); [discriminate He|].
        injection He as <-. reflexivity. }
      apply step_lift; [intros e He|intros min_npe _].
      { unfold nan_reduce in He.
        destruct (hdu_data h1) as [reference|];
          [destruct (data reference); [|discriminate He]|];
          injection He as <-; reflexivity. }
      apply step_lift; [intros e He|intros max_npe _].
      { unfold nan_reduce in He.
        destruct (hdu_data h1) as [reference|];
          [destruct (data reference); [|discriminate He]|];
          injection He as <-; reflexivity. }
      unfold P, bind, fits_close, ret. cbn [fst snd left_by].
      apply closed_again.
  - reflexivity.
Qed.

(** X17.  What [load_benchmark_images] leaves of the file it opens.  When
    it returns, and when it raises [WrongFitsFileStructure] or cannot open
    the file, the world is as it was before the call: nothing is left open.
    Every other exception ([KeyError] for a missing keyword, the exception
    for an unknown version, [ValueError], [TypeError], [IndexError]) leaves
    the file open. *)
Theorem load_benchmark_images_handle
    (np_nansum np_nanmin np_nanmax : list float -> float) (path : string)
    (w : world) :
  let r := load_benchmark_images np_nansum np_nanmin np_nanmax path w in
  match r.1 with
  | Ok _ => r.2 = w
  | Raise e =>
      if raised_closed path e then r.2 = w
      else r.2 = opened w path /\ open_fits r.2 = path :: open_fits w
  end.
Proof.
  intros r.
  pose proof (load_benchmark_images_world np_nansum np_nanmin np_nanmax path w)
    as H.
  cbv zeta in H. fold r in H. unfold left_by in H.
  destruct r.1 as [x|e]; [exact H|].
  destruct (raised_closed path e); [exact H|].
  split; [exact H | now rewrite H].
Qed.

End HandleProps.

(** ** [image_generator] *)

Module GeneratorProps.
Import Images Simtel ImageGenerator GeneratorSpec.

(** The loop over the images of one Simtel file, without a limit and with
    one. *)
Lemma simtel_loop_unlimited (imgs : list image) (c : Z) :
  simtel_loop None imgs c = (imgs, c + Z.of_nat (length imgs), false).
Proof.
  revert c. induction imgs as [|i imgs IH]; intros c; cbn [simtel_loop].
  - cbn [length]. now replace (c + Z.of_nat 0) with c by lia.
  - cbn [at_limit]. rewrite IH. cbn [length]. do 2 f_equal. lia.
Qed.

Lemma simtel_loop_limited (N : Z) (imgs : list image) (c : Z) :
  let n := Z.to_nat (N - c) in
  simtel_loop (Some N) imgs c
  = (take n imgs, c + Z.of_nat (Nat.min n (length imgs)),
     (n <? length imgs)%nat).
Proof.
  revert c. induction imgs as [|i imgs IH]; intros c n; cbn [simtel_loop].
  - rewrite take_nil. cbn [length]. rewrite Nat.min_0_r.
    replace (c + Z.of_nat 0) with c by lia.
    now destruct n.
  - unfold at_limit. destruct (Z.geb_spec c N) as [Hge|Hlt].
    + assert (Hn : n = 0%nat) by (subst n; lia). rewrite Hn. cbn.
      now replace (c + Z.of_nat 0) with c by lia.
    + specialize (IH (c + 1)). cbv zeta in IH. rewrite IH.
      assert (Hn : n = S (Z.to_nat (N - (c + 1)))) by (subst n; lia).
      rewrite Hn. cbn [take length Nat.min]. f_equal. f_equal. lia.
Qed.

Lemma simtel_loop_prefix (max_num_images : option Z) (imgs : list image)
    (c : Z) :
  exists rest : list image,
    imgs = ((simtel_loop max_num_images imgs c).1.1 ++ rest)%list.
Proof.
  destruct max_num_images as [N|].
  - rewrite simtel_loop_limited. cbn [fst].
    exists (drop (Z.to_nat (N - c)) imgs). now rewrite take_drop.
  - rewrite simtel_loop_unlimited. cbn [fst]. exists []. now rewrite app_nil_r.
Qed.

Lemma field_passes_selected {A} (eq : scalar -> A -> bool)
    (d : images_dict) (md : gmap string scalar) (key : string)
    (filter_list : option (list A)) :
  field_passes eq md key filter_list = Ok true ->
  selected_by eq key filter_list (of_benchmark d md) = true.
Proof.
  unfold field_passes, selected_by. destruct filter_list as [l|]; [|reflexivity].
  cbn [meta_of of_benchmark]. rewrite lookup_fmap.
  destruct (md !! key) as [v|]; [|discriminate]. cbn. now intros [= ->].
Qed.

Section Generator.

Variables np_nansum np_nanmin np_nanmax : list float -> float.
Variable quantity : Type.
Variable to_value : quantity -> string -> float.
Variable to_fits_unit : quantity -> string -> string.
Variable guess_cam_id : list float * list float -> quantity -> string.
Variable image_1d_to_2d : ndarray float -> string -> result (ndarray float).
Variable mock_pixel_pos : list float * list float -> list nat -> ndarray float.
Variable hessio_event_source :
  string -> option (list Z) -> result (list (event quantity)).
Variable calibrate :
  option config -> bool -> event quantity -> result (event quantity).
Variable debug_lines : option config -> list string.
Variable expanduser : string -> string.

Local Abbreviation simtel :=
  (simtel_images_generator quantity to_value to_fits_unit guess_cam_id
     image_1d_to_2d mock_pixel_pos hessio_event_source calibrate debug_lines
     expanduser).
Local Abbreviation loop :=
  (files_loop np_nansum np_nanmin np_nanmax quantity to_value to_fits_unit
     guess_cam_id image_1d_to_2d mock_pixel_pos hessio_event_source calibrate
     debug_lines expanduser).
Local Abbreviation generator :=
  (image_generator np_nansum np_nanmin np_nanmax quantity to_value
     to_fits_unit guess_cam_id image_1d_to_2d mock_pixel_pos
     hessio_event_source calibrate debug_lines expanduser).

Variables tel_filter_list ev_filter_list : option (list Z).
Variable cam_filter_list : option (list string).
Variable o : options.

Local Abbreviation loop' max_num_images :=
  (loop max_num_images tel_filter_list ev_filter_list cam_filter_list o).

(** Without a limit the counter plays no part. *)
Lemma files_loop_counter (files : list string) (ending : option exn) :
  forall (c c' : Z) (s : state),
    loop' None files ending c s = loop' None files ending c' s.
Proof.
  induction files as [|file_path files IH]; intros c c' s; [reflexivity|].
  cbn [files_loop at_limit].
  destruct (endswith_any (lower file_path) [".simtel"; ".simtel.gz"]).
  - destruct (simtel _ _ _ _ _ _) as [e s'|s' imgs ending']; [reflexivity|].
    rewrite !simtel_loop_unlimited.
    destruct ending' as [e|]; [reflexivity|].
    now rewrite (IH (c + Z.of_nat (length imgs)) (c' + Z.of_nat (length imgs))).
  - destruct (endswith_any (lower file_path) [".fits"; ".fit"]); [|reflexivity].
    destruct (load_benchmark_images _ _ _ _ _) as [[[d md]|e] w];
      [|reflexivity].
    cbv zeta. destruct (rbind _ _) as [[|]|e]; [| |reflexivity].
    + now rewrite (IH (c + 1) (c' + 1)).
    + apply IH.
Qed.

Lemma files_loop_at_limit (N : Z) (files : list string) (ending : option exn)
    (c : Z) (s : state) :
  N <= c -> images (loop' (Some N) files ending c s) = [].
Proof.
  intros Hc. destruct files as [|file_path files]; [reflexivity|].
  cbn [files_loop at_limit]. destruct (Z.geb_spec c N); [reflexivity|lia].
Qed.

Lemma files_loop_take (N : Z) (files : list string) (ending : option exn) :
  forall (c : Z) (s : state),
    images (loop' (Some N) files ending c s)
    = take (Z.to_nat (N - c)) (images (loop' None files ending c s)).
Proof.
  induction files as [|file_path files IH]; intros c s;
    [cbn [files_loop images]; now rewrite take_nil|].
  cbn [files_loop at_limit].
  destruct (Z.geb_spec c N) as [Hge|Hlt].
  { replace (Z.to_nat (N - c)) with 0%nat by lia. reflexivity. }
  destruct (endswith_any (lower file_path) [".simtel"; ".simtel.gz"]).
  - destruct (simtel _ _ _ _ _ _) as [e s'|s' imgs ending'];
      [cbn [images]; now rewrite take_nil|].
    rewrite simtel_loop_limited, simtel_loop_unlimited. cbv zeta.
    set (n := Z.to_nat (N - c)).
    destruct (Nat.ltb_spec n (length imgs)) as [Hn|Hn].
    + cbn [images].
      rewrite files_loop_at_limit, app_nil_r by lia.
      destruct ending' as [e|]; cbn [images];
        [|rewrite take_app_le by lia]; reflexivity.
    + rewrite (take_ge imgs n) by lia. rewrite Nat.min_r by lia.
      destruct ending' as [e|]; cbn [images]; [now rewrite take_ge by lia|].
      rewrite IH, take_app_ge by lia. do 2 f_equal. lia.
  - destruct (endswith_any (lower file_path) [".fits"; ".fit"]);
      [|cbn [images]; now rewrite take_nil].
    destruct (load_benchmark_images _ _ _ _ _) as [[[d md]|e] w];
      [|cbn [images]; now rewrite take_nil].
    cbv zeta. destruct (rbind _ _) as [[|]|e]; cbn [images].
    + rewrite IH, (files_loop_counter files ending (c + 1) c).
      replace (Z.to_nat (N - c)) with (S (Z.to_nat (N - (c + 1)))) by lia.
      reflexivity.
    + apply IH.
    + now rewrite take_nil.
Qed.

(** X18.  [max_num_images] only cuts the stream short: with the limit [N]
    the generator yields the first [N] images of what it yields without a
    limit (none for a negative [N]), and so never more than [N]. *)
Theorem image_generator_limit (path_list : list string) (N : Z) (s : state) :
  let limited :=
    generator path_list (Some N) tel_filter_list ev_filter_list
      cam_filter_list o s in
  let unlimited :=
    generator path_list None tel_filter_list ev_filter_list cam_filter_list
      o s in
  images limited = take (Z.to_nat N) (images unlimited)
  /\ (length (images limited) <= Z.to_nat N)%nat.
Proof.
  intros limited unlimited.
  assert (H : images limited = take (Z.to_nat N) (images unlimited)).
  { subst limited unlimited. unfold image_generator.
    rewrite files_loop_take. now replace (N - 0) with N by lia. }
  split; [exact H|]. rewrite H, length_take. lia.
Qed.

Lemma files_loop_selected (max_num_images : option Z) (files : list string)
    (ending : option exn) :
  forall (c : Z) (s : state),
    Forall (fun i => selected tel_filter_list ev_filter_list cam_filter_list i
                     = true)
      (images (loop' max_num_images files ending c s)).
Proof.
  induction files as [|file_path files IH]; intros c s; [constructor|].
  cbn [files_loop].
  destruct (at_limit max_num_images c); [constructor|].
  destruct (endswith_any (lower file_path) [".simtel"; ".simtel.gz"]).
  - pose proof (SimtelProps.generator_selected quantity to_value to_fits_unit
                  guess_cam_id image_1d_to_2d mock_pixel_pos
                  hessio_event_source calibrate debug_lines expanduser
                  file_path tel_filter_list ev_filter_list cam_filter_list
                  o s) as Hsel.
    destruct (simtel _ _ _ _ _ _) as [e s'|s' imgs ending']; [constructor|].
    cbn [run_images] in Hsel.
    destruct (simtel_loop_prefix max_num_images imgs c) as [rest Hrest].
    destruct (simtel_loop max_num_images imgs c) as [[ys c'] broke].
    cbn [fst] in Hrest. rewrite Hrest in Hsel.
    apply Forall_app in Hsel as [Hys _].
    assert (Hys' : Forall (fun i => selected tel_filter_list ev_filter_list
                                      cam_filter_list i = true) ys).
    { eapply Forall_impl; [exact Hys|]. now intros i [Hi _]. }
    destruct (if broke then None else ending') as [e|]; cbn [images];
      [exact Hys'|].
    apply Forall_app. split; [exact Hys' | apply IH].
  - destruct (endswith_any (lower file_path) [".fits"; ".fit"]);
      [|constructor].
    destruct (load_benchmark_images _ _ _ _ _) as [[[d md]|e] w];
      [|constructor].
    cbv zeta.
    destruct (field_passes equals_int md "tel_id" tel_filter_list)
      as [[|]|e] eqn:Ht; cbn [rbind]; [| apply IH | constructor].
    destruct (field_passes equals_int md "event_id" ev_filter_list)
      as [[|]|e] eqn:He; cbn [rbind]; [| apply IH | constructor].
    destruct (field_passes equals_str md "cam_id" cam_filter_list)
      as [[|]|e] eqn:Hc; [| apply IH | constructor].
    cbn [images]. constructor; [|apply IH].
    unfold selected.
    now rewrite (field_passes_selected _ d _ _ _ Ht),
      (field_passes_selected _ d _ _ _ He),
      (field_passes_selected _ d _ _ _ Hc).
Qed.

(** X19.  Every image [image_generator] yields, from a Simtel file or from
    a FITS file, has a telescope number, an event number and a camera name
    that the three filter lists accept. *)
Theorem image_generator_selected (path_list : list string)
    (max_num_images : option Z) (s : state) (i : image) :
  In i (images (generator path_list max_num_images tel_filter_list
                  ev_filter_list cam_filter_list o s)) ->
  selected tel_filter_list ev_filter_list cam_filter_list i = true.
Proof.
  intros Hin. unfold image_generator in Hin.
  pose proof (files_loop_selected max_num_images
                (yielded (image_files_in_paths expanduser (fs (world_of s))
                            path_list None))
                (raised (image_files_in_paths expanduser (fs (world_of s))
                           path_list None)) 0 s) as H.
  rewrite Forall_forall in H. apply H. now apply list_elem_of_In.
Qed.

(** X20.  A regular file named in the path list is not filtered by its
    extension when the paths are listed, so a first path with another
    extension than the four known ones ends the stream at once with the
    exception "Wrong item", whatever follows it in the list; unless the
    limit is zero or negative, in which case the stream ends normally before
    the extension is looked at.  Either way nothing is yielded and the state
    is untouched. *)
Theorem unknown_extension_ends_the_stream (p : string) (rest : list string)
    (max_num_images : option Z) (s : state) :
  isdir (fs (world_of s)) (expanduser p) = false ->
  isfile (fs (world_of s)) (expanduser p) = true ->
  endswith_any (lower (expanduser p)) FILE_EXT = false ->
  generator (p :: rest) max_num_images tel_filter_list ev_filter_list
    cam_filter_list o s
  = if at_limit max_num_images 0 then Outcome [] None s
    else Outcome [] (Some (PyException ["Wrong item:"; expanduser p])) s.
Proof.
  intros Hd Hf Hext. unfold image_generator, image_files_in_paths.
  cbn [image_files_in_paths_loop]. rewrite Hd, Hf. cbn [over_limit yielded].
  cbn [files_loop]. destruct (at_limit max_num_images 0); [reflexivity|].
  unfold endswith_any, FILE_EXT in Hext. cbn [existsb] in Hext.
  apply orb_false_iff in Hext as [H1 Hext].
  apply orb_false_iff in Hext as [H2 Hext].
  apply orb_false_iff in Hext as [H3 Hext].
  apply orb_false_iff in Hext as [H4 _].
  unfold endswith_any. cbn [existsb]. now rewrite H1, H2, H3, H4.
Qed.

Lemma files_loop_closed (max_num_images : option Z) (files : list string)
    (ending : option exn) :
  forall (c : Z) (s : state),
    failure (loop' max_num_images files ending c s) = None ->
    open_fits (world_of (final (loop' max_num_images files ending c s)))
    = open_fits (world_of s)
    /\ (hessio_file s = None ->
        hessio_file (final (loop' max_num_images files ending c s)) = None).
Proof.
  induction files as [|file_path files IH]; intros c s; [now split|].
  cbn [files_loop].
  destruct (at_limit max_num_images c); [now split|].
  destruct (endswith_any (lower file_path) [".simtel"; ".simtel.gz"]).
  - unfold simtel_images_generator.
    destruct (make_config o) as [cfg|e]; [|discriminate].
    cbv zeta. destruct (hessio_event_source _ _) as [events|e]; [|discriminate].
    destruct (simtel_loop _ _ _) as [[ys c'] broke].
    destruct (if broke then None else _) as [e|]; [discriminate|].
    cbn [failure final]. intros Hok.
    destruct (IH _ _ Hok) as [Hw Hh]. split; [exact Hw|].
    intros _. now apply Hh.
  - destruct (endswith_any (lower file_path) [".fits"; ".fit"]);
      [|discriminate].
    pose proof (HandleProps.load_benchmark_images_world np_nansum np_nanmin
                  np_nanmax file_path (world_of s)) as Hload.
    cbv zeta in Hload.
    destruct (load_benchmark_images _ _ _ _ _) as [[[d md]|e] w];
      [|discriminate].
    cbn [fst snd HandleSpec.left_by] in Hload. subst w.
    cbv zeta. destruct (rbind _ _) as [[|]|e]; [| |discriminate];
      cbn [failure final]; intros Hok;
      destruct (IH _ _ Hok) as [Hw Hh]; (split; [exact Hw | exact Hh]).
Qed.

(** X21.  A stream that ends without an exception leaves nothing open:
    the FITS files open afterwards are those open before, and pyhessio has
    no file open if it had none before, also when the limit stopped the
    stream in the middle of a Simtel file. *)
Theorem image_generator_leaves_nothing_open (path_list : list string)
    (max_num_images : option Z) (s : state) :
  let r := generator path_list max_num_images tel_filter_list ev_filter_list
             cam_filter_list o s in
  failure r = None ->
  open_fits (world_of (final r)) = open_fits (world_of s)
  /\ (hessio_file s = None -> hessio_file (final r) = None).
Proof.
  intros r Hok. subst r. unfold image_generator in *.
  now apply files_loop_closed.
Qed.

End Generator.

Lemma image_generator_selected_witness :
  let r := sample_generator "ASTRICam" [event_42 [3; 4]] ["run.simtel.gz"]
             (Some 1) (Some [3; 4]) None (Some ["ASTRICam"]) default_options
             (at_rest two_files) in
  exists i : image,
    In i (images r)
    /\ selected (Some [3; 4]) None (Some ["ASTRICam"]) i = true.
Proof.
  intros r.
  assert (E : exists i : image, In i (images r)).
  { destruct (images r) as [|i l] eqn:E;
      [vm_compute in E; discriminate E|].
    exists i. now left. }
  destruct E as [i Hin]. exists i. split; [exact Hin|].
  exact (image_generator_selected BenchmarkSamples.nansum_seq
           BenchmarkSamples.nanmin_seq BenchmarkSamples.nanmax_seq unit
           no_value unit_name (camera "ASTRICam") same_array no_positions
           (source_of [event_42 [3; 4]]) as_it_is silent
           DiscoverySpec.no_tilde (Some [3; 4]) None (Some ["ASTRICam"])
           default_options ["run.simtel.gz"] (Some 1) (at_rest two_files)
           i Hin).
Defined.

Lemma unknown_extension_ends_the_stream_witness :
  isdir (fs two_files) (DiscoverySpec.no_tilde "notes.txt") = false
  /\ isfile (fs two_files) (DiscoverySpec.no_tilde "notes.txt") = true
  /\ endswith_any (lower (DiscoverySpec.no_tilde "notes.txt")) FILE_EXT = false
  /\ sample_generator "ASTRICam" [event_42 [3]]
       ("notes.txt" :: ["run.simtel.gz"]) None None None None default_options
       (at_rest two_files)
     = Outcome [] (Some (PyException ["Wrong item:"; "notes.txt"]))
         (at_rest two_files)
  /\ sample_generator "ASTRICam" [event_42 [3]]
       ("notes.txt" :: ["run.simtel.gz"]) (Some 0) None None None
       default_options (at_rest two_files)
     = Outcome [] None (at_rest two_files).
Proof.
  split; [reflexivity|]. split; [reflexivity|]. split; [reflexivity|].
  split.
  - exact (unknown_extension_ends_the_stream BenchmarkSamples.nansum_seq
             BenchmarkSamples.nanmin_seq BenchmarkSamples.nanmax_seq unit
             no_value unit_name (camera "ASTRICam") same_array no_positions
             (source_of [event_42 [3]]) as_it_is silent DiscoverySpec.no_tilde
             None None None default_options "notes.txt" ["run.simtel.gz"]
             None (at_rest two_files) eq_refl eq_refl eq_refl).
  - exact (unknown_extension_ends_the_stream BenchmarkSamples.nansum_seq
             BenchmarkSamples.nanmin_seq BenchmarkSamples.nanmax_seq unit
             no_value unit_name (camera "ASTRICam") same_array no_positions
             (source_of [event_42 [3]]) as_it_is silent DiscoverySpec.no_tilde
             None None None default_options "notes.txt" ["run.simtel.gz"]
             (Some 0) (at_rest two_files) eq_refl eq_refl eq_refl).
Defined.

Lemma image_generator_leaves_nothing_open_witness :
  let r := sample_generator "ASTRICam" [event_42 [3; 4]] ["run.simtel.gz"]
             (Some 1) None None None default_options (at_rest two_files) in
  failure r = None
  /\ open_fits (world_of (final r)) = open_fits (world_of (at_rest two_files))
  /\ (hessio_file (at_rest two_files) = None -> hessio_file (final r) = None).
Proof.
  intros r.
  assert (Hok : failure r = None) by (vm_compute; reflexivity).
  split; [exact Hok|].
  exact (image_generator_leaves_nothing_open BenchmarkSamples.nansum_seq
           BenchmarkSamples.nanmin_seq BenchmarkSamples.nanmax_seq unit
           no_value unit_name (camera "ASTRICam") same_array no_positions
           (source_of [event_42 [3; 4]]) as_it_is silent
           DiscoverySpec.no_tilde None None None default_options
           ["run.simtel.gz"] (Some 1) (at_rest two_files) Hok).
Defined.

End GeneratorProps.
